(** * NeuroTrace anonymous telemetry: client scheduler and ingestion server

    A shallow embedding of [src/Telemetry/telemetry_server.js] (rate limiter,
    validator, sanitizer, ingestion endpoint) and of
    [src/src/TelemetryManager.ts] (submission schedule, retry chain, retention
    pruning, transport, event tracking, status changes, start-up), followed by
    the properties of the specification that were checked against them, and by
    further properties of the code.

    Conventions of the embedding.
    - JavaScript strings are Rocq [string]s; a character stands for the code
      unit of the same number (U+0000 .. U+00FF), so [String.length] is the
      [.length] of the source.
    - JavaScript numbers are modelled on their integer range by [Z]
      ([Date.now()] instants in milliseconds, counters, lengths).
    - A thrown exception is the [Throw] case of [outcome]; [try]/[catch]
      becomes a [match] on it.
    - Every [async] callback runs to completion at the instant it starts:
      awaited calls are sequenced, and time only moves between callbacks.
    - A write to the batch file or to the data directory succeeds; what the
      network answers, and what the clock and the random source give, are
      inputs. *)

From Stdlib Require Import ZArith String Ascii List Lia Bool DecimalString.
From stdpp Require Import gmap strings list.
Import ListNotations.
Open Scope Z_scope.

(* ===================================================================== *)
(** * Part I. Definitions                                                 *)
(* ===================================================================== *)

(** ** SHA-256 (FIPS 180-4), as computed by Node's
       [crypto.createHash('sha256').update(s).digest('hex')] *)
Module SHA256.

Definition mask32 : Z := 0xFFFFFFFF.
Definition trunc32 (x : Z) : Z := Z.land x mask32.
Definition plus32 (x y : Z) : Z := trunc32 (x + y).
Definition rotr (n x : Z) : Z :=
  Z.lor (Z.shiftr x n) (trunc32 (Z.shiftl x (32 - n))).
Definition not32 (x : Z) : Z := Z.lxor x mask32.

Definition Ch (x y z : Z) : Z := Z.lxor (Z.land x y) (Z.land (not32 x) z).
Definition Maj (x y z : Z) : Z :=
  Z.lxor (Z.lxor (Z.land x y) (Z.land x z)) (Z.land y z).
Definition bigsigma0 (x : Z) : Z := Z.lxor (Z.lxor (rotr 2 x) (rotr 13 x)) (rotr 22 x).
Definition bigsigma1 (x : Z) : Z := Z.lxor (Z.lxor (rotr 6 x) (rotr 11 x)) (rotr 25 x).
Definition smallsigma0 (x : Z) : Z := Z.lxor (Z.lxor (rotr 7 x) (rotr 18 x)) (Z.shiftr x 3).
Definition smallsigma1 (x : Z) : Z := Z.lxor (Z.lxor (rotr 17 x) (rotr 19 x)) (Z.shiftr x 10).

(** Round constants K0 .. K63 (0x428a2f98 first, 0xc67178f2 last), written
    in decimal. *)
Definition round_constants : list Z :=
  [1116352408; 1899447441; 3049323471; 3921009573;
   961987163; 1508970993; 2453635748; 2870763221;
   3624381080; 310598401; 607225278; 1426881987;
   1925078388; 2162078206; 2614888103; 3248222580;
   3835390401; 4022224774; 264347078; 604807628;
   770255983; 1249150122; 1555081692; 1996064986;
   2554220882; 2821834349; 2952996808; 3210313671;
   3336571891; 3584528711; 113926993; 338241895;
   666307205; 773529912; 1294757372; 1396182291;
   1695183700; 1986661051; 2177026350; 2456956037;
   2730485921; 2820302411; 3259730800; 3345764771;
   3516065817; 3600352804; 4094571909; 275423344;
   430227734; 506948616; 659060556; 883997877;
   958139571; 1322822218; 1537002063; 1747873779;
   1955562222; 2024104815; 2227730452; 2361852424;
   2428436474; 2756734187; 3204031479; 3329325298].

(** The chaining value: eight 32-bit words. *)
Record chain := Chain { ca : Z; cb : Z; cc : Z; cd : Z; ce : Z; cf : Z; cg : Z; ch : Z }.

Definition initial_chain : chain :=
  Chain 0x6a09e667 0xbb67ae85 0x3c6ef372 0xa54ff53a
        0x510e527f 0x9b05688c 0x1f83d9ab 0x5be0cd19.

(** Padding: the byte 0x80, zero bytes up to 56 modulo 64, then the bit
    length as a 64-bit big-endian integer. *)
Definition be_bytes (count : nat) (x : Z) : list Z :=
  map (fun i => Z.land (Z.shiftr x (8 * Z.of_nat i)) 0xFF) (rev (seq 0 count)).

Definition pad (msg : list Z) : list Z :=
  let len := Z.of_nat (List.length msg) in
  let zeros := Z.to_nat ((55 - len) mod 64) in
  msg ++ [0x80] ++ repeat 0 zeros ++ be_bytes 8 (8 * len).

Fixpoint words_of_bytes (l : list Z) : list Z :=
  match l with
  | b0 :: b1 :: b2 :: b3 :: rest =>
      (Z.lor (Z.shiftl b0 24) (Z.lor (Z.shiftl b1 16) (Z.lor (Z.shiftl b2 8) b3)))
        :: words_of_bytes rest
  | _ => []
  end.

(** Message schedule, most recent word first: [rw] holds W(t-1), W(t-2), ... *)
Fixpoint extend_schedule (count : nat) (rw : list Z) : list Z :=
  match count with
  | O => rw
  | S count' =>
      let wt := plus32 (plus32 (plus32 (smallsigma1 (nth 1 rw 0)) (nth 6 rw 0))
                               (smallsigma0 (nth 14 rw 0))) (nth 15 rw 0) in
      extend_schedule count' (wt :: rw)
  end.

Definition schedule (block : list Z) : list Z :=
  rev (extend_schedule 48 (rev block)).

Definition round (c : chain) (kw : Z * Z) : chain :=
  let t1 := plus32 (plus32 (plus32 (plus32 (ch c) (bigsigma1 (ce c)))
                                   (Ch (ce c) (cf c) (cg c))) (fst kw)) (snd kw) in
  let t2 := plus32 (bigsigma0 (ca c)) (Maj (ca c) (cb c) (cc c)) in
  Chain (plus32 t1 t2) (ca c) (cb c) (cc c) (plus32 (cd c) t1) (ce c) (cf c) (cg c).

Definition compress (c : chain) (block : list Z) : chain :=
  let r := fold_left round (combine round_constants (schedule block)) c in
  Chain (plus32 (ca c) (ca r)) (plus32 (cb c) (cb r)) (plus32 (cc c) (cc r))
        (plus32 (cd c) (cd r)) (plus32 (ce c) (ce r)) (plus32 (cf c) (cf r))
        (plus32 (cg c) (cg r)) (plus32 (ch c) (ch r)).

(** The padded message is consumed sixteen words at a time; [fuel] bounds
    the number of blocks. *)
Fixpoint absorb (fuel : nat) (c : chain) (ws : list Z) : chain :=
  match fuel with
  | O => c
  | S fuel' =>
      match ws with
      | [] => c
      | _ => absorb fuel' (compress c (firstn 16 ws)) (skipn 16 ws)
      end
  end.

Definition digest_words (msg : list Z) : list Z :=
  let ws := words_of_bytes (pad msg) in
  let c := absorb (List.length ws) initial_chain ws in
  [ca c; cb c; cc c; cd c; ce c; cf c; cg c; ch c].

(** Lower-case hexadecimal rendering. *)
Definition hex_digit (n : Z) : ascii :=
  nth (Z.to_nat (Z.land n 15))
      ["0"; "1"; "2"; "3"; "4"; "5"; "6"; "7";
       "8"; "9"; "a"; "b"; "c"; "d"; "e"; "f"]%char "0"%char.

Definition hex_of_word (w : Z) : list ascii :=
  map (fun i => hex_digit (Z.shiftr w (4 * Z.of_nat i))) (rev (seq 0 8)).

(** [update(s)] encodes the string as UTF-8: one byte below U+0080, two
    bytes for U+0080 .. U+00FF. *)
Definition utf8_of_char (c : ascii) : list Z :=
  let n := Z.of_N (N_of_ascii c) in
  if n <? 128 then [n]
  else [Z.lor 0xC0 (Z.shiftr n 6); Z.lor 0x80 (Z.land n 0x3F)].

Definition utf8 (s : string) : list Z :=
  flat_map utf8_of_char (list_ascii_of_string s).

Definition hexdigest (s : string) : string :=
  string_of_list_ascii (flat_map hex_of_word (digest_words (utf8 s))).

End SHA256.

(** ** Outcomes of a JavaScript call: a value, or a thrown exception *)
Inductive outcome (A : Type) : Type :=
| Ok (a : A)
| Throw (e : string).
Arguments Ok {A} a.
Arguments Throw {A} e.

(** Sequencing: an exception of the first call is propagated. *)
#[global] Instance outcome_bind : MBind outcome := fun A B k m =>
  match m with
  | Ok a => k a
  | Throw e => Throw e
  end.

Fixpoint map_outcome {A B : Type} (f : A -> outcome B) (l : list A) : outcome (list B) :=
  match l with
  | [] => Ok []
  | a :: l' => b ← f a; bs ← map_outcome f l'; Ok (b :: bs)
  end.

(** ** JSON values, property access and [JSON.stringify] *)
Module Json.

(** What [JSON.parse] can produce.  An object keeps its properties in
    insertion order; the value [undefined] of a missing property is [None]
    in the result of a read. *)
#[warnings="-register-all"]
Inductive json : Type :=
| JNull
| JBool (b : bool)
| JNum (n : Z)
| JStr (s : string)
| JArr (items : list json)
| JObj (fields : list (string * json)).

Fixpoint assoc (k : string) (fields : list (string * json)) : option json :=
  match fields with
  | [] => None
  | (k', v) :: rest => if String.eqb k k' then Some v else assoc k rest
  end.

(** [v.k] for a value [v] that is neither [null] nor [undefined], and a
    name [k] that no prototype defines (all names read by the server are
    such): primitives and arrays answer [undefined]. *)
Definition prop (v : json) (k : string) : option json :=
  match v with
  | JObj fields => assoc k fields
  | _ => None
  end.

(** [v.k] in general: reading a property of [null] throws. *)
Definition get_prop (v : json) (k : string) : outcome (option json) :=
  match v with
  | JNull => Throw "TypeError: Cannot read properties of null"
  | _ => Ok (prop v k)
  end.

(** [k in v]: defined on objects and arrays, a TypeError on primitives. *)
Definition has_prop (k : string) (v : json) : outcome bool :=
  match v with
  | JObj fields => Ok (match assoc k fields with Some _ => true | None => false end)
  | JArr _ => Ok false
  | _ => Throw "TypeError: Cannot use 'in' operator"
  end.

(** JavaScript truthiness; [None] is [undefined]. *)
Definition truthy (v : option json) : bool :=
  match v with
  | None => false
  | Some JNull => false
  | Some (JBool b) => b
  | Some (JNum n) => negb (n =? 0)
  | Some (JStr s) => negb (String.eqb s "")
  | Some (JArr _) => true
  | Some (JObj _) => true
  end.

(** [o.k = x] on the property list of an object: an existing property
    keeps its place, a new one goes last. *)
Fixpoint set_prop (k : string) (x : json) (fields : list (string * json))
  : list (string * json) :=
  match fields with
  | [] => [(k, x)]
  | (k', v) :: rest =>
      if String.eqb k k' then (k, x) :: rest else (k', v) :: set_prop k x rest
  end.

(** [v.k = x]; on a primitive the assignment is dropped. *)
Definition assign (v : json) (k : string) (x : json) : json :=
  match v with
  | JObj fields => JObj (set_prop k x fields)
  | _ => v
  end.

(** [delete o.k]. *)
Definition delete_prop (k : string) (fields : list (string * json))
  : list (string * json) :=
  List.filter (fun kv => negb (String.eqb k (fst kv))) fields.

(** *** Serialisation *)
Definition dquote : ascii := ascii_of_nat 34.
Definition backslash : ascii := ascii_of_nat 92.

Definition hex_char (n : nat) : ascii := SHA256.hex_digit (Z.of_nat n).

Definition escape_char (c : ascii) : string :=
  let n := nat_of_ascii c in
  if Nat.eqb n 34 then String backslash (String dquote EmptyString)
  else if Nat.eqb n 92 then String backslash (String backslash EmptyString)
  else if Nat.eqb n 8 then String backslash "b"
  else if Nat.eqb n 12 then String backslash "f"
  else if Nat.eqb n 10 then String backslash "n"
  else if Nat.eqb n 13 then String backslash "r"
  else if Nat.eqb n 9 then String backslash "t"
  else if Nat.ltb n 32 then
    String backslash
      (String "u" (String "0" (String "0"
         (String (hex_char (Nat.div n 16)) (String (hex_char (Nat.modulo n 16)) EmptyString)))))
  else String c EmptyString.

Fixpoint escape (s : string) : string :=
  match s with
  | EmptyString => EmptyString
  | String c s' => escape_char c +:+ escape s'
  end.

Definition quote (s : string) : string :=
  String dquote (escape s +:+ String dquote EmptyString).

Fixpoint join (sep : string) (parts : list string) : string :=
  match parts with
  | [] => EmptyString
  | [p] => p
  | p :: rest => p +:+ sep +:+ join sep rest
  end.

Definition decimal (n : Z) : string := NilZero.string_of_int (Z.to_int n).

(** [JSON.stringify(v)] without indentation. *)
Fixpoint stringify (v : json) : string :=
  match v with
  | JNull => "null"
  | JBool true => "true"
  | JBool false => "false"
  | JNum n => decimal n
  | JStr s => quote s
  | JArr items => "[" +:+ join "," (map stringify items) +:+ "]"
  | JObj fields =>
      "{" +:+ join "," (map (fun kv => quote (fst kv) +:+ ":" +:+ stringify (snd kv)) fields)
          +:+ "}"
  end.

(** A property whose value is [undefined] is left out by [JSON.stringify]. *)
Definition opt_field (k : string) (v : option json) : list (string * json) :=
  match v with
  | Some x => [(k, x)]
  | None => []
  end.

(** *** Conversion to a string *)

(** [String(v)], the conversion a template literal applies to a parsed
    value.  A primitive always converts.  An object converts through
    [Object.prototype.toString], unless it has a property of its own named
    [toString]: a parsed property is never a function, so neither it nor
    [valueOf] yields a primitive, and the conversion throws.  An array
    converts through [join], which converts every entry that is not [null]. *)
Fixpoint to_string (v : json) : outcome string :=
  match v with
  | JNull => Ok "null"
  | JBool true => Ok "true"
  | JBool false => Ok "false"
  | JNum n => Ok (decimal n)
  | JStr s => Ok s
  | JArr items =>
      parts ← map_outcome (fun item => match item with
                                        | JNull => Ok ""
                                        | _ => to_string item
                                        end) items;
      Ok (join "," parts)
  | JObj fields =>
      match assoc "toString" fields with
      | Some _ => Throw "TypeError: Cannot convert object to primitive value"
      | None => Ok "[object Object]"
      end
  end.

(** [`${v}`] for the value of a property read; [undefined] converts too. *)
Definition template (v : option json) : outcome string :=
  match v with
  | Some x => to_string x
  | None => Ok "undefined"
  end.

End Json.

(** ** The ingestion server, [Telemetry/telemetry_server.js] *)
Module Server.
Import Json.

(** *** Requests, responses, configuration *)
Record Request := {
  ip : option string;              (* req.ip *)
  remoteAddress : option string;   (* req.connection.remoteAddress *)
  isJson : bool;                   (* req.is('application/json') *)
  body : json                      (* req.body, as parsed by express.json *)
}.

Record Response := { status : Z; payload : json }.

(** [process.env]: a variable is a string or absent. *)
Record Env := { IP_SALT : option string; SERVER_VERSION : option string }.

(** What the handler reads from the clock and the random source. *)
Record World := {
  receivedAtISO : string;   (* new Date().toISOString() for receivedAt *)
  filenameISO : string;     (* new Date().toISOString() in generateFilename *)
  randomHex : string        (* crypto.randomBytes(4).toString('hex') *)
}.

(** [a || b] on optional strings: the empty string is falsy. *)
Definition or_else (a : option string) (b : string) : string :=
  match a with
  | Some x => if String.eqb x "" then b else x
  | None => b
  end.

Definition clientIP (req : Request) : string :=
  or_else (ip req) (or_else (remoteAddress req) "unknown").

(** *** Rate limiting *)
Definition RATE_LIMIT : Z := 100.
Definition RATE_WINDOW : Z := 60 * 60 * 1000.

Record RateEntry := { count : Z; windowStart : Z }.

Inductive verdict : Type :=
| Next                       (* next() *)
| Respond (r : Response).    (* res.status(..).json(..) *)

Definition rate_limited : Response :=
  {| status := 429;
     payload := JObj [("success", JBool false);
                      ("error", JStr "Rate limit exceeded. Please try again later.")] |}.

Definition rateLimit (req : Request) (now : Z) (requestCounts : gmap string RateEntry)
  : gmap string RateEntry * verdict :=
  let clientIP := clientIP req in
  match requestCounts !! clientIP with
  | None =>
      (<[clientIP := {| count := 1; windowStart := now |}]> requestCounts, Next)
  | Some clientData =>
      if RATE_WINDOW <? now - windowStart clientData then
        (<[clientIP := {| count := 1; windowStart := now |}]> requestCounts, Next)
      else if RATE_LIMIT <=? count clientData then
        (requestCounts, Respond rate_limited)
      else
        (<[clientIP := {| count := count clientData + 1;
                          windowStart := windowStart clientData |}]> requestCounts, Next)
  end.

(** The limiter over a sequence of requests, each with its arrival
    instant ([Date.now()]), and the instants at which one identity called. *)
Fixpoint run_limiter (trace : list (Request * Z)) (requestCounts : gmap string RateEntry)
  : gmap string RateEntry * list verdict :=
  match trace with
  | [] => (requestCounts, [])
  | (req, now) :: rest =>
      let r1 := rateLimit req now requestCounts in
      let r2 := run_limiter rest (fst r1) in
      (fst r2, snd r1 :: snd r2)
  end.

Definition history (identity : string) (trace : list (Request * Z)) : list Z :=
  map snd (List.filter (fun rt => String.eqb (clientIP (fst rt)) identity) trace).

(** *** Input sanitisation *)

(** The character class of the regular expression in [sanitizeInput]:
    less-than, greater-than, double quote, single quote, ampersand. *)
Definition is_stripped (c : ascii) : bool :=
  let n := nat_of_ascii c in
  Nat.eqb n 60 || Nat.eqb n 62 || Nat.eqb n 34 || Nat.eqb n 39 || Nat.eqb n 38.

Fixpoint strip (s : string) : string :=
  match s with
  | EmptyString => EmptyString
  | String c s' => if is_stripped c then strip s' else String c (strip s')
  end.

Definition sanitizeInput (input : json) : json :=
  match input with
  | JStr s => JStr (substring 0 1000 (strip s))
  | _ => input
  end.

(** *** Validation *)
Inductive ValidationError : Type :=
| PayloadTooLarge                     (* 'Data payload too large' *)
| MissingField (field : string)       (* 'Missing required field: ..' *)
| EventsNotArray                      (* 'Events must be an array' *)
| TooManyEvents                       (* 'Too many events in single submission' *)
| InvalidEventStructure               (* 'Invalid event structure' *)
| InvalidEventType (shown : string)   (* 'Invalid event type: ..' *).

Inductive validation : Type :=
| Valid
| Invalid (error : ValidationError).

(** The limit of the body parser, [express.json({ limit: '1mb' })], in bytes,
    and the ceiling of the validator, in characters of the serialisation. *)
Definition BODY_LIMIT : Z := 1024 * 1024.
Definition MAX_PAYLOAD_LENGTH : Z := 500000.
Definition MAX_EVENTS : Z := 1000.

Definition requiredFields : list string :=
  ["sessionId"; "extensionVersion"; "vscodeVersion"; "platform"; "weekStart";
   "events"; "aggregatedStats"]%string.

Definition validEventTypes : list string :=
  ["thought_created"; "graph_opened"; "suggest_related_used";
   "semantic_search_used"; "semantic_ai_graph_used"]%string.

(** [validEventTypes.includes(v)]: strict equality with one of the names. *)
Definition includes (names : list string) (v : option json) : bool :=
  match v with
  | Some (JStr s) => existsb (String.eqb s) names
  | _ => false
  end.

(** The loop over [requiredFields]: the first missing field, if any. *)
Fixpoint first_missing (fields : list string) (data : json) : outcome (option string) :=
  match fields with
  | [] => Ok None
  | field :: rest =>
      present ← has_prop field data;
      if present : bool then first_missing rest data else Ok (Some field)
  end.

(** The two assignments of the loop body,
    [event.eventType = sanitizeInput(event.eventType)] and
    [event.anonymousId = sanitizeInput(event.anonymousId)]; they are reached
    with both properties present. *)
Definition sanitize_fields (event : json) : json :=
  let event1 :=
    match prop event "eventType" with
    | Some v => assign event "eventType" (sanitizeInput v)
    | None => event
    end in
  match prop event1 "anonymousId" with
  | Some v => assign event1 "anonymousId" (sanitizeInput v)
  | None => event1
  end.

(** The loop over [data.events].  Its second result is the array as the
    loop leaves it: the events passed so far have their [eventType] and
    [anonymousId] overwritten by the sanitised values.  The message for a
    type that is not on the whitelist is a template literal, which converts
    the (sanitised) type to a string and can throw doing so. *)
Fixpoint validate_events (events : list json) : outcome (validation * list json) :=
  match events with
  | [] => Ok (Valid, [])
  | event :: rest =>
      eventType ← get_prop event "eventType";
      if negb (truthy eventType) || negb (truthy (prop event "timestamp"))
         || negb (truthy (prop event "anonymousId"))
      then Ok (Invalid InvalidEventStructure, event :: rest)
      else
        let event' := sanitize_fields event in
        if includes validEventTypes (prop event' "eventType") then
          r ← validate_events rest;
          Ok (fst r, event' :: snd r)
        else
          shown ← template (prop event' "eventType");
          Ok (Invalid (InvalidEventType shown), event' :: rest)
  end.

(** [validateTelemetryData(data)]: the verdict, and [data] as the call
    leaves it (the caller keeps using the same object). *)
Definition validateTelemetryData (data : json) : outcome (validation * json) :=
  let dataString := stringify data in
  if MAX_PAYLOAD_LENGTH <? Z.of_nat (String.length dataString) then
    Ok (Invalid PayloadTooLarge, data)
  else
    missing ← first_missing requiredFields data;
    match missing with
    | Some field => Ok (Invalid (MissingField field), data)
    | None =>
        match prop data "events" with
        | Some (JArr events) =>
            if MAX_EVENTS <? Z.of_nat (List.length events) then
              Ok (Invalid TooManyEvents, data)
            else
              r ← validate_events events;
              Ok (fst r, assign data "events" (JArr (snd r)))
        | _ => Ok (Invalid EventsNotArray, data)
        end
    end.

(** *** Sanitisation *)
Definition hashAnonymousId (anonymousId : string) : string :=
  substring 0 16 (SHA256.hexdigest anonymousId).

(** [hash.update(v)] accepts a string (buffers do not come out of
    [JSON.parse]); anything else is a TypeError. *)
Definition hash_value (v : option json) : outcome string :=
  match v with
  | Some (JStr s) => Ok (hashAnonymousId s)
  | _ => Throw "TypeError [ERR_INVALID_ARG_TYPE]"
  end.

Definition safeFields : list string :=
  ["thoughtType"; "hasCodeSnippet"; "searchTermLength"; "resultCount"]%string.

(** Called on a truthy [metadata] only. *)
Definition sanitizeMetadata (metadata : json) : outcome json :=
  match metadata with
  | JObj fields =>
      Ok (JObj (flat_map (fun field => opt_field field (assoc field fields)) safeFields))
  | JArr _ => Ok (JObj [])
  | _ => Throw "TypeError: Cannot use 'in' operator"
  end.

(** The arrow function mapped over [data.events]. *)
Definition sanitize_event (event : json) : outcome json :=
  eventType ← get_prop event "eventType";
  hashed ← hash_value (prop event "anonymousId");
  metadata ←
    (if truthy (prop event "metadata") then
       match prop event "metadata" with
       | Some m => m' ← sanitizeMetadata m; Ok (Some m')
       | None => Ok None
       end
     else Ok None);
  Ok (JObj (opt_field "eventType" eventType
            ++ opt_field "timestamp" (prop event "timestamp")
            ++ [("anonymousId", JStr hashed)]
            ++ opt_field "metadata" metadata)).

Definition sanitizeTelemetryData (data : json) : outcome json :=
  match data with
  | JObj fields =>
      match assoc "events" fields with
      | Some (JArr events) =>
          events' ← map_outcome sanitize_event events;
          Ok (JObj (delete_prop "sessionId" (set_prop "events" (JArr events') fields)))
      | _ => Throw "TypeError: data.events.map is not a function"
      end
  | _ => Throw "TypeError: data.events.map is not a function"
  end.

(** *** Persistence *)
Definition replace_colon_dot (s : string) : string :=
  string_of_list_ascii
    (map (fun c => if Ascii.eqb c ":" || Ascii.eqb c "." then "-"%char else c)
         (list_ascii_of_string s)).

(** [s.split(c)[0]] *)
Fixpoint before (c : ascii) (s : string) : string :=
  match s with
  | EmptyString => EmptyString
  | String a s' => if Ascii.eqb a c then EmptyString else String a (before c s')
  end.

Definition generateFilename (w : World) : string :=
  let timestamp := before "T" (replace_colon_dot (filenameISO w)) in
  "telemetry_" +:+ timestamp +:+ "_" +:+ randomHex w +:+ ".json".

(** The argument of the address hash:
    [clientIP + process.env.IP_SALT || 'default-salt'], in which [+] binds
    tighter than [||]; an absent variable concatenates as "undefined". *)
Definition ip_hash_input (env : Env) (clientIP : string) : string :=
  let concatenated :=
    clientIP +:+ match IP_SALT env with Some salt => salt | None => "undefined" end in
  or_else (Some concatenated) "default-salt".

Definition events_length (v : json) : Z :=
  match prop v "events" with
  | Some (JArr events) => Z.of_nat (List.length events)
  | _ => 0
  end.

Definition respond_error (code : Z) (message : string) : Response :=
  {| status := code;
     payload := JObj [("success", JBool false); ("error", JStr message)] |}.

(** [processedData]: the sanitised batch with the server's own fields. *)
Definition server_metadata (env : Env) (w : World) (req : Request) (sanitizedData : json)
  : json :=
  assign (assign (assign sanitizedData
    "receivedAt" (JStr (receivedAtISO w)))
    "serverVersion" (JStr (or_else (SERVER_VERSION env) "1.0.0")))
    "ipHash" (JStr (hashAnonymousId (ip_hash_input env (clientIP req)))).

(** The body of the [try] block of the endpoint. *)
Definition process (env : Env) (w : World) (req : Request) (files : gmap string json)
  : outcome (gmap string json * Response) :=
  validated ← validateTelemetryData (body req);
  match fst validated with
  | Invalid _ => Ok (files, respond_error 400 "Invalid data format")
  | Valid =>
      sanitizedData ← sanitizeTelemetryData (snd validated);
      let processedData := server_metadata env w req sanitizedData in
      let filename := generateFilename w in
      Ok (<[filename := processedData]> files,
          {| status := 200;
             payload := JObj [("success", JBool true);
                              ("message", JStr "Telemetry data received successfully");
                              ("eventsProcessed", JNum (events_length processedData));
                              ("fileId", JStr (before "." filename))] |})
  end.

(** [app.post('/api/telemetry', ..)]: the files of [DATA_DIR] before and
    after, and the response. *)
Definition post_telemetry (env : Env) (w : World) (req : Request) (files : gmap string json)
  : gmap string json * Response :=
  if negb (isJson req) then
    (files, respond_error 400 "Content-Type must be application/json")
  else
    match process env w req files with
    | Ok result => result
    | Throw _ => (files, respond_error 500 "Internal server error")
    end.

(** The middleware chain of the route: rate limiter, then the endpoint. *)
Record ServerState := {
  requestCounts : gmap string RateEntry;
  dataDir : gmap string json
}.

Definition serve (env : Env) (w : World) (now : Z) (req : Request) (st : ServerState)
  : ServerState * Response :=
  match rateLimit req now (requestCounts st) with
  | (counts, Respond r) => ({| requestCounts := counts; dataDir := dataDir st |}, r)
  | (counts, Next) =>
      let result := post_telemetry env w req (dataDir st) in
      ({| requestCounts := counts; dataDir := fst result |}, snd result)
  end.

(** *** Vocabulary of the properties *)

(** Sixteen lower-case hexadecimal digits: the shape of a stored identifier. *)
Definition is_hex_digit (c : ascii) : bool :=
  let n := nat_of_ascii c in
  (Nat.leb 48 n && Nat.leb n 57) || (Nat.leb 97 n && Nat.leb n 102).

Fixpoint all_hex (s : string) : bool :=
  match s with
  | EmptyString => true
  | String c s' => is_hex_digit c && all_hex s'
  end.

Definition is_hex16 (s : string) : bool := Nat.eqb (String.length s) 16 && all_hex s.

(** What the record holds for a submitted [anonymousId]: the hash of the
    value as [sanitizeInput] left it. *)
Definition stored_id (anonymousId : string) : string :=
  hashAnonymousId (substring 0 1000 (strip anonymousId)).

(** The [anonymousId] of each event of a record or of a request body. *)
Definition anonymous_ids (v : json) : list (option json) :=
  match prop v "events" with
  | Some (JArr events) => map (fun e => prop e "anonymousId") events
  | _ => []
  end.

(** What express.json (strict) hands to the route: an object or an array. *)
Definition is_container (v : json) : bool :=
  match v with
  | JObj _ | JArr _ => true
  | _ => false
  end.

Definition is_null (v : json) : bool :=
  match v with
  | JNull => true
  | _ => false
  end.

(** The defects of a batch, as the validator sees them: a required field is
    missing; [events] is not an array, or has more than [MAX_EVENTS] entries;
    an event has no (or a falsy) [eventType], [timestamp] or [anonymousId];
    the [eventType] of an event, once sanitised, is not on the whitelist. *)
Definition lacks_field (data : json) : bool :=
  existsb (fun field => match prop data field with Some _ => false | None => true end)
          requiredFields.

Definition event_defect (event : json) : bool :=
  negb (truthy (prop event "eventType")) || negb (truthy (prop event "timestamp"))
  || negb (truthy (prop event "anonymousId"))
  || negb (includes validEventTypes (option_map sanitizeInput (prop event "eventType"))).

Definition malformed (data : json) : bool :=
  lacks_field data
  || match prop data "events" with
     | Some (JArr events) =>
         (MAX_EVENTS <? Z.of_nat (List.length events)) || existsb event_defect events
     | _ => true
     end.





(** *** The file-name test of the statistics endpoint *)

(** [s.endsWith(suffix)] *)
Definition ends_with (suffix s : string) : bool :=
  let n := String.length suffix in
  Nat.leb n (String.length s) && String.eqb (substring (String.length s - n) n s) suffix.

(** [f.startsWith('telemetry_') && f.endsWith('.json')] *)
Definition is_telemetry_file (f : string) : bool :=
  String.prefix "telemetry_" f && ends_with ".json" f.

(** The handler over a sequence of requests, each with the environment,
    clock and random source it meets. *)
Fixpoint serve_all (env : Env) (arrivals : list (World * Z * Request)) (st : ServerState)
  : ServerState * list Response :=
  match arrivals with
  | [] => (st, [])
  | (w, now, req) :: rest =>
      let r1 := serve env w now req st in
      let r2 := serve_all env rest (fst r1) in
      (fst r2, snd r1 :: snd r2)
  end.

(** An event the validator lets through and the sanitiser cannot store:
    its [anonymousId] is truthy and not a string ([hash.update] throws), or
    its [metadata] is a truthy primitive (the [in] operator throws). *)
Definition unstorable (event : json) : bool :=
  match prop event "anonymousId" with Some (JStr _) => false | _ => true end
  || (truthy (prop event "metadata")
      && match prop event "metadata" with
         | Some (JObj _) | Some (JArr _) => false
         | _ => true
         end).

(** Every count of the limiter's map is between 1 and the limit. *)
Definition counts_in_range (counts : gmap string RateEntry) : Prop :=
  forall ip e, counts !! ip = Some e -> 1 <= count e <= RATE_LIMIT.

(** What the limiter sees of an arrival at the route. *)
Definition arrival_of (a : World * Z * Request) : Request * Z := (snd a, snd (fst a)).

End Server.

(** ** The client, [src/TelemetryManager.ts] *)
Module Client.
Import Json.

(** *** The batch file *)
Inductive EventType : Type :=
| thought_created
| graph_opened
| suggest_related_used
| semantic_search_used
| semantic_ai_graph_used.

Record TelemetryEvent := {
  eventType : EventType;
  timestamp : string;
  anonymousId : string;
  metadata : option (list (string * json))
}.

Record AggregatedStats := {
  thoughtsCreated : Z;
  graphOpened : Z;
  suggestRelatedUsed : Z;
  semanticSearchUsed : Z;
  semanticAiGraphUsed : Z;
  uniqueDaysActive : Z
}.

Record TelemetryData := {
  sessionId : string;
  extensionVersion : string;
  vscodeVersion : string;
  platform : string;
  weekStart : string;
  events : list TelemetryEvent;
  aggregatedStats : AggregatedStats
}.

(** [telemetryData.events = evs] *)
Definition with_events (evs : list TelemetryEvent) (d : TelemetryData) : TelemetryData :=
  {| sessionId := sessionId d; extensionVersion := extensionVersion d;
     vscodeVersion := vscodeVersion d; platform := platform d;
     weekStart := weekStart d; events := evs; aggregatedStats := aggregatedStats d |}.

Definition event_type_name (t : EventType) : string :=
  match t with
  | thought_created => "thought_created"
  | graph_opened => "graph_opened"
  | suggest_related_used => "suggest_related_used"
  | semantic_search_used => "semantic_search_used"
  | semantic_ai_graph_used => "semantic_ai_graph_used"
  end.

(** The object a [TelemetryData] value is at run time, properties in the
    order [createEmptyTelemetryData] and [trackEvent] create them. *)
Definition event_to_json (e : TelemetryEvent) : json :=
  JObj ([("eventType", JStr (event_type_name (eventType e)));
         ("timestamp", JStr (timestamp e));
         ("anonymousId", JStr (anonymousId e))]
        ++ opt_field "metadata" (option_map JObj (metadata e))).

Definition stats_to_json (a : AggregatedStats) : json :=
  JObj [("thoughtsCreated", JNum (thoughtsCreated a));
        ("graphOpened", JNum (graphOpened a));
        ("suggestRelatedUsed", JNum (suggestRelatedUsed a));
        ("semanticSearchUsed", JNum (semanticSearchUsed a));
        ("semanticAiGraphUsed", JNum (semanticAiGraphUsed a));
        ("uniqueDaysActive", JNum (uniqueDaysActive a))].

Definition to_json (d : TelemetryData) : json :=
  JObj [("sessionId", JStr (sessionId d));
        ("extensionVersion", JStr (extensionVersion d));
        ("vscodeVersion", JStr (vscodeVersion d));
        ("platform", JStr (platform d));
        ("weekStart", JStr (weekStart d));
        ("events", JArr (map event_to_json (events d)));
        ("aggregatedStats", stats_to_json (aggregatedStats d))].

(** *** Timers and the manager's state *)
Definition SUBMISSION_INTERVAL : Z := 24 * 60 * 60 * 1000.
Definition RETRY_DELAYS : list Z := [30 * 60 * 1000; 2 * 60 * 60 * 1000; 6 * 60 * 60 * 1000].
Definition MAX_DATA_AGE : Z := 7 * 24 * 60 * 60 * 1000.
Definition PAYLOAD_MARGIN : Z := 900000.
Definition KEPT_EVENTS : nat := 500.

(** The three callbacks the manager hands to the event loop. *)
Inductive TimerKind : Type :=
| SubmissionTimeout    (* the setTimeout of setupSubmissionSchedule *)
| SubmissionInterval   (* the setInterval armed by that callback *)
| RetryTimeout.        (* the setTimeout of scheduleRetry *)

Record Timer := { kind : TimerKind; fireAt : Z }.

Record Manager := {
  isEnabled : bool;
  retryCount : nat;
  submissionTimer : option nat;          (* timer handle, or null *)
  retryTimer : option nat;               (* timer handle, or null *)
  activeDays : gset string;
  firstActivation : option Z;            (* globalState 'telemetryFirstActivation' *)
  telemetryFile : option TelemetryData;  (* telemetry_data.json; None: no readable file *)
  fileWrites : nat;                      (* writeFile calls on telemetry_data.json *)
  timers : list (nat * Timer);           (* timers pending in the event loop, by handle *)
  nextHandle : nat;                      (* next handle the event loop hands out *)
  posted : list TelemetryData            (* bodies of the POST requests made, oldest first *)
}.

Definition set_retryCount (n : nat) (m : Manager) : Manager :=
  {| isEnabled := isEnabled m; retryCount := n; submissionTimer := submissionTimer m;
     retryTimer := retryTimer m; activeDays := activeDays m;
     firstActivation := firstActivation m; telemetryFile := telemetryFile m;
     fileWrites := fileWrites m; timers := timers m; nextHandle := nextHandle m;
     posted := posted m |}.

Definition set_submissionTimer (h : option nat) (m : Manager) : Manager :=
  {| isEnabled := isEnabled m; retryCount := retryCount m; submissionTimer := h;
     retryTimer := retryTimer m; activeDays := activeDays m;
     firstActivation := firstActivation m; telemetryFile := telemetryFile m;
     fileWrites := fileWrites m; timers := timers m; nextHandle := nextHandle m;
     posted := posted m |}.

Definition set_retryTimer (h : option nat) (m : Manager) : Manager :=
  {| isEnabled := isEnabled m; retryCount := retryCount m;
     submissionTimer := submissionTimer m; retryTimer := h; activeDays := activeDays m;
     firstActivation := firstActivation m; telemetryFile := telemetryFile m;
     fileWrites := fileWrites m; timers := timers m; nextHandle := nextHandle m;
     posted := posted m |}.

Definition set_firstActivation (f : option Z) (m : Manager) : Manager :=
  {| isEnabled := isEnabled m; retryCount := retryCount m;
     submissionTimer := submissionTimer m; retryTimer := retryTimer m;
     activeDays := activeDays m; firstActivation := f; telemetryFile := telemetryFile m;
     fileWrites := fileWrites m; timers := timers m; nextHandle := nextHandle m;
     posted := posted m |}.

Definition set_timers (ts : list (nat * Timer)) (next : nat) (m : Manager) : Manager :=
  {| isEnabled := isEnabled m; retryCount := retryCount m;
     submissionTimer := submissionTimer m; retryTimer := retryTimer m;
     activeDays := activeDays m; firstActivation := firstActivation m;
     telemetryFile := telemetryFile m; fileWrites := fileWrites m; timers := ts;
     nextHandle := next; posted := posted m |}.

Definition set_posted (p : list TelemetryData) (m : Manager) : Manager :=
  {| isEnabled := isEnabled m; retryCount := retryCount m;
     submissionTimer := submissionTimer m; retryTimer := retryTimer m;
     activeDays := activeDays m; firstActivation := firstActivation m;
     telemetryFile := telemetryFile m; fileWrites := fileWrites m; timers := timers m;
     nextHandle := nextHandle m; posted := p |}.

(** [writeFile] on the batch file. *)
Definition write_file (d : TelemetryData) (m : Manager) : Manager :=
  {| isEnabled := isEnabled m; retryCount := retryCount m;
     submissionTimer := submissionTimer m; retryTimer := retryTimer m;
     activeDays := activeDays m; firstActivation := firstActivation m;
     telemetryFile := Some d; fileWrites := S (fileWrites m); timers := timers m;
     nextHandle := nextHandle m; posted := posted m |}.

(** [clearTelemetryData]: forget the active days, delete the batch file. *)
Definition clearTelemetryData (m : Manager) : Manager :=
  {| isEnabled := isEnabled m; retryCount := retryCount m;
     submissionTimer := submissionTimer m; retryTimer := retryTimer m;
     activeDays := ∅; firstActivation := firstActivation m;
     telemetryFile := None; fileWrites := fileWrites m; timers := timers m;
     nextHandle := nextHandle m; posted := posted m |}.

(** [setTimeout(callback, delay)] at time [now]: a fresh handle, pending
    until [now + delay].  [setInterval] registers the same way, under the
    repeating kind (see [fire]). *)
Definition setTimeout (k : TimerKind) (delay now : Z) (m : Manager) : nat * Manager :=
  let h := nextHandle m in
  (h, set_timers (timers m ++ [(h, {| kind := k; fireAt := now + delay |})]) (S h) m).

(** [clearTimeout(h)], and [clearInterval(h)] alike: the timer leaves the
    loop; a handle that is not pending is ignored. *)
Definition clearTimeout (h : nat) (m : Manager) : Manager :=
  set_timers (List.filter (fun t => negb (Nat.eqb (fst t) h)) (timers m)) (nextHandle m) m.

(** [setInterval(callback, period)]: first due one period from [now]. *)
Definition setInterval (period now : Z) (m : Manager) : nat * Manager :=
  setTimeout SubmissionInterval period now m.

Definition clearTimers (m : Manager) : Manager :=
  let m1 :=
    match submissionTimer m with
    | Some h => set_submissionTimer None (clearTimeout h (clearTimeout h m))
    | None => m
    end in
  match retryTimer m1 with
  | Some h => set_retryTimer None (clearTimeout h m1)
  | None => m1
  end.

(** *** The network, as seen by the client *)
Inductive FetchResult : Type :=
| NetworkError                                (* fetch rejects *)
| HttpResponse (status : Z) (jsonBody : bool) (* status line; whether the body parses *).

Record Network := {
  reachable : Z -> bool;                      (* checkConnectivity() at an instant *)
  backend : Z -> TelemetryData -> FetchResult (* the answer to a POST at an instant *)
}.

(** [response.ok] *)
Definition ok (status : Z) : bool := (200 <=? status) && (status <=? 299).

(** *** Submission schedule *)

(** The instant of the next submission, for a first activation [first]. *)
Definition nextSubmissionTime (first now : Z) : Z :=
  let timeSinceActivation := now - first in
  let cyclesSinceActivation := timeSinceActivation / SUBMISSION_INTERVAL in
  first + (cyclesSinceActivation + 1) * SUBMISSION_INTERVAL.

Definition setupSubmissionSchedule (now : Z) (m : Manager) : Manager :=
  let stored :=
    match firstActivation m with
    | Some f => if f =? 0 then None else Some f   (* !firstActivation *)
    | None => None
    end in
  let first := match stored with Some f => f | None => now end in
  let m1 := match stored with Some _ => m | None => set_firstActivation (Some now) m end in
  let timeUntilNextSubmission := nextSubmissionTime first now - now in
  let m2 := clearTimers m1 in
  let armed := setTimeout SubmissionTimeout timeUntilNextSubmission now m2 in
  set_submissionTimer (Some (fst armed)) (snd armed).

(** *** Transport *)

(** [xs.slice(-n)] *)
Definition last_n {A : Type} (n : nat) (xs : list A) : list A :=
  skipn (List.length xs - n) xs.

(** The body [sendToBackend] posts for a batch. *)
Definition outgoing (telemetryData : TelemetryData) : TelemetryData :=
  let payloadSize := Z.of_nat (String.length (stringify (to_json telemetryData))) in
  if PAYLOAD_MARGIN <? payloadSize then
    with_events (last_n KEPT_EVENTS (events telemetryData)) telemetryData
  else telemetryData.

Definition sendToBackend (net : Network) (now : Z) (telemetryData : TelemetryData)
    (m : Manager) : Manager * outcome unit :=
  let body := outgoing telemetryData in
  let m1 := set_posted (posted m ++ [body]) m in
  match backend net now body with
  | NetworkError => (m1, Throw "fetch failed")
  | HttpResponse status jsonBody =>
      if negb (ok status) then
        if status =? 429 then (m1, Throw "Rate limit exceeded. Will retry later.")
        else (m1, Throw "HTTP error")
      else if jsonBody then (m1, Ok tt)
      else (m1, Throw "SyntaxError")
  end.

(** *** Retries *)
Definition scheduleRetry (now : Z) (m : Manager) : Manager :=
  if (List.length RETRY_DELAYS <=? retryCount m)%nat then m
  else
    let delay := nth (retryCount m) RETRY_DELAYS 0 in
    let armed := setTimeout RetryTimeout delay now m in
    set_retryTimer (Some (fst armed)) (snd armed).

(** The ways out of [submitTelemetryData]. *)
Inductive Submission : Type :=
| Disabled    (* telemetry is off: first return *)
| NoEvents    (* 'No telemetry events to submit': second return *)
| Submitted   (* the try block ran to its end *)
| Failed.     (* the catch block ran *)

Definition submit (net : Network) (now : Z) (m : Manager) : Manager * Submission :=
  if negb (isEnabled m) then (m, Disabled)
  else
    let on_error (m' : Manager) :=
      if (retryCount m' <? List.length RETRY_DELAYS)%nat then scheduleRetry now m' else m' in
    match telemetryFile m with
    | None => (on_error m, Failed)                (* readFile or JSON.parse throws *)
    | Some telemetryData =>
        match events telemetryData with
        | [] => (m, NoEvents)
        | _ :: _ =>
            match sendToBackend net now telemetryData m with
            | (m1, Throw _) => (on_error m1, Failed)
            | (m1, Ok _) =>
                let m2 := set_retryCount 0 (clearTelemetryData m1) in
                (match retryTimer m2 with
                 | Some h => set_retryTimer None (clearTimeout h m2)
                 | None => m2
                 end, Submitted)
            end
        end
    end.

Definition submitTelemetryData (net : Network) (now : Z) (m : Manager) : Manager :=
  fst (submit net now m).

Definition attemptSubmission (net : Network) (now : Z) (m : Manager) : Manager :=
  let m1 := set_retryCount 0 m in
  if negb (reachable net now) then scheduleRetry now m1
  else submitTelemetryData net now m1.

(** The callback [scheduleRetry] hands to [setTimeout]. *)
Definition retry_callback (net : Network) (now : Z) (m : Manager) : Manager :=
  let m1 := set_retryCount (S (retryCount m)) m in
  if negb (reachable net now) then scheduleRetry now m1
  else submitTelemetryData net now m1.

Definition manualSubmit (net : Network) (now : Z) (m : Manager) : Manager :=
  if negb (isEnabled m) then m else submitTelemetryData net now m.

(** *** The event loop *)
Fixpoint find_timer (h : nat) (ts : list (nat * Timer)) : option Timer :=
  match ts with
  | [] => None
  | (h', t) :: rest => if Nat.eqb h' h then Some t else find_timer h rest
  end.

Definition rearm (h : nat) (t : Timer) (ts : list (nat * Timer)) : list (nat * Timer) :=
  map (fun e => if Nat.eqb (fst e) h then (h, t) else e) ts.

(** The pending timer [h] fires, at its own instant.  A timeout leaves the
    loop before its callback runs; an interval stays, one period later.
    The callback is one step at that instant: the time its awaited calls
    take is not modelled, so a timer armed after an [await] (a retry, the
    interval) is given the earliest instant it can have. *)
Definition fire (net : Network) (h : nat) (m : Manager) : Manager :=
  match find_timer h (timers m) with
  | None => m
  | Some t =>
      let now := fireAt t in
      match kind t with
      | RetryTimeout => retry_callback net now (clearTimeout h m)
      | SubmissionTimeout =>
          let m1 := attemptSubmission net now (clearTimeout h m) in
          let armed := setInterval SUBMISSION_INTERVAL now m1 in
          set_submissionTimer (Some (fst armed)) (snd armed)
      | SubmissionInterval =>
          attemptSubmission net now
            (set_timers
               (rearm h {| kind := SubmissionInterval; fireAt := now + SUBMISSION_INTERVAL |}
                      (timers m))
               (nextHandle m) m)
      end
  end.

(** Handles are handed out in increasing order: every pending timer has a
    handle below the next one. *)
Definition handles_fresh (m : Manager) : Prop :=
  Forall (fun e => (fst e < nextHandle m)%nat) (timers m).

(** *** Retention *)
Section Retention.
(** [new Date(s).getTime()]; [None] is NaN. *)
Variable getTime : string -> option Z.

Definition is_recent (cutoffDate : Z) (event : TelemetryEvent) : bool :=
  match getTime (timestamp event) with
  | Some eventTime => cutoffDate <? eventTime
  | None => false
  end.

Definition cleanOldData (now : Z) (m : Manager) : Manager :=
  match telemetryFile m with
  | None => m                                (* caught: no file, or unreadable *)
  | Some telemetryData =>
      let cutoffDate := now - MAX_DATA_AGE in
      let filteredEvents := List.filter (is_recent cutoffDate) (events telemetryData) in
      if (List.length filteredEvents <? List.length (events telemetryData))%nat then
        write_file (with_events filteredEvents telemetryData) m
      else m
  end.
End Retention.

(** *** Recording events *)

(** What the manager knows of its host: the identifiers made by the
    constructor, and the versions [createEmptyTelemetryData] reads. *)
Record Host := {
  thisAnonymousId : string;          (* this.anonymousId *)
  thisSessionId : string;            (* this.sessionId *)
  packageVersion : option string;    (* context.extension.packageJSON.version *)
  hostVersion : string;              (* vscode.version *)
  hostPlatform : string              (* process.platform *)
}.

(** What one [trackEvent] reads from the clock: the instant of
    [trackDailyActivity], the instant stamped on the event, both as
    [toISOString] prints them, and the result of [getWeekStart]. *)
Record Clock := {
  activityISO : string;
  eventISO : string;
  weekStartDate : string
}.

Definition set_isEnabled (b : bool) (m : Manager) : Manager :=
  {| isEnabled := b; retryCount := retryCount m; submissionTimer := submissionTimer m;
     retryTimer := retryTimer m; activeDays := activeDays m;
     firstActivation := firstActivation m; telemetryFile := telemetryFile m;
     fileWrites := fileWrites m; timers := timers m; nextHandle := nextHandle m;
     posted := posted m |}.

Definition set_activeDays (days : gset string) (m : Manager) : Manager :=
  {| isEnabled := isEnabled m; retryCount := retryCount m;
     submissionTimer := submissionTimer m; retryTimer := retryTimer m; activeDays := days;
     firstActivation := firstActivation m; telemetryFile := telemetryFile m;
     fileWrites := fileWrites m; timers := timers m; nextHandle := nextHandle m;
     posted := posted m |}.

(** [trackDailyActivity], at an instant printed as [iso]. *)
Definition trackDailyActivity (iso : string) (m : Manager) : Manager :=
  let today := Server.before "T" iso in
  set_activeDays ({[today]} ∪ activeDays m) m.

Definition createEmptyTelemetryData (host : Host) (weekStart : string) : TelemetryData :=
  {| sessionId := thisSessionId host;
     extensionVersion := Server.or_else (packageVersion host) "unknown";
     vscodeVersion := hostVersion host;
     platform := hostPlatform host;
     weekStart := weekStart;
     events := [];
     aggregatedStats :=
       {| thoughtsCreated := 0; graphOpened := 0; suggestRelatedUsed := 0;
          semanticSearchUsed := 0; semanticAiGraphUsed := 0; uniqueDaysActive := 0 |} |}.

(** [updateAggregatedStats]: the counter of the event's type goes up by
    one, and [uniqueDaysActive] becomes the number of active days. *)
Definition updateAggregatedStats (days : gset string) (event : TelemetryEvent)
    (a : AggregatedStats) : AggregatedStats :=
  let one (t : EventType) : Z :=
    match eventType event, t with
    | thought_created, thought_created
    | graph_opened, graph_opened
    | suggest_related_used, suggest_related_used
    | semantic_search_used, semantic_search_used
    | semantic_ai_graph_used, semantic_ai_graph_used => 1
    | _, _ => 0
    end in
  {| thoughtsCreated := thoughtsCreated a + one thought_created;
     graphOpened := graphOpened a + one graph_opened;
     suggestRelatedUsed := suggestRelatedUsed a + one suggest_related_used;
     semanticSearchUsed := semanticSearchUsed a + one semantic_search_used;
     semanticAiGraphUsed := semanticAiGraphUsed a + one semantic_ai_graph_used;
     uniqueDaysActive := Z.of_nat (size days) |}.

Definition appendEventToFile (host : Host) (weekStart : string) (event : TelemetryEvent)
    (m : Manager) : Manager :=
  let telemetryData :=
    match telemetryFile m with
    | Some d => d
    | None => createEmptyTelemetryData host weekStart   (* no readable file *)
    end in
  write_file
    {| sessionId := sessionId telemetryData;
       extensionVersion := extensionVersion telemetryData;
       vscodeVersion := vscodeVersion telemetryData;
       platform := platform telemetryData;
       weekStart := Client.weekStart telemetryData;
       events := events telemetryData ++ [event];
       aggregatedStats :=
         updateAggregatedStats (activeDays m) event (aggregatedStats telemetryData) |}
    m.

Definition trackEvent (host : Host) (clock : Clock) (eventType : EventType)
    (metadata : option (list (string * json))) (m : Manager) : Manager :=
  if negb (isEnabled m) then m
  else
    let m1 := trackDailyActivity (activityISO clock) m in
    let event :=
      {| eventType := eventType; timestamp := eventISO clock;
         anonymousId := thisAnonymousId host; metadata := metadata |} in
    appendEventToFile host (weekStartDate clock) event m1.

(** *** Switching telemetry on and off *)
Definition updateTelemetryStatus (enabled : bool) (now : Z) (iso : string) (m : Manager)
  : Manager :=
  let wasEnabled := isEnabled m in
  let m1 := set_isEnabled enabled m in
  if enabled && negb wasEnabled then
    trackDailyActivity iso (setupSubmissionSchedule now m1)
  else if negb enabled && wasEnabled then
    clearTelemetryData (clearTimers m1)
  else m1.

Definition dispose (m : Manager) : Manager := clearTimers m.

(** *** What can happen to a manager *)
Inductive Action : Type :=
| TimerFires (h : nat)
| ManualSubmit (now : Z)
| UpdateStatus (enabled : bool) (now : Z) (iso : string)
| TrackEvent (clock : Clock) (eventType : EventType)
             (metadata : option (list (string * json)))
| Dispose.

Definition act (host : Host) (net : Network) (a : Action) (m : Manager) : Manager :=
  match a with
  | TimerFires h => fire net h m
  | ManualSubmit now => manualSubmit net now m
  | UpdateStatus enabled now iso => updateTelemetryStatus enabled now iso m
  | TrackEvent clock eventType metadata => trackEvent host clock eventType metadata m
  | Dispose => dispose m
  end.

Definition run (host : Host) (net : Network) (actions : list Action) (m : Manager)
  : Manager :=
  fold_left (fun s a => act host net a s) actions m.

(** *** Start-up and status *)

(** A manager as the field initialisers leave it, with what the host keeps
    between sessions: the stored first activation and the batch file. *)
Definition initial (storedActivation : option Z) (file : option TelemetryData) : Manager :=
  {| isEnabled := false; retryCount := 0; submissionTimer := None; retryTimer := None;
     activeDays := ∅; firstActivation := storedActivation; telemetryFile := file;
     fileWrites := 0; timers := []; nextHandle := 0; posted := [] |}.

(** [initializeTelemetry], for a stored setting [enabled]; the pruning, the
    schedule and the activity mark each read the clock. *)
Definition initializeTelemetry (getTime : string -> option Z) (enabled : bool)
    (cleanNow scheduleNow : Z) (iso : string) (m : Manager) : Manager :=
  let m1 := set_isEnabled enabled m in
  if enabled then
    trackDailyActivity iso
      (setupSubmissionSchedule scheduleNow (cleanOldData getTime cleanNow m1))
  else m1.



(** *** Vocabulary of the properties *)
Definition same_type (a b : EventType) : bool :=
  match a, b with
  | thought_created, thought_created
  | graph_opened, graph_opened
  | suggest_related_used, suggest_related_used
  | semantic_search_used, semantic_search_used
  | semantic_ai_graph_used, semantic_ai_graph_used => true
  | _, _ => false
  end.

(** The counter [updateAggregatedStats] keeps for a type of event, and the
    number of events of that type in a list. *)
Definition counter (t : EventType) (a : AggregatedStats) : Z :=
  match t with
  | thought_created => thoughtsCreated a
  | graph_opened => graphOpened a
  | suggest_related_used => suggestRelatedUsed a
  | semantic_search_used => semanticSearchUsed a
  | semantic_ai_graph_used => semanticAiGraphUsed a
  end.

Definition occurrences (t : EventType) (evs : list TelemetryEvent) : Z :=
  Z.of_nat (List.length (List.filter (fun e => same_type (eventType e) t) evs)).

(** A batch made in this session: the host's values in its header, at
    least one event, every event under the installation's identifier. *)
Definition batch_of (host : Host) (d : TelemetryData) : Prop :=
  sessionId d = thisSessionId host
  /\ extensionVersion d = Server.or_else (packageVersion host) "unknown"
  /\ vscodeVersion d = hostVersion host
  /\ platform d = hostPlatform host
  /\ events d <> []
  /\ Forall (fun e => anonymousId e = thisAnonymousId host) (events d).

(** The counters of a batch agree with its events and with the days seen. *)
Definition counted (days : gset string) (d : TelemetryData) : Prop :=
  (forall t, counter t (aggregatedStats d) = occurrences t (events d))
  /\ uniqueDaysActive (aggregatedStats d) = Z.of_nat (size days).

Definition file_ok (host : Host) (m : Manager) : Prop :=
  match telemetryFile m with
  | Some d => isEnabled m = true /\ batch_of host d /\ counted (activeDays m) d
  | None => True
  end.

(** What of a manager leaves the machine or reaches the disk. *)
Definition data_of (m : Manager)
  : bool * gset string * option TelemetryData * list TelemetryData * nat :=
  (isEnabled m, activeDays m, telemetryFile m, posted m, fileWrites m).


(** The two timers of the daily schedule, as opposed to the retries. *)
Definition is_daily (t : Timer) : bool :=
  match kind t with
  | RetryTimeout => false
  | _ => true
  end.

(** The event [trackEvent] records for a call. *)
Definition tracked_event (host : Host) (call : Clock * EventType * option (list (string * json)))
  : TelemetryEvent :=
  {| eventType := snd (fst call); timestamp := eventISO (fst (fst call));
     anonymousId := thisAnonymousId host; metadata := snd call |}.

Definition tracking (call : Clock * EventType * option (list (string * json))) : Action :=
  TrackEvent (fst (fst call)) (snd (fst call)) (snd call).

(** How a submission attempt can change what [data_of] shows: not at
    all, or by posting the batch of the file, which then stays (the exchange
    failed) or goes together with the active days (it succeeded). *)
Definition attempt_effect (m m' : Manager) : Prop :=
  data_of m' = data_of m
  \/ exists d,
       isEnabled m = true /\ telemetryFile m = Some d /\ events d <> []
       /\ isEnabled m' = true /\ fileWrites m' = fileWrites m
       /\ posted m' = posted m ++ [outgoing d]
       /\ ((telemetryFile m' = Some d /\ activeDays m' = activeDays m)
           \/ (telemetryFile m' = None /\ activeDays m' = ∅)).

(** The daily timers that are pending are held in [submissionTimer], and
    the first timeout of a schedule, while it is pending, is due on the grid
    of the first activation.  (The interval is armed when the first attempt
    has ended; nothing is said of its instants.) *)
Definition on_grid (first : option Z) (t : Timer) : Prop :=
  exists f k, first = Some f /\ fireAt t = f + k * SUBMISSION_INTERVAL.

Definition daily_held (m : Manager) : Prop :=
  forall h t, In (h, t) (timers m) -> is_daily t = true -> submissionTimer m = Some h.

Definition timeout_on_grid (m : Manager) : Prop :=
  forall h t, In (h, t) (timers m) -> kind t = SubmissionTimeout ->
    on_grid (firstActivation m) t.

Definition handles_distinct (m : Manager) : Prop := NoDup (map fst (timers m)).

(** A step that leaves the daily schedule alone: it may arm and cancel
    retries, and cancel other timers. *)
Definition retry_only (m m' : Manager) : Prop :=
  submissionTimer m' = submissionTimer m
  /\ firstActivation m' = firstActivation m
  /\ forall h t, In (h, t) (timers m') -> is_daily t = true -> In (h, t) (timers m).

(** Handles below the next one, no handle pending twice. *)
Definition well_formed (m : Manager) : Prop := handles_fresh m /\ handles_distinct m.

End Client.

(** ** ISO-8601 instants, as [toISOString] prints and [Date] reads them *)
Module IsoDate.

Definition digit_value (c : ascii) : option Z :=
  let n := Z.of_nat (nat_of_ascii c) in
  if (48 <=? n) && (n <=? 57) then Some (n - 48) else None.

Fixpoint number_from (acc : Z) (s : string) : option Z :=
  match s with
  | EmptyString => Some acc
  | String c s' =>
      match digit_value c with
      | Some d => number_from (10 * acc + d) s'
      | None => None
      end
  end.

Definition field (start len : nat) (s : string) : option Z :=
  number_from 0 (substring start len s).

(** Days from 1970-01-01 to a date of the proleptic Gregorian calendar. *)
Definition days_from_civil (y m d : Z) : Z :=
  let y' := if m <=? 2 then y - 1 else y in
  let era := y' / 400 in
  let yoe := y' - era * 400 in
  let mp := (m + 9) mod 12 in
  let doy := (153 * mp + 2) / 5 + d - 1 in
  let doe := yoe * 365 + yoe / 4 - yoe / 100 + doy in
  era * 146097 + doe - 719468.

(** Reads [YYYY-MM-DDTHH:mm:ss.sssZ]; anything else is not a date. *)
Definition getTime (s : string) : option Z :=
  if negb (Nat.eqb (String.length s) 24) then None
  else if negb (String.eqb (substring 4 1 s) "-" && String.eqb (substring 7 1 s) "-"
                && String.eqb (substring 10 1 s) "T" && String.eqb (substring 13 1 s) ":"
                && String.eqb (substring 16 1 s) ":" && String.eqb (substring 19 1 s) "."
                && String.eqb (substring 23 1 s) "Z") then None
  else
    match field 0 4 s, field 5 2 s, field 8 2 s, field 11 2 s, field 14 2 s,
          field 17 2 s, field 20 3 s with
    | Some y, Some mo, Some d, Some h, Some mi, Some sec, Some ms =>
        Some ((((days_from_civil y mo d * 24 + h) * 60 + mi) * 60 + sec) * 1000 + ms)
    | _, _, _, _, _, _, _ => None
    end.

(** *** Printing *)
Definition msPerDay : Z := 86400000.

(** The year (counted from March) of a day within its 400-year era, and
    the day within that year. *)
Definition year_of_era (doe : Z) : Z :=
  (doe - doe / 1460 + doe / 36524 - doe / 146096) / 365.

Definition day_of_year (doe : Z) : Z :=
  let yoe := year_of_era doe in
  doe - (365 * yoe + yoe / 4 - yoe / 100).

(** Year, month (1 to 12) and day of the month of a day number: what
    [getUTCFullYear], [getUTCMonth] (plus one) and [getUTCDate] return. *)
Definition civil_from_days (z : Z) : Z * Z * Z :=
  let z' := z + 719468 in
  let era := z' / 146097 in
  let doe := z' - era * 146097 in
  let yoe := year_of_era doe in
  let doy := day_of_year doe in
  let mp := (5 * doy + 2) / 153 in
  let d := doy - (153 * mp + 2) / 5 + 1 in
  let m := if mp <? 10 then mp + 3 else mp - 9 in
  (if m <=? 2 then yoe + era * 400 + 1 else yoe + era * 400, m, d).

(** [getUTCDay()]: 0 is Sunday; day 0 was a Thursday. *)
Definition weekday (day : Z) : Z := (day + 4) mod 7.

(** The character of the last decimal digit of [n]; the digits start at
    code 48. *)
Definition digit (n : Z) : ascii := ascii_of_nat (48 + Z.to_nat (n mod 10)).

(** [n] in [width] decimal digits, in front of [tail]. *)
Fixpoint digits (width : nat) (n : Z) (tail : string) : string :=
  match width with
  | O => tail
  | S w => digits w (n / 10) (String (digit n) tail)
  end.

(** Four digits for the years 0 to 9999, a sign and six digits otherwise. *)
Definition year_digits (y : Z) (tail : string) : string :=
  if (0 <=? y) && (y <=? 9999) then digits 4 y tail
  else String (if y <? 0 then "-"%char else "+"%char) (digits 6 (Z.abs y) tail).

Definition date_digits (day : Z) (tail : string) : string :=
  let '(y, m, d) := civil_from_days day in
  year_digits y (String "-" (digits 2 m (String "-" (digits 2 d tail)))).

(** [new Date(t).toISOString()], for a time value [t]. *)
Definition toISOString (t : Z) : string :=
  let ms := t mod msPerDay in
  date_digits (t / msPerDay)
    (String "T" (digits 2 (ms / 3600000)
       (String ":" (digits 2 (ms / 60000 mod 60)
          (String ":" (digits 2 (ms / 1000 mod 60)
             (String "." (digits 3 (ms mod 1000) "Z")))))))).

(** The instants of the years 0 to 9999, printed with a four-digit year. *)
Definition in_four_digit_years (t : Z) : Prop :=
  -62167219200000 <= t <= 253402300799999.

End IsoDate.

(** ** The clock the client and the server read *)
Module Clocks.
Import IsoDate.

(** [getWeekStart], at an instant [now]. *)
Definition getWeekStart (now : Z) : string :=
  let day := now / msPerDay in
  let '(y, m, d) := civil_from_days day in
  (* setUTCDate(getUTCDate() - getUTCDay() + 1) *)
  let date := d - weekday day + 1 in
  let afterSetDate := (days_from_civil y m 1 + date - 1) * msPerDay + now mod msPerDay in
  (* setUTCHours(0, 0, 0, 0) *)
  let startOfWeek := afterSetDate / msPerDay * msPerDay in
  Server.before "T" (toISOString startOfWeek).

(** A call of [trackEvent], with the instants at which [trackDailyActivity],
    the event and [getWeekStart] read the clock. *)
Record TimedCall := {
  activityTime : Z;
  eventTime : Z;
  weekTime : Z;
  callType : Client.EventType;
  callMetadata : option (list (string * Json.json))
}.

Definition clock_at (c : TimedCall) : Client.Clock :=
  {| Client.activityISO := toISOString (activityTime c);
     Client.eventISO := toISOString (eventTime c);
     Client.weekStartDate := getWeekStart (weekTime c) |}.

Definition call_at (c : TimedCall)
  : Client.Clock * Client.EventType * option (list (string * Json.json)) :=
  (clock_at c, callType c, callMetadata c).

(** What a request meets at the server, for the instants at which the
    handler and [generateFilename] read the clock. *)
Definition world_at (receivedAt filenameAt : Z) (random : string) : Server.World :=
  {| Server.receivedAtISO := toISOString receivedAt;
     Server.filenameISO := toISOString filenameAt;
     Server.randomHex := random |}.

End Clocks.

(** ** Sample inputs *)
Module Samples.
Import Json.

(** Two callers of the ingestion endpoint. *)
Definition caller : Server.Request :=
  {| Server.ip := Some "203.0.113.7"; Server.remoteAddress := None;
     Server.isJson := true; Server.body := JNull |}.

Definition bystander : Server.Request :=
  {| Server.ip := None; Server.remoteAddress := Some "198.51.100.9";
     Server.isJson := true; Server.body := JNull |}.

(** One hundred calls of [caller], a second apart from instant 0, after a
    call of [bystander]. *)
Definition burst_times : list Z := map (fun i => 1000 * Z.of_nat i) (seq 1 99).

Definition burst : list (Server.Request * Z) :=
  (bystander, -5) :: (caller, 0) :: map (fun t => (caller, t)) burst_times.

(** A batch with one recorded event, and a manager that holds it. *)
Definition sample_event : Client.TelemetryEvent :=
  {| Client.eventType := Client.thought_created;
     Client.timestamp := "2025-10-01T10:00:00.123Z";
     Client.anonymousId := "0b0f6a1c-58c5-4a8e-9d0e-5f2a3c1d7e42";
     Client.metadata := Some [("thoughtType", JStr "note"); ("hasCodeSnippet", JBool false)] |}.

Definition sample_stats : Client.AggregatedStats :=
  {| Client.thoughtsCreated := 1; Client.graphOpened := 0; Client.suggestRelatedUsed := 0;
     Client.semanticSearchUsed := 0; Client.semanticAiGraphUsed := 0;
     Client.uniqueDaysActive := 1 |}.

Definition sample_batch (evs : list Client.TelemetryEvent) : Client.TelemetryData :=
  {| Client.sessionId := "1759312800123-k3j9x0q2a"; Client.extensionVersion := "1.4.2";
     Client.vscodeVersion := "1.94.0"; Client.platform := "linux";
     Client.weekStart := "2025-09-29"; Client.events := evs;
     Client.aggregatedStats := sample_stats |}.

(** First activation at [T0]; nothing armed yet. *)
Definition T0 : Z := 1759000000000.
Definition hour : Z := 60 * 60 * 1000.

Definition sample_manager (file : option Client.TelemetryData) : Client.Manager :=
  {| Client.isEnabled := true; Client.retryCount := 0; Client.submissionTimer := None;
     Client.retryTimer := None; Client.activeDays := {["2025-10-01"]};
     Client.firstActivation := Some T0; Client.telemetryFile := file;
     Client.fileWrites := 0; Client.timers := []; Client.nextHandle := 0;
     Client.posted := [] |}.

(** No connectivity at all, and a backend that answers 500 before a given
    instant and 200 from then on. *)
Definition offline : Client.Network :=
  {| Client.reachable := fun _ => false; Client.backend := fun _ _ => Client.NetworkError |}.

Definition recovering (since : Z) : Client.Network :=
  {| Client.reachable := fun _ => true;
     Client.backend := fun t _ =>
       if t <? since then Client.HttpResponse 500 true else Client.HttpResponse 200 true |}.

Definition answering (status : Z) : Client.Network :=
  {| Client.reachable := fun _ => true;
     Client.backend := fun _ _ => Client.HttpResponse status true |}.

(** Batches made large by one long [thoughtType]: alone, and as the newest
    of 501 events. *)
Fixpoint filler (n : nat) : string :=
  match n with
  | O => EmptyString
  | S n' => String "n" (filler n')
  end.

Definition bulky_event (n : nat) : Client.TelemetryEvent :=
  {| Client.eventType := Client.thought_created;
     Client.timestamp := "2025-10-01T10:00:00.123Z";
     Client.anonymousId := "0b0f6a1c-58c5-4a8e-9d0e-5f2a3c1d7e42";
     Client.metadata := Some [("thoughtType", JStr (filler n))] |}.

Definition bulky_batch (n : nat) : Client.TelemetryData := sample_batch [bulky_event n].

Definition crowded_batch (n : nat) : Client.TelemetryData :=
  sample_batch (repeat sample_event 500 ++ [bulky_event n]).

(** A submission as the client posts it, and a request that carries it. *)
Definition posted_event (eventType anonymousId : string) : json :=
  JObj [("eventType", JStr eventType); ("timestamp", JStr "2025-10-01T10:00:00.123Z");
        ("anonymousId", JStr anonymousId);
        ("metadata", JObj [("thoughtType", JStr "note"); ("fileName", JStr "notes.md")])].

Definition posted_body (events : list json) : json :=
  JObj [("sessionId", JStr "1759312800123-k3j9x0q2a"); ("extensionVersion", JStr "1.4.2");
        ("vscodeVersion", JStr "1.94.0"); ("platform", JStr "linux");
        ("weekStart", JStr "2025-09-29"); ("events", JArr events);
        ("aggregatedStats", JObj [("thoughtsCreated", JNum 1); ("uniqueDaysActive", JNum 1)])].

Definition request_with (data : json) : Server.Request :=
  {| Server.ip := Some "203.0.113.7"; Server.remoteAddress := None;
     Server.isJson := true; Server.body := data |}.

(** No variable set in the environment. *)
Definition bare_env : Server.Env := {| Server.IP_SALT := None; Server.SERVER_VERSION := None |}.

Definition sample_world : Server.World :=
  {| Server.receivedAtISO := "2025-10-02T08:00:00.000Z";
     Server.filenameISO := "2025-10-02T08:00:00.001Z";
     Server.randomHex := "9f3c21ab" |}.

(** An event whose identifier is a number, and the arrivals of [burst] at
    the route. *)
Definition numbered_event : json :=
  JObj [("eventType", JStr "graph_opened"); ("timestamp", JStr "2025-10-01T10:00:00.123Z");
        ("anonymousId", JNum 7)].
Definition burst_arrivals : list (Server.World * Z * Server.Request) :=
  map (fun rt => (sample_world, snd rt, fst rt)) burst.

(** The host of the sample manager, and the clock at a call of
    [trackEvent]. *)
Definition sample_host : Client.Host :=
  {| Client.thisAnonymousId := "0b0f6a1c-58c5-4a8e-9d0e-5f2a3c1d7e42";
     Client.thisSessionId := "1759312800123-k3j9x0q2a";
     Client.packageVersion := Some "1.4.2"; Client.hostVersion := "1.94.0";
     Client.hostPlatform := "linux" |}.
Definition sample_clock : Client.Clock :=
  {| Client.activityISO := "2025-10-01T10:00:00.122Z";
     Client.eventISO := "2025-10-01T10:00:00.123Z";
     Client.weekStartDate := "2025-09-29" |}.

End Samples.

(* ===================================================================== *)
(** * Part II. Properties                                                 *)
(* ===================================================================== *)

(** ** The models of the library functions agree with their test vectors *)
Example sha_abc : SHA256.hexdigest "abc" = "ba7816bf8f01cfea414140de5dae2223b00361a396177a9cb410ff61f20015ad"%string.
Proof. vm_compute. reflexivity. Qed.
Example sha_empty : SHA256.hexdigest "" = "e3b0c44298fc1c149afbf4c8996fb92427ae41e4649b934ca495991b7852b855"%string.
Proof. vm_compute. reflexivity. Qed.
Example sha_long : SHA256.hexdigest "abcdbcdecdefdefgefghfghighijhijkijkljklmklmnlmnomnopnopq" = "248d6a61d20638b8e5c026930c3e6039a33ce45964ff2167f6ecedd419db06c1"%string.
Proof. vm_compute. reflexivity. Qed.
Example stringify_sample :
  Json.stringify (Json.JObj [("a", Json.JArr [Json.JNum 1; Json.JNum (-20); Json.JNull]);
                             ("b", Json.JStr "x<y"); ("c", Json.JBool true)])%string
  = String "{" (String Json.dquote ("a" +:+ String Json.dquote (":[1,-20,null]," +:+
      String Json.dquote ("b" +:+ String Json.dquote (":" +:+ String Json.dquote ("x<y" +:+
      String Json.dquote ("," +:+ String Json.dquote ("c" +:+ String Json.dquote ":true}")))))))).
Proof. vm_compute. reflexivity. Qed.

(** ** Rate limiter *)
Section RateLimiter.
Import Server.

Implicit Types (counts : gmap string RateEntry) (req : Request).

(** A request leaves the entries of the other identities alone. *)
Lemma rateLimit_frame req now counts (k : string) :
  clientIP req ≠ k -> fst (rateLimit req now counts) !! k = counts !! k.
Proof.
  intros Hne. unfold rateLimit.
  destruct (counts !! clientIP req) as [e|]; simpl.
  - destruct (RATE_WINDOW <? now - windowStart e); simpl.
    + by rewrite lookup_insert_ne.
    + destruct (RATE_LIMIT <=? count e); simpl; [done|].
      by rewrite lookup_insert_ne.
  - by rewrite lookup_insert_ne.
Qed.

Lemma rateLimit_first req now counts :
  counts !! clientIP req = None ->
  rateLimit req now counts
  = (<[clientIP req := {| count := 1; windowStart := now |}]> counts, Next).
Proof. intros H. unfold rateLimit. by rewrite H. Qed.

Lemma rateLimit_within req now counts e :
  counts !! clientIP req = Some e ->
  now - windowStart e <= RATE_WINDOW ->
  count e < RATE_LIMIT ->
  rateLimit req now counts
  = (<[clientIP req := {| count := count e + 1; windowStart := windowStart e |}]> counts,
     Next).
Proof.
  intros H Hw Hc. unfold rateLimit. rewrite H.
  destruct (Z.ltb_spec RATE_WINDOW (now - windowStart e)); [lia|].
  destruct (Z.leb_spec RATE_LIMIT (count e)); [lia|]. done.
Qed.

Lemma rateLimit_exceeded req now counts e :
  counts !! clientIP req = Some e ->
  now - windowStart e <= RATE_WINDOW ->
  RATE_LIMIT <= count e ->
  rateLimit req now counts = (counts, Respond rate_limited).
Proof.
  intros H Hw Hc. unfold rateLimit. rewrite H.
  destruct (Z.ltb_spec RATE_WINDOW (now - windowStart e)); [lia|].
  destruct (Z.leb_spec RATE_LIMIT (count e)); [done|lia].
Qed.

Lemma rateLimit_rollover req now counts e :
  counts !! clientIP req = Some e ->
  RATE_WINDOW < now - windowStart e ->
  rateLimit req now counts
  = (<[clientIP req := {| count := 1; windowStart := now |}]> counts, Next).
Proof.
  intros H Hw. unfold rateLimit. rewrite H.
  destruct (Z.ltb_spec RATE_WINDOW (now - windowStart e)); [done|lia].
Qed.

Lemma history_cons_own req now trace :
  history (clientIP req) ((req, now) :: trace) = now :: history (clientIP req) trace.
Proof. unfold history. simpl. by rewrite String.eqb_refl. Qed.

Lemma history_cons_other req now trace (k : string) :
  clientIP req ≠ k -> history k ((req, now) :: trace) = history k trace.
Proof.
  intros Hne. unfold history. simpl.
  destruct (String.eqb_spec (clientIP req) k); [done|done].
Qed.

(** While every call of an identity falls in its current window, its entry
    counts the calls, up to the limit, and keeps the start of the window. *)
Lemma entry_in_window trace : forall counts (k : string) e,
  counts !! k = Some e ->
  1 <= count e <= RATE_LIMIT ->
  Forall (fun t => t - windowStart e <= RATE_WINDOW) (history k trace) ->
  fst (run_limiter trace counts) !! k
  = Some {| count := Z.min RATE_LIMIT (count e + Z.of_nat (List.length (history k trace)));
            windowStart := windowStart e |}.
Proof.
  induction trace as [|[req now] trace IH]; intros counts k e Hk Hc Hall.
  - simpl. rewrite Hk. f_equal. destruct e as [c w]; simpl in *. f_equal. lia.
  - simpl. destruct (decide (clientIP req = k)) as [<-|Hne].
    + rewrite history_cons_own in Hall |- *. inversion Hall as [|? ? Hnow Hrest]; subst.
      destruct (Z.leb_spec RATE_LIMIT (count e)) as [Hfull|Hroom].
      * rewrite (rateLimit_exceeded _ _ _ e) by (done || lia). simpl.
        rewrite (IH _ _ e) by done. f_equal. f_equal.
        simpl List.length. lia.
      * rewrite (rateLimit_within _ _ _ e) by (done || lia). simpl.
        erewrite IH; [| apply lookup_insert_eq | simpl; lia | done]. simpl.
        f_equal. f_equal. simpl List.length. lia.
    + rewrite history_cons_other in Hall |- * by done.
      apply IH; [|done|done]. by rewrite rateLimit_frame.
Qed.

(** The same, from a limiter that has not seen the identity yet. *)
Lemma entry_after_first_call trace : forall counts (k : string) t1 ts,
  counts !! k = None ->
  history k trace = t1 :: ts ->
  Forall (fun t => t - t1 <= RATE_WINDOW) ts ->
  fst (run_limiter trace counts) !! k
  = Some {| count := Z.min RATE_LIMIT (1 + Z.of_nat (List.length ts)); windowStart := t1 |}.
Proof.
  induction trace as [|[req now] trace IH]; intros counts k t1 ts Hk Hh Hall.
  - discriminate.
  - simpl. destruct (decide (clientIP req = k)) as [<-|Hne].
    + rewrite history_cons_own in Hh. injection Hh as -> Hts.
      rewrite rateLimit_first by done. simpl.
      erewrite entry_in_window; [| apply lookup_insert_eq | simpl; unfold RATE_LIMIT; lia
                                | simpl; by rewrite Hts ].
      simpl. by rewrite Hts.
    + rewrite history_cons_other in Hh by done.
      apply IH; [|done|done]. by rewrite rateLimit_frame.
Qed.

End RateLimiter.

Section RateLimitClaim.
Import Server.

(** C3. For a client identity the limiter has not seen: the first request
    initialises [{count: 1, windowStart: now}] and is let through; as long as
    the requests stay within [RATE_WINDOW] of the first one, requests 2 to 100
    are let through (whatever other identities do in between), the 101st and
    later ones are answered 429 and change nothing; a request that arrives
    after the window has elapsed starts a new window and is let through. *)
Theorem rate_limit_window (req : Request) (now : Z) (trace : list (Request * Z))
    (counts : gmap string RateEntry) (t1 : Z) (ts : list Z) :
  counts !! clientIP req = None ->
  history (clientIP req) trace = t1 :: ts ->
  Forall (fun t => t - t1 <= RATE_WINDOW) ts ->
  let seen := fst (run_limiter trace counts) in
  RATE_LIMIT = 100 /\ RATE_WINDOW = 3600000
  /\ (forall fresh : gmap string RateEntry, fresh !! clientIP req = None ->
        rateLimit req t1 fresh
        = (<[clientIP req := {| count := 1; windowStart := t1 |}]> fresh, Next))
  /\ (now - t1 <= RATE_WINDOW -> (List.length ts < 99)%nat ->
        rateLimit req now seen
        = (<[clientIP req := {| count := Z.of_nat (List.length ts) + 2; windowStart := t1 |}]> seen,
           Next))
  /\ (now - t1 <= RATE_WINDOW -> (99 <= List.length ts)%nat ->
        rateLimit req now seen = (seen, Respond rate_limited)
        /\ status rate_limited = 429)
  /\ (RATE_WINDOW < now - t1 ->
        rateLimit req now seen
        = (<[clientIP req := {| count := 1; windowStart := now |}]> seen, Next)).
Proof.
  intros Hnone Hhist Hall seen.
  pose proof (entry_after_first_call trace counts (clientIP req) t1 ts Hnone Hhist Hall)
    as Hentry.
  fold seen in Hentry.
  split; [reflexivity|]. split; [reflexivity|].
  split; [intros fresh Hfresh; by apply rateLimit_first|].
  split; [|split].
  - intros Hin Hlen.
    erewrite rateLimit_within; [| exact Hentry | simpl; lia | simpl; unfold RATE_LIMIT; lia].
    simpl. do 3 f_equal. unfold RATE_LIMIT. lia.
  - intros Hin Hlen. split; [|reflexivity].
    eapply rateLimit_exceeded; [exact Hentry | simpl; lia | simpl; unfold RATE_LIMIT; lia].
  - intros Hout.
    eapply rateLimit_rollover; [exact Hentry | simpl; lia].
Qed.

(** The sample burst: the 101st call, made exactly one window after the
    first, is refused; a millisecond later it opens a new window. *)
Lemma rate_limit_window_sample :
  let seen := fst (run_limiter Samples.burst ∅) in
  rateLimit Samples.caller 3600000 seen = (seen, Respond rate_limited)
  /\ rateLimit Samples.caller 3600001 seen
     = (<[clientIP Samples.caller := {| count := 1; windowStart := 3600001 |}]> seen, Next).
Proof.
  assert (Hnone : (∅ : gmap string RateEntry) !! clientIP Samples.caller = None)
    by apply lookup_empty.
  assert (Hhist : history (clientIP Samples.caller) Samples.burst = 0 :: Samples.burst_times)
    by (vm_compute; reflexivity).
  assert (Hall : Forall (fun t => t - 0 <= RATE_WINDOW) Samples.burst_times).
  { apply Forall_forall. intros t Ht. unfold Samples.burst_times in Ht.
    apply list_elem_of_In, in_map_iff in Ht as (i & <- & Hi). apply in_seq in Hi.
    unfold RATE_WINDOW. lia. }
  split.
  - apply (rate_limit_window Samples.caller 3600000 Samples.burst ∅ 0 Samples.burst_times
             Hnone Hhist Hall).
    + unfold RATE_WINDOW. lia.
    + vm_compute. lia.
  - apply (rate_limit_window Samples.caller 3600001 Samples.burst ∅ 0 Samples.burst_times
             Hnone Hhist Hall).
    unfold RATE_WINDOW. lia.
Defined.

End RateLimitClaim.

(** ** The client's schedule and retries *)
Section Scheduler.
Import Client.

(** The next instant lies on the grid of the first activation, strictly
    after [now], and no grid instant lies in between. *)
Lemma nextSubmissionTime_spec (first now : Z) :
  let k := (now - first) / SUBMISSION_INTERVAL in
  nextSubmissionTime first now = first + (k + 1) * SUBMISSION_INTERVAL
  /\ now < nextSubmissionTime first now
  /\ (forall n : Z, now < first + n * SUBMISSION_INTERVAL ->
        nextSubmissionTime first now <= first + n * SUBMISSION_INTERVAL).
Proof.
  intros k. unfold nextSubmissionTime. fold k.
  assert (Hpos : 0 < SUBMISSION_INTERVAL) by reflexivity.
  pose proof (Z.div_mod (now - first) SUBMISSION_INTERVAL ltac:(lia)) as Hdm.
  pose proof (Z.mod_pos_bound (now - first) SUBMISSION_INTERVAL Hpos) as Hr.
  fold k in Hdm.
  split; [reflexivity|]. split; [lia|].
  intros n Hn.
  assert (k < n) by nia. nia.
Qed.

Lemma clearTimers_nextHandle (m : Manager) : nextHandle (clearTimers m) = nextHandle m.
Proof.
  unfold clearTimers. destruct (submissionTimer m); simpl; destruct (retryTimer m); reflexivity.
Qed.

Lemma clearTimers_firstActivation (m : Manager) :
  firstActivation (clearTimers m) = firstActivation m.
Proof.
  unfold clearTimers. destruct (submissionTimer m); simpl; destruct (retryTimer m); reflexivity.
Qed.

(** C4. With a stored first activation [first] (a [Date.now()] value, hence
    not 0) and [first <= now], [setupSubmissionSchedule] arms its timer for
    the instant [first + (k+1) * INTERVAL], [k = floor((now - first) / INTERVAL)];
    that instant is after [now], and it is the smallest instant
    [first + n * INTERVAL] after [now].  The stored activation is kept. *)
Theorem next_submission_on_grid (m : Manager) (first now : Z) :
  firstActivation m = Some first ->
  first <> 0 ->
  first <= now ->
  let k := (now - first) / SUBMISSION_INTERVAL in
  let next := first + (k + 1) * SUBMISSION_INTERVAL in
  let m' := setupSubmissionSchedule now m in
  submissionTimer m' = Some (nextHandle m)
  /\ timers m'
     = timers (clearTimers m) ++ [(nextHandle m, {| kind := SubmissionTimeout; fireAt := next |})]
  /\ firstActivation m' = Some first
  /\ nextSubmissionTime first now = next
  /\ now < next
  /\ (forall n : Z, now < first + n * SUBMISSION_INTERVAL ->
        next <= first + n * SUBMISSION_INTERVAL).
Proof.
  intros Hstored Hnz Hle k next m'.
  destruct (nextSubmissionTime_spec first now) as (Heq & Hlt & Hmin).
  fold k in Heq. fold next in Heq. rewrite Heq in Hlt, Hmin.
  pose proof (clearTimers_nextHandle m) as Hh.
  pose proof (clearTimers_firstActivation m) as Hf.
  unfold m', setupSubmissionSchedule. rewrite Hstored.
  destruct (Z.eqb_spec first 0) as [|_]; [contradiction|].
  rewrite Heq. remember (clearTimers m) as c eqn:Hc.
  unfold setTimeout. simpl. rewrite Hh, Hf, Hstored.
  replace (now + (next - now)) with next by lia.
  repeat split; assumption.
Qed.

(** The scenario of the specification: activated at [T0], started again
    thirty hours later, the manager is armed for [T0 + 48 h]. *)
Lemma next_submission_on_grid_sample :
  let m' := setupSubmissionSchedule (Samples.T0 + 30 * Samples.hour)
              (Samples.sample_manager None) in
  timers m' = [(0%nat, {| kind := SubmissionTimeout; fireAt := Samples.T0 + 48 * Samples.hour |})]
  /\ Samples.T0 + 30 * Samples.hour < Samples.T0 + 48 * Samples.hour.
Proof.
  destruct (next_submission_on_grid (Samples.sample_manager None) Samples.T0
              (Samples.T0 + 30 * Samples.hour) eq_refl ltac:(discriminate) ltac:(discriminate))
    as (_ & Htimers & _ & _ & Hlt & _).
  split; [exact Htimers | exact Hlt].
Defined.

Lemma find_timer_last (h : nat) (t : Timer) (ts : list (nat * Timer)) :
  Forall (fun e => (fst e < h)%nat) ts -> find_timer h (ts ++ [(h, t)]) = Some t.
Proof.
  induction 1 as [|[h' t'] ts Hlt _ IH]; simpl.
  - by rewrite Nat.eqb_refl.
  - simpl in Hlt. destruct (Nat.eqb_spec h' h); [lia | exact IH].
Qed.

Lemma remove_last (h : nat) (t : Timer) (ts : list (nat * Timer)) :
  Forall (fun e => (fst e < h)%nat) ts ->
  List.filter (fun e => negb (Nat.eqb (fst e) h)) (ts ++ [(h, t)]) = ts.
Proof.
  induction 1 as [|[h' t'] ts Hlt _ IH]; simpl.
  - by rewrite Nat.eqb_refl.
  - simpl in Hlt. destruct (Nat.eqb_spec h' h); [lia|]. simpl. by rewrite IH.
Qed.

Lemma fresh_weaken (h h' : nat) (ts : list (nat * Timer)) :
  (h <= h')%nat ->
  Forall (fun e => (fst e < h)%nat) ts -> Forall (fun e => (fst e < h')%nat) ts.
Proof. intros Hle Hall. eapply Forall_impl; [exact Hall|]. intros e He. simpl in *. lia. Qed.

(** One step of the retry chain without connectivity: the pending retry
    [h], armed for [at_], fires; the count goes up by one and, if the delay
    table is not exhausted, the next retry is armed. *)
Lemma offline_retry_step (net : Network) (h : nat) (at_ : Z) (m : Manager)
    (ts : list (nat * Timer)) :
  (forall t, reachable net t = false) ->
  Forall (fun e => (fst e < h)%nat) ts ->
  timers m = ts ++ [(h, {| kind := RetryTimeout; fireAt := at_ |})] ->
  nextHandle m = S h ->
  let m' := fire net h m in
  retryCount m' = S (retryCount m)
  /\ posted m' = posted m /\ telemetryFile m' = telemetryFile m
  /\ submissionTimer m' = submissionTimer m
  /\ match nth_error RETRY_DELAYS (S (retryCount m)) with
     | Some delay =>
         timers m' = ts ++ [(S h, {| kind := RetryTimeout; fireAt := at_ + delay |})]
         /\ retryTimer m' = Some (S h) /\ nextHandle m' = S (S h)
     | None => timers m' = ts /\ nextHandle m' = S h
     end.
Proof.
  intros Hoff Hfresh Htimers Hnext m'.
  unfold m', fire. rewrite Htimers, find_timer_last by done. simpl.
  unfold retry_callback. rewrite Hoff. simpl.
  unfold scheduleRetry, clearTimeout. simpl. rewrite Htimers, remove_last by done.
  destruct (retryCount m) as [|[|[|n]]]; simpl; rewrite ?Hnext; repeat split; reflexivity.
Qed.

(** C5. When the connectivity probe fails at the attempt and at every
    retry, exactly three retries are armed, 30 minutes, 2 hours and 6 hours
    after the preceding failure; the third retry arms nothing: the pending
    timers are those of before the attempt, nothing was posted, the batch
    file is as it was, and the whole chain ends before the next interval. *)
Theorem retries_exhausted (net : Network) (T : Z) (m : Manager) :
  (forall t, reachable net t = false) ->
  handles_fresh m ->
  let h := nextHandle m in
  let s0 := attemptSubmission net T m in
  let s1 := fire net h s0 in
  let s2 := fire net (S h) s1 in
  let s3 := fire net (S (S h)) s2 in
  RETRY_DELAYS = [30 * 60 * 1000; 2 * 60 * 60 * 1000; 6 * 60 * 60 * 1000]
  /\ timers s0 = timers m ++ [(h, {| kind := RetryTimeout; fireAt := T + 30 * 60 * 1000 |})]
  /\ timers s1
     = timers m ++ [(S h, {| kind := RetryTimeout;
                             fireAt := T + 30 * 60 * 1000 + 2 * 60 * 60 * 1000 |})]
  /\ timers s2
     = timers m ++ [(S (S h), {| kind := RetryTimeout;
                                 fireAt := T + 30 * 60 * 1000 + 2 * 60 * 60 * 1000
                                           + 6 * 60 * 60 * 1000 |})]
  /\ timers s3 = timers m
  /\ retryCount s3 = 3%nat
  /\ posted s3 = posted m
  /\ telemetryFile s3 = telemetryFile m
  /\ T + 30 * 60 * 1000 + 2 * 60 * 60 * 1000 + 6 * 60 * 60 * 1000 < T + SUBMISSION_INTERVAL.
Proof.
  intros Hoff Hfresh h s0 s1 s2 s3.
  assert (H0 : timers s0 = timers m ++ [(h, {| kind := RetryTimeout; fireAt := T + 30 * 60 * 1000 |})]
               /\ nextHandle s0 = S h /\ retryCount s0 = 0%nat
               /\ posted s0 = posted m /\ telemetryFile s0 = telemetryFile m).
  { unfold s0, attemptSubmission. rewrite Hoff. simpl. repeat split; reflexivity. }
  destruct H0 as (Ht0 & Hn0 & Hc0 & Hp0 & Hf0).
  destruct (offline_retry_step net h _ s0 (timers m) Hoff Hfresh Ht0 Hn0)
    as (Hc1 & Hp1 & Hf1 & _ & Hstep1).
  fold s1 in Hc1, Hp1, Hf1, Hstep1. rewrite Hc0 in Hc1, Hstep1. simpl in Hstep1.
  destruct Hstep1 as (Ht1 & _ & Hn1).
  destruct (offline_retry_step net (S h) _ s1 (timers m) Hoff
              (fresh_weaken h (S h) _ ltac:(lia) Hfresh) Ht1 Hn1)
    as (Hc2 & Hp2 & Hf2 & _ & Hstep2).
  fold s2 in Hc2, Hp2, Hf2, Hstep2. rewrite Hc1 in Hc2, Hstep2. simpl in Hstep2.
  destruct Hstep2 as (Ht2 & _ & Hn2).
  destruct (offline_retry_step net (S (S h)) _ s2 (timers m) Hoff
              (fresh_weaken h (S (S h)) _ ltac:(lia) Hfresh) Ht2 Hn2)
    as (Hc3 & Hp3 & Hf3 & _ & Hstep3).
  fold s3 in Hc3, Hp3, Hf3, Hstep3. rewrite Hc2 in Hc3, Hstep3. simpl in Hstep3.
  destruct Hstep3 as (Ht3 & _).
  split; [reflexivity|].
  split; [exact Ht0|]. split; [exact Ht1|]. split; [exact Ht2|]. split; [exact Ht3|].
  split; [exact Hc3|]. split; [congruence|]. split; [congruence|].
  unfold SUBMISSION_INTERVAL. lia.
Qed.

(** A regular interval fires at [T0 + 24 h] while the machine is offline:
    three retries follow, and after the last one only the interval timer is
    pending, for [T0 + 48 h]. *)
Lemma retries_exhausted_sample :
  let armed := {| kind := SubmissionInterval; fireAt := Samples.T0 + 48 * Samples.hour |} in
  let m := set_submissionTimer (Some 0%nat)
             (set_timers [(0%nat, armed)] 1 (Samples.sample_manager None)) in
  let s3 := fire Samples.offline 3
              (fire Samples.offline 2
                 (fire Samples.offline 1
                    (attemptSubmission Samples.offline (Samples.T0 + 24 * Samples.hour) m))) in
  timers s3 = [(0%nat, armed)] /\ retryCount s3 = 3%nat /\ posted s3 = [].
Proof.
  intros armed m.
  assert (Hfresh : handles_fresh m) by (repeat constructor).
  destruct (retries_exhausted Samples.offline (Samples.T0 + 24 * Samples.hour) m
              (fun _ => eq_refl) Hfresh)
    as (_ & _ & _ & _ & Ht & Hc & Hp & _).
  split; [exact Ht|]. split; [exact Hc | exact Hp].
Defined.

End Scheduler.

(** ** Submission *)
Section Submission.
Import Client.

(** C10. When the batch file holds no event, a submission attempt
    ([submitTelemetryData], directly or through [manualSubmit]) takes the
    'no events' exit: the manager is exactly as before, so no request is
    posted, no retry is armed, and the batch file with its aggregated
    counters stays; this holds for any number of attempts in a row.  A
    scheduled attempt that finds connectivity only resets the retry count. *)
Theorem empty_batch_is_left_alone (net : Network) (now : Z) (m : Manager) (d : TelemetryData) :
  telemetryFile m = Some d ->
  events d = [] ->
  submit net now m = (m, if isEnabled m then NoEvents else Disabled)
  /\ submitTelemetryData net now m = m
  /\ manualSubmit net now m = m
  /\ posted (submitTelemetryData net now m) = posted m
  /\ timers (submitTelemetryData net now m) = timers m
  /\ telemetryFile (submitTelemetryData net now m) = Some d
  /\ (reachable net now = true -> attemptSubmission net now m = set_retryCount 0 m)
  /\ (forall attempts : list (Network * Z),
        fold_left (fun s a => submitTelemetryData (fst a) (snd a) s) attempts m = m).
Proof.
  intros Hfile Hempty.
  assert (Hsubmit : forall net' now',
            submit net' now' m = (m, if isEnabled m then NoEvents else Disabled)).
  { intros net' now'. unfold submit. destruct (isEnabled m); simpl; [|reflexivity].
    by rewrite Hfile, Hempty. }
  assert (Hsame : forall net' now', submitTelemetryData net' now' m = m).
  { intros net' now'. unfold submitTelemetryData. by rewrite Hsubmit. }
  split; [apply Hsubmit|]. split; [apply Hsame|].
  split; [unfold manualSubmit; destruct (isEnabled m); simpl; [apply Hsame | reflexivity]|].
  rewrite Hsame. repeat split; try assumption.
  - intros Hup. unfold attemptSubmission, submitTelemetryData, submit. rewrite Hup. simpl.
    destruct (isEnabled m); simpl; [|reflexivity]. by rewrite Hfile, Hempty.
  - intros attempts. induction attempts as [|[net' now'] attempts IH]; simpl; [reflexivity|].
    by rewrite Hsame.
Qed.

Lemma empty_batch_is_left_alone_sample :
  let m := Samples.sample_manager (Some (Samples.sample_batch [])) in
  submit (Samples.answering 200) (Samples.T0 + 24 * Samples.hour) m = (m, NoEvents).
Proof.
  intros m.
  apply (empty_batch_is_left_alone (Samples.answering 200) (Samples.T0 + 24 * Samples.hour) m
           (Samples.sample_batch []) eq_refl eq_refl).
Defined.

End Submission.

(** ** Retention *)
Section RetentionProperties.
Import Client.
Variable getTime : string -> option Z.

Lemma filter_all {A : Type} (f : A -> bool) (l : list A) :
  (forall x, In x l -> f x = true) -> List.filter f l = l.
Proof.
  induction l as [|a l IH]; simpl; intros Hall; [reflexivity|].
  rewrite (Hall a) by auto. f_equal. apply IH. auto.
Qed.

Lemma filter_shorter {A : Type} (f : A -> bool) (l : list A) (x : A) :
  In x l -> f x = false -> (List.length (List.filter f l) < List.length l)%nat.
Proof.
  induction l as [|a l IH]; simpl; intros Hin Hx; [contradiction|].
  pose proof (List.filter_length_le f l) as Hle.
  destruct Hin as [->|Hin].
  - rewrite Hx. lia.
  - specialize (IH Hin Hx). destruct (f a); simpl; lia.
Qed.

Lemma filter_drops {A : Type} (f : A -> bool) (l : list A) :
  (List.length (List.filter f l) < List.length l)%nat -> exists x, In x l /\ f x = false.
Proof.
  induction l as [|a l IH]; simpl; intros Hlt; [lia|].
  destruct (f a) eqn:Ha.
  - simpl in Hlt. destruct IH as (x & Hx & Hfx); [lia|]. exists x. auto.
  - exists a. auto.
Qed.

(** What [cleanOldData] leaves in the file, and when it writes. *)
Lemma cleanOldData_spec (now : Z) (m : Manager) (d : TelemetryData) :
  telemetryFile m = Some d ->
  let keep := is_recent getTime (now - MAX_DATA_AGE) in
  (List.filter keep (events d) = events d /\ cleanOldData getTime now m = m)
  \/ ((exists e, In e (events d) /\ keep e = false)
      /\ cleanOldData getTime now m = write_file (with_events (List.filter keep (events d)) d) m).
Proof.
  intros Hfile keep. unfold cleanOldData. rewrite Hfile. fold keep.
  destruct (Nat.ltb_spec (List.length (List.filter keep (events d))) (List.length (events d)))
    as [Hlt|Hge].
  - right. split; [|reflexivity].
    by apply filter_drops.
  - left. split; [|reflexivity].
    apply filter_all. intros x Hx. destruct (keep x) eqn:Hk; [reflexivity|].
    pose proof (filter_shorter keep (events d) x Hx Hk). lia.
Qed.

(** C9. The pruning pass keeps every event younger than the seven-day
    window, removes every event as old as the window or older, adds
    nothing, writes the file when (and only when) an event was removed, and
    leaves the manager and its file untouched when nothing expires. *)
Theorem retention_pruning (now : Z) (m : Manager) (d : TelemetryData) :
  telemetryFile m = Some d ->
  let m' := cleanOldData getTime now m in
  exists d',
    telemetryFile m' = Some d'
    /\ MAX_DATA_AGE = 7 * 24 * 60 * 60 * 1000
    /\ (forall e t, In e (events d) -> getTime (timestamp e) = Some t ->
          now - t < MAX_DATA_AGE -> In e (events d'))
    /\ (forall e t, In e (events d) -> getTime (timestamp e) = Some t ->
          MAX_DATA_AGE <= now - t -> ~ In e (events d'))
    /\ (forall e, In e (events d') -> In e (events d))
    /\ ((exists e, In e (events d) /\ ~ In e (events d')) -> fileWrites m' = S (fileWrites m))
    /\ ((forall e, In e (events d) -> In e (events d')) -> m' = m /\ fileWrites m' = fileWrites m).
Proof.
  intros Hfile m'.
  set (keep := is_recent getTime (now - MAX_DATA_AGE)).
  assert (Hyoung : forall e t, getTime (timestamp e) = Some t ->
                     now - t < MAX_DATA_AGE -> keep e = true).
  { intros e t Ht Hlt. unfold keep, is_recent. rewrite Ht. apply Z.ltb_lt. lia. }
  assert (Hold : forall e t, getTime (timestamp e) = Some t ->
                   MAX_DATA_AGE <= now - t -> keep e = false).
  { intros e t Ht Hge. unfold keep, is_recent. rewrite Ht. apply Z.ltb_ge. lia. }
  destruct (cleanOldData_spec now m d Hfile) as [[Hall Hsame] | [(x & Hx & Hkx) Hwrite]];
    fold keep in Hall || fold keep in Hkx, Hwrite.
  - exists d. unfold m'. rewrite Hsame.
    split; [exact Hfile|]. split; [reflexivity|].
    split; [auto|]. split.
    { intros e t He Ht Hge _. rewrite <- Hall in He. apply filter_In in He as [_ He].
      rewrite (Hold e t Ht Hge) in He. discriminate. }
    split; [auto|]. split; [|auto].
    intros (e & He & Hne). contradiction.
  - exists (with_events (List.filter keep (events d)) d). unfold m'. rewrite Hwrite. simpl.
    split; [reflexivity|]. split; [reflexivity|]. split.
    { intros e t He Ht Hlt. apply filter_In. eauto. }
    split.
    { intros e t He Ht Hge Hin. apply filter_In in Hin as [_ Hin].
      rewrite (Hold e t Ht Hge) in Hin. discriminate. }
    split; [intros e He; by apply filter_In in He as [He _]|].
    split; [reflexivity|].
    intros Hall. specialize (Hall x Hx). apply filter_In in Hall as [_ Hall]. congruence.
Qed.

End RetentionProperties.

(** On the second of October, an event of the twentieth of September goes
    and one of the first of October stays; the file is written once. *)
Lemma retention_pruning_sample :
  let old_event := {| Client.eventType := Client.graph_opened;
                      Client.timestamp := "2025-09-20T10:00:00.000Z";
                      Client.anonymousId := Client.anonymousId Samples.sample_event;
                      Client.metadata := None |} in
  let m := Samples.sample_manager
             (Some (Samples.sample_batch [old_event; Samples.sample_event])) in
  let m' := Client.cleanOldData IsoDate.getTime 1759363200000 m in
  IsoDate.getTime "2025-10-02T00:00:00.000Z" = Some 1759363200000
  /\ exists d', Client.telemetryFile m' = Some d'
       /\ In Samples.sample_event (Client.events d')
       /\ ~ In old_event (Client.events d')
       /\ Client.fileWrites m' = 1%nat.
Proof.
  intros old_event m m'.
  split; [vm_compute; reflexivity|].
  destruct (retention_pruning IsoDate.getTime 1759363200000 m
              (Samples.sample_batch [old_event; Samples.sample_event]) eq_refl)
    as (d' & Hfile & _ & Hyoung & Hold & _ & Hwrite & _).
  exists d'. split; [exact Hfile|].
  assert (Hgone : ~ In old_event (Client.events d')).
  { apply (Hold old_event 1758362400000); [simpl; auto | vm_compute; reflexivity | ].
    unfold Client.MAX_DATA_AGE. lia. }
  split.
  { apply (Hyoung Samples.sample_event 1759312800123);
      [simpl; auto | vm_compute; reflexivity | unfold Client.MAX_DATA_AGE; lia]. }
  split; [exact Hgone|].
  apply Hwrite. exists old_event. split; [simpl; auto | exact Hgone].
Defined.



(** ** Transport *)
Section Transport.
Import Client.

(** [sendToBackend] returns normally exactly on a 2xx answer whose body
    parses; whatever the answer, the body it posted is logged. *)
Lemma sendToBackend_ok (net : Network) (now : Z) (d : TelemetryData) (m : Manager) :
  snd (sendToBackend net now d m) = Ok tt
  <-> exists status, backend net now (outgoing d) = HttpResponse status true
                     /\ 200 <= status <= 299.
Proof.
  unfold sendToBackend, ok.
  destruct (backend net now (outgoing d)) as [|status jsonBody]; simpl.
  - split; [discriminate | intros (s & Hs & _); discriminate].
  - destruct (Z.leb_spec 200 status), (Z.leb_spec status 299); simpl;
      try (destruct (status =? 429); simpl;
           (split; [discriminate | intros (s & Hs & ?); injection Hs as -> _; lia])).
    destruct jsonBody; simpl.
    + split; [intros _; exists status; split; [reflexivity | lia] | reflexivity].
    + split; [discriminate | intros (s & Hs & _); discriminate].
Qed.

Lemma sendToBackend_effect (net : Network) (now : Z) (d : TelemetryData) (m : Manager) :
  fst (sendToBackend net now d m) = set_posted (posted m ++ [outgoing d]) m.
Proof.
  unfold sendToBackend.
  destruct (backend net now (outgoing d)) as [|status jsonBody]; [reflexivity|].
  destruct (negb (ok status)); [destruct (status =? 429); reflexivity|].
  destruct jsonBody; reflexivity.
Qed.

Lemma scheduleRetry_file (now : Z) (m : Manager) :
  telemetryFile (scheduleRetry now m) = telemetryFile m.
Proof. unfold scheduleRetry. destruct (_ <=? _)%nat; reflexivity. Qed.

Lemma scheduleRetry_activeDays (now : Z) (m : Manager) :
  activeDays (scheduleRetry now m) = activeDays m.
Proof. unfold scheduleRetry. destruct (_ <=? _)%nat; reflexivity. Qed.

(** A failed exchange (any answer that is not a 2xx with a body, 429
    included) takes the catch exit and leaves the batch file in place. *)
Lemma failed_submit_keeps_file (net : Network) (now : Z) (m : Manager) (d : TelemetryData) :
  isEnabled m = true ->
  telemetryFile m = Some d ->
  events d <> [] ->
  (forall status, backend net now (outgoing d) = HttpResponse status true ->
     ~ 200 <= status <= 299) ->
  snd (submit net now m) = Failed
  /\ telemetryFile (submitTelemetryData net now m) = Some d
  /\ activeDays (submitTelemetryData net now m) = activeDays m.
Proof.
  intros Hen Hfile Hev Hbad.
  unfold submitTelemetryData, submit. rewrite Hen, Hfile. simpl.
  destruct (events d) as [|e es] eqn:He; [contradiction|].
  pose proof (sendToBackend_ok net now d m) as Hok.
  pose proof (sendToBackend_effect net now d m) as Heff.
  destruct (sendToBackend net now d m) as [m1 [[]|err]]; simpl in *.
  - destruct (proj1 Hok eq_refl) as (s & Hs & Hrange). exfalso. exact (Hbad s Hs Hrange).
  - subst m1. split; [reflexivity|].
    match goal with |- context [if ?c then _ else _] => destruct c end;
      rewrite ?scheduleRetry_file, ?scheduleRetry_activeDays; simpl; auto.
Qed.

(** A successful exchange takes the last exit: the file is deleted, the
    retry count is 0, and the timer the manager holds in [retryTimer], if
    any, leaves the event loop. *)
Lemma successful_submit (net : Network) (now : Z) (m : Manager) (d : TelemetryData)
    (status : Z) :
  isEnabled m = true ->
  telemetryFile m = Some d ->
  events d <> [] ->
  backend net now (outgoing d) = HttpResponse status true ->
  200 <= status <= 299 ->
  let m' := submitTelemetryData net now m in
  snd (submit net now m) = Submitted
  /\ telemetryFile m' = None
  /\ retryCount m' = 0%nat
  /\ retryTimer m' = None
  /\ posted m' = posted m ++ [outgoing d]
  /\ timers m'
     = match retryTimer m with
       | Some h => List.filter (fun t => negb (Nat.eqb (fst t) h)) (timers m)
       | None => timers m
       end.
Proof.
  intros Hen Hfile Hev Hresp Hrange m'.
  unfold m', submitTelemetryData, submit. rewrite Hen, Hfile. simpl.
  destruct (events d) as [|e es] eqn:He; [contradiction|].
  pose proof (sendToBackend_ok net now d m) as Hok.
  pose proof (sendToBackend_effect net now d m) as Heff.
  destruct (sendToBackend net now d m) as [m1 [[]|err]]; simpl in *.
  - subst m1. simpl. destruct (retryTimer m) eqn:Hrt; simpl; rewrite ?Hrt; repeat split; reflexivity.
  - assert (Hno : @Throw unit err = Ok tt) by (apply Hok; eauto). discriminate.
Qed.

(** When the manager's handle covers every pending retry, a successful
    submission leaves no retry pending. *)
Lemma successful_submit_clears_retries (net : Network) (now : Z) (m : Manager)
    (d : TelemetryData) (status : Z) :
  isEnabled m = true ->
  telemetryFile m = Some d ->
  events d <> [] ->
  backend net now (outgoing d) = HttpResponse status true ->
  200 <= status <= 299 ->
  Forall (fun e => kind (snd e) = RetryTimeout -> retryTimer m = Some (fst e)) (timers m) ->
  Forall (fun e => kind (snd e) <> RetryTimeout) (timers (submitTelemetryData net now m)).
Proof.
  intros Hen Hfile Hev Hresp Hrange Hheld.
  destruct (successful_submit net now m d status Hen Hfile Hev Hresp Hrange)
    as (_ & _ & _ & _ & _ & ->).
  destruct (retryTimer m) as [h|].
  - induction Hheld as [|[h' t] ts Hh _ IH]; simpl; [constructor|].
    destruct (Nat.eqb_spec h' h) as [->|Hne]; simpl; [exact IH|].
    constructor; [|exact IH]. simpl in *. intros Hk. apply Hh in Hk. congruence.
  - eapply Forall_impl; [exact Hheld|]. intros e He Hk. apply He in Hk. discriminate.
Qed.

(** C6 (where the code departs from it).  Two manual submissions fail, ten
    minutes apart, each arming a retry; the second [scheduleRetry] overwrites
    the handle of the first.  A third submission succeeds: the file is
    deleted, the count is 0 and [retryTimer] is null, but the first retry is
    still pending.  It fires at its time, finds no file, and arms a further
    retry. *)
Theorem overwritten_retry_survives_success :
  let minute := 60 * 1000 in
  let net := Samples.recovering (Samples.T0 + 25 * minute) in
  let m0 := Samples.sample_manager (Some (Samples.sample_batch [Samples.sample_event])) in
  let m1 := manualSubmit net (Samples.T0 + 10 * minute) m0 in
  let m2 := manualSubmit net (Samples.T0 + 20 * minute) m1 in
  let m3 := manualSubmit net (Samples.T0 + 30 * minute) m2 in
  let m4 := fire net 0 m3 in
  timers m2 = [(0%nat, {| kind := RetryTimeout; fireAt := Samples.T0 + 40 * minute |});
               (1%nat, {| kind := RetryTimeout; fireAt := Samples.T0 + 50 * minute |})]
  /\ retryTimer m2 = Some 1%nat
  /\ snd (submit net (Samples.T0 + 30 * minute) m2) = Submitted
  /\ telemetryFile m3 = None /\ retryCount m3 = 0%nat /\ retryTimer m3 = None
  /\ timers m3 = [(0%nat, {| kind := RetryTimeout; fireAt := Samples.T0 + 40 * minute |})]
  /\ retryCount m4 = 1%nat
  /\ timers m4 = [(2%nat, {| kind := RetryTimeout;
                             fireAt := Samples.T0 + 40 * minute + 2 * 60 * minute |})].
Proof. vm_compute. repeat split; reflexivity. Qed.

(** *** Payload size *)
Lemma length_append (a b : string) :
  String.length (a +:+ b) = (String.length a + String.length b)%nat.
Proof. induction a as [|c a IH]; simpl; [reflexivity | by rewrite IH]. Qed.

Lemma escape_char_nonempty (c : ascii) : (1 <= String.length (Json.escape_char c))%nat.
Proof.
  unfold Json.escape_char.
  repeat match goal with |- context [if ?b then _ else _] => destruct b end; simpl; lia.
Qed.

Lemma escape_length (s : string) : (String.length s <= String.length (Json.escape s))%nat.
Proof.
  induction s as [|c s IH]; simpl; [lia|].
  rewrite length_append. pose proof (escape_char_nonempty c). lia.
Qed.

Lemma quote_length (s : string) : (String.length s <= String.length (Json.quote s))%nat.
Proof.
  unfold Json.quote. simpl. rewrite length_append. pose proof (escape_length s). lia.
Qed.

Lemma join_length (sep p : string) (parts : list string) :
  In p parts -> (String.length p <= String.length (Json.join sep parts))%nat.
Proof.
  induction parts as [|q parts IH]; [contradiction|].
  intros [->|Hin].
  - destruct parts; simpl; [lia|]. rewrite length_append. lia.
  - destruct parts as [|r parts]; [contradiction|].
    specialize (IH Hin). change (Json.join sep (q :: r :: parts))
      with (q +:+ sep +:+ Json.join sep (r :: parts)).
    rewrite !length_append. lia.
Qed.

(** A serialisation is at least as long as that of any element or property
    value in it. *)
Lemma stringify_element (v : Json.json) (items : list Json.json) :
  In v items ->
  (String.length (Json.stringify v) <= String.length (Json.stringify (Json.JArr items)))%nat.
Proof.
  intros Hin.
  change (Json.stringify (Json.JArr items))
    with ("[" +:+ Json.join "," (map Json.stringify items) +:+ "]").
  rewrite !length_append.
  pose proof (join_length "," (Json.stringify v) (map Json.stringify items)
                (in_map Json.stringify items v Hin)).
  lia.
Qed.

Lemma stringify_property (k : string) (v : Json.json) (fields : list (string * Json.json)) :
  In (k, v) fields ->
  (String.length (Json.stringify v) <= String.length (Json.stringify (Json.JObj fields)))%nat.
Proof.
  intros Hin.
  set (entry := fun kv : string * Json.json =>
                  Json.quote (fst kv) +:+ ":" +:+ Json.stringify (snd kv)).
  change (Json.stringify (Json.JObj fields)) with ("{" +:+ Json.join "," (map entry fields) +:+ "}").
  rewrite !length_append.
  pose proof (join_length "," (entry (k, v)) (map entry fields) (in_map entry fields _ Hin)) as H.
  unfold entry at 1 in H. simpl in H. rewrite !length_append in H. lia.
Qed.

Lemma filler_length (n : nat) : String.length (Samples.filler n) = n.
Proof. induction n as [|n IH]; simpl; [reflexivity | by rewrite IH]. Qed.

Lemma filler_escape (n : nat) : Json.escape (Samples.filler n) = Samples.filler n.
Proof. induction n as [|n IH]; simpl; [reflexivity | by rewrite IH]. Qed.

(** The serialisation of [bulky_batch n] has [n + 447] characters. *)
Lemma bulky_size (n : nat) :
  String.length (Json.stringify (to_json (Samples.bulky_batch n))) = (n + 447)%nat.
Proof.
  unfold to_json, Samples.bulky_batch, Samples.sample_batch, Samples.bulky_event.
  cbn -[Samples.filler Json.escape Json.quote String.length String.append].
  assert (Hq : String.length (Json.quote (Samples.filler n)) = (n + 2)%nat).
  { unfold Json.quote. simpl. rewrite length_append, filler_escape, filler_length.
    simpl. lia. }
  rewrite !length_append, Hq. vm_compute String.length. lia.
Qed.


Lemma last_n_spec {A : Type} (n : nat) (xs : list A) :
  exists older, xs = older ++ last_n n xs
                /\ List.length (last_n n xs) = Nat.min n (List.length xs).
Proof.
  exists (firstn (List.length xs - n) xs). unfold last_n. split.
  - symmetry. apply firstn_skipn.
  - rewrite length_skipn. lia.
Qed.

(** Over the margin, the posted body is the batch with its events cut to
    the newest [KEPT_EVENTS]; every other field, the aggregated counters
    among them, is the batch's.  Within the margin the batch goes as it is. *)
Lemma outgoing_spec (d : TelemetryData) :
  let size := Z.of_nat (String.length (Json.stringify (to_json d))) in
  (PAYLOAD_MARGIN < size ->
     outgoing d = with_events (last_n KEPT_EVENTS (events d)) d
     /\ aggregatedStats (outgoing d) = aggregatedStats d
     /\ exists older, events d = older ++ events (outgoing d)
          /\ List.length (events (outgoing d)) = Nat.min 500 (List.length (events d)))
  /\ (size <= PAYLOAD_MARGIN -> outgoing d = d).
Proof.
  intros size. unfold outgoing. fold size. split.
  - intros Hbig. destruct (Z.ltb_spec PAYLOAD_MARGIN size); [|lia].
    split; [reflexivity|]. split; [reflexivity|].
    exact (last_n_spec KEPT_EVENTS (events d)).
  - intros Hsmall. destruct (Z.ltb_spec PAYLOAD_MARGIN size); [lia | reflexivity].
Qed.

Lemma crowded_size (n : nat) :
  (n <= String.length (Json.stringify (to_json (Samples.crowded_batch n))))%nat.
Proof.
  set (meta := [("thoughtType", Json.JStr (Samples.filler n))]).
  rewrite <- (filler_length n) at 1.
  apply Nat.le_trans with (String.length (Json.stringify (Json.JStr (Samples.filler n))));
    [apply quote_length|].
  apply Nat.le_trans with (String.length (Json.stringify (Json.JObj meta)));
    [apply (stringify_property "thoughtType"); left; reflexivity|].
  apply Nat.le_trans
    with (String.length (Json.stringify (event_to_json (Samples.bulky_event n))));
    [apply (stringify_property "metadata"); do 3 right; left; reflexivity|].
  apply Nat.le_trans
    with (String.length (Json.stringify
            (Json.JArr (map event_to_json (events (Samples.crowded_batch n))))));
    [apply stringify_element, in_map, in_or_app; right; left; reflexivity|].
  apply (stringify_property "events"). do 5 right. left. reflexivity.
Qed.

(** A batch of 501 events over the margin loses its oldest event. *)
Lemma outgoing_crowded_sample :
  let d := Samples.crowded_batch (Z.to_nat 900001) in
  events (outgoing d)
  = repeat Samples.sample_event 499 ++ [Samples.bulky_event (Z.to_nat 900001)]
  /\ aggregatedStats (outgoing d) = Samples.sample_stats.
Proof.
  intros d.
  assert (Hbig : PAYLOAD_MARGIN < Z.of_nat (String.length (Json.stringify (to_json d)))).
  { pose proof (crowded_size (Z.to_nat 900001)) as Hn. fold d in Hn.
    apply Nat2Z.inj_le in Hn. rewrite Z2Nat.id in Hn by lia.
    unfold PAYLOAD_MARGIN. lia. }
  destruct (outgoing_spec d) as [Hcut _]. destruct (Hcut Hbig) as (Hout & Hstats & _).
  split; [|exact Hstats]. rewrite Hout. reflexivity.
Qed.

Lemma validate_too_large (data : Json.json) :
  Server.MAX_PAYLOAD_LENGTH < Z.of_nat (String.length (Json.stringify data)) ->
  Server.validateTelemetryData data = Ok (Server.Invalid Server.PayloadTooLarge, data).
Proof.
  intros Hbig. unfold Server.validateTelemetryData.
  destruct (Z.ltb_spec Server.MAX_PAYLOAD_LENGTH (Z.of_nat (String.length (Json.stringify data))));
    [reflexivity | lia].
Qed.

(** C7 (where the code departs from it).  The client's margin is 900000
    characters, the validator's ceiling 500000 (only the body parser's limit,
    1 MB, lies above the margin).  A batch that serialises to 600447
    characters is within the margin, so it is posted as it is, and the
    server's size rule rejects it: the answer is the generic 400. *)
Theorem margin_exceeds_validator_ceiling :
  let d := Samples.bulky_batch (Z.to_nat 600000) in
  let size := Z.of_nat (String.length (Json.stringify (to_json d))) in
  PAYLOAD_MARGIN = 900000 /\ Server.MAX_PAYLOAD_LENGTH = 500000
  /\ Server.BODY_LIMIT = 1048576
  /\ size = 600447
  /\ outgoing d = d
  /\ Server.validateTelemetryData (to_json d)
     = Ok (Server.Invalid Server.PayloadTooLarge, to_json d)
  /\ (forall env w req files,
        Server.isJson req = true -> Server.body req = to_json d ->
        Server.post_telemetry env w req files
        = (files, Server.respond_error 400 "Invalid data format")).
Proof.
  intros d size.
  assert (Hsize : size = 600447).
  { unfold size, d. rewrite bulky_size, Nat2Z.inj_add, Z2Nat.id by lia. reflexivity. }
  assert (Hreject : Server.validateTelemetryData (to_json d)
                    = Ok (Server.Invalid Server.PayloadTooLarge, to_json d)).
  { apply validate_too_large. fold size. rewrite Hsize. reflexivity. }
  split; [reflexivity|]. split; [reflexivity|]. split; [reflexivity|].
  split; [exact Hsize|]. split.
  { apply (outgoing_spec d). fold size. rewrite Hsize. discriminate. }
  split; [exact Hreject|].
  intros env w req files Hjson Hbody.
  unfold Server.post_telemetry, Server.process. rewrite Hjson, Hbody, Hreject. reflexivity.
Qed.

End Transport.

(** ** The ingestion endpoint *)
Section Ingestion.
Import Json Server.

(** *** Property lists *)
Lemma assoc_set_prop_eq (k : string) (x : json) (fields : list (string * json)) :
  assoc k (set_prop k x fields) = Some x.
Proof.
  induction fields as [|[k' v] fields IH]; simpl.
  - by rewrite String.eqb_refl.
  - destruct (String.eqb_spec k k') as [->|Hne]; simpl.
    + by rewrite String.eqb_refl.
    + destruct (String.eqb_spec k k'); [contradiction | exact IH].
Qed.

Lemma assoc_set_prop_ne (k k' : string) (x : json) (fields : list (string * json)) :
  k <> k' -> assoc k (set_prop k' x fields) = assoc k fields.
Proof.
  intros Hne. induction fields as [|[k'' v] fields IH]; simpl.
  - destruct (String.eqb_spec k k'); [contradiction | reflexivity].
  - destruct (String.eqb_spec k' k'') as [<-|Hne']; simpl.
    + destruct (String.eqb_spec k k'); [contradiction | reflexivity].
    + destruct (String.eqb_spec k k''); [reflexivity | exact IH].
Qed.

Lemma assoc_delete_prop_eq (k : string) (fields : list (string * json)) :
  assoc k (delete_prop k fields) = None.
Proof.
  induction fields as [|[k' v] fields IH]; simpl; [reflexivity|].
  destruct (String.eqb_spec k k') as [->|Hne]; simpl; [exact IH|].
  destruct (String.eqb_spec k k'); [contradiction | exact IH].
Qed.

Lemma assoc_delete_prop_ne (k k' : string) (fields : list (string * json)) :
  k <> k' -> assoc k (delete_prop k' fields) = assoc k fields.
Proof.
  intros Hne. induction fields as [|[k'' v] fields IH]; simpl; [reflexivity|].
  destruct (String.eqb_spec k' k'') as [<-|Hne']; simpl.
  - destruct (String.eqb_spec k k'); [contradiction | exact IH].
  - destruct (String.eqb_spec k k''); [reflexivity | exact IH].
Qed.

(** *** Shape of a stored identifier *)
Lemma hex_digit_is_hex (n : Z) : is_hex_digit (SHA256.hex_digit n) = true.
Proof.
  unfold SHA256.hex_digit.
  assert (Hk : (Z.to_nat (Z.land n 15) < 16)%nat).
  { change 15 with (Z.ones 4). rewrite Z.land_ones by lia.
    pose proof (Z.mod_pos_bound n (2 ^ 4) ltac:(lia)). lia. }
  remember (Z.to_nat (Z.land n 15)) as k eqn:Ek. clear Ek.
  do 16 (destruct k as [|k]; [reflexivity|]). lia.
Qed.

Lemma hashAnonymousId_hex16 (s : string) : is_hex16 (hashAnonymousId s) = true.
Proof.
  unfold hashAnonymousId, SHA256.hexdigest, SHA256.digest_words. cbv zeta.
  generalize (SHA256.absorb
                (List.length (SHA256.words_of_bytes (SHA256.pad (SHA256.utf8 s))))
                SHA256.initial_chain (SHA256.words_of_bytes (SHA256.pad (SHA256.utf8 s)))).
  intros c.
  cbn -[SHA256.hex_digit Z.shiftr Z.mul Z.of_nat is_hex_digit].
  unfold is_hex16.
  cbn -[SHA256.hex_digit Z.shiftr Z.mul Z.of_nat is_hex_digit].
  rewrite !hex_digit_is_hex. reflexivity.
Qed.

Lemma hash_differs (s id : string) : is_hex16 id = false -> hashAnonymousId s <> id.
Proof. intros Hid Heq. rewrite <- Heq, hashAnonymousId_hex16 in Hid. discriminate. Qed.


(** *** The validator *)
Lemma map_outcome_Forall2 {A B : Type} (f : A -> outcome B) (l : list A) (l' : list B) :
  map_outcome f l = Ok l' -> Forall2 (fun a b => f a = Ok b) l l'.
Proof.
  revert l'. induction l as [|a l IH]; simpl; intros l' H.
  - injection H as <-. constructor.
  - destruct (f a) as [b|] eqn:Hb; simpl in H; [|discriminate].
    destruct (map_outcome f l) as [bs|]; simpl in H; [|discriminate].
    injection H as <-. constructor; auto.
Qed.

(** What the two assignments do to the properties of an event. *)
Lemma sanitize_fields_eventType (event : json) :
  prop (sanitize_fields event) "eventType" = option_map sanitizeInput (prop event "eventType").
Proof.
  unfold sanitize_fields. destruct event as [| | | |items|fields]; try reflexivity.
  simpl. destruct (assoc "eventType" fields) as [v|] eqn:Hv; simpl.
  - rewrite assoc_set_prop_ne by discriminate.
    destruct (assoc "anonymousId" fields); simpl.
    + rewrite assoc_set_prop_ne by discriminate. apply assoc_set_prop_eq.
    + apply assoc_set_prop_eq.
  - destruct (assoc "anonymousId" fields); simpl; [|exact Hv].
    rewrite assoc_set_prop_ne by discriminate. exact Hv.
Qed.

Lemma sanitize_fields_anonymousId (event : json) :
  prop (sanitize_fields event) "anonymousId"
  = option_map sanitizeInput (prop event "anonymousId").
Proof.
  unfold sanitize_fields. destruct event as [| | | |items|fields]; try reflexivity.
  simpl. destruct (assoc "eventType" fields) as [v|]; simpl.
  - rewrite assoc_set_prop_ne by discriminate.
    destruct (assoc "anonymousId" fields) eqn:Ha; simpl.
    + apply assoc_set_prop_eq.
    + rewrite assoc_set_prop_ne by discriminate. exact Ha.
  - destruct (assoc "anonymousId" fields) eqn:Ha; simpl; [|exact Ha].
    apply assoc_set_prop_eq.
Qed.



(** One turn of the loop, on an event that is not [null]: it goes on
    exactly when the event has no defect. *)
Lemma validate_events_cons (event : json) (rest : list json) :
  is_null event = false ->
  validate_events (event :: rest)
  = if event_defect event then
      if negb (truthy (prop event "eventType")) || negb (truthy (prop event "timestamp"))
         || negb (truthy (prop event "anonymousId"))
      then Ok (Invalid InvalidEventStructure, event :: rest)
      else shown ← template (prop (sanitize_fields event) "eventType");
           Ok (Invalid (InvalidEventType shown), sanitize_fields event :: rest)
    else r ← validate_events rest; Ok (fst r, sanitize_fields event :: snd r).
Proof.
  intros Hnull. unfold event_defect. rewrite <- sanitize_fields_eventType.
  assert (Hget : get_prop event "eventType" = Ok (prop event "eventType"))
    by (destruct event; [discriminate | reflexivity ..]).
  cbn [validate_events]. rewrite Hget. cbn [mbind outcome_bind].
  destruct (negb (truthy (prop event "eventType")) || negb (truthy (prop event "timestamp"))
            || negb (truthy (prop event "anonymousId"))); simpl; [reflexivity|].
  destruct (includes validEventTypes (prop (sanitize_fields event) "eventType"));
    reflexivity.
Qed.

Lemma validate_events_null (rest : list json) :
  validate_events (JNull :: rest) = Throw "TypeError: Cannot read properties of null".
Proof. reflexivity. Qed.

(** The loop accepts exactly the arrays without [null] and without defect,
    and then leaves every event with its two fields sanitised. *)
Lemma validate_events_valid (events events' : list json) :
  validate_events events = Ok (Valid, events') ->
  events' = map sanitize_fields events
  /\ existsb is_null events = false /\ existsb event_defect events = false.
Proof.
  revert events'. induction events as [|event rest IH]; intros events' H.
  - simpl in H. injection H as <-. auto.
  - destruct (is_null event) eqn:Hnull.
    { destruct event; discriminate. }
    rewrite validate_events_cons in H by done.
    destruct (event_defect event) eqn:Hdef.
    { destruct (_ || _) in H; [discriminate|].
      destruct (template _) in H; discriminate. }
    destruct (validate_events rest) as [[v rest']|] eqn:Hrest; simpl in H; [|discriminate].
    injection H as -> <-. destruct (IH rest' eq_refl) as (-> & Hn & Hd).
    simpl. rewrite Hnull, Hdef, Hn, Hd. auto.
Qed.


Lemma first_missing_container (data : json) (fields : list string) :
  is_container data = true ->
  exists missing, first_missing fields data = Ok missing
    /\ (existsb (fun field => match prop data field with Some _ => false | None => true end)
                fields
        = match missing with Some _ => true | None => false end).
Proof.
  intros Hc. induction fields as [|field fields (missing & IH & Hex)]; simpl.
  - exists None. auto.
  - assert (Hin : has_prop field data
                  = Ok (match prop data field with Some _ => true | None => false end))
      by (destruct data; try discriminate; reflexivity).
    rewrite Hin. simpl. destruct (prop data field); simpl.
    + exists missing. auto.
    + exists (Some field). auto.
Qed.



Lemma validate_valid_inv (data data' : json) :
  validateTelemetryData data = Ok (Valid, data') ->
  exists fields events,
    data = JObj fields
    /\ assoc "events" fields = Some (JArr events)
    /\ data' = JObj (set_prop "events" (JArr (map sanitize_fields events)) fields)
    /\ existsb is_null events = false
    /\ existsb event_defect events = false.
Proof.
  unfold validateTelemetryData.
  destruct (MAX_PAYLOAD_LENGTH <? _); [discriminate|].
  destruct data as [| | | |items|fields]; try discriminate.
  destruct (first_missing_container (JObj fields) requiredFields eq_refl) as (missing & -> & _).
  simpl. destruct missing; [discriminate|].
  destruct (assoc "events" fields) as [[| | | |events|]|] eqn:Hev; try discriminate.
  destruct (MAX_EVENTS <? Z.of_nat (List.length events)); [discriminate|].
  destruct (validate_events events) as [[v events']|] eqn:Hloop; simpl; [|discriminate].
  intros H. injection H as -> <-.
  destruct (validate_events_valid events events' Hloop) as (-> & Hn & Hd).
  exists fields, events. auto.
Qed.


Lemma accepted_inv (env : Env) (w : World) (req : Request) (files : gmap string json) :
  status (snd (post_telemetry env w req files)) = 200 ->
  exists data' sanitized,
    validateTelemetryData (body req) = Ok (Valid, data')
    /\ sanitizeTelemetryData data' = Ok sanitized
    /\ fst (post_telemetry env w req files)
       = <[generateFilename w := server_metadata env w req sanitized]> files.
Proof.
  unfold post_telemetry, process.
  destruct (isJson req); simpl; [|discriminate].
  destruct (validateTelemetryData (body req)) as [[[|error] data']|]; simpl;
    [|discriminate|discriminate].
  destruct (sanitizeTelemetryData data') as [sanitized|] eqn:Hs; simpl; [|discriminate].
  intros _. eauto.
Qed.

Lemma sanitize_event_id (event stored : json) :
  sanitize_event event = Ok stored ->
  exists id, prop event "anonymousId" = Some (JStr id)
             /\ prop stored "anonymousId" = Some (JStr (hashAnonymousId id)).
Proof.
  unfold sanitize_event.
  destruct (get_prop event "eventType") as [eventType|]; simpl; [|discriminate].
  destruct (prop event "anonymousId") as [[| | |id| |]|]; simpl; try discriminate.
  destruct (truthy (prop event "metadata")); simpl.
  - destruct (prop event "metadata") as [m|]; simpl.
    + destruct (sanitizeMetadata m); simpl; [|discriminate].
      intros H. injection H as <-. exists id. split; [reflexivity|].
      destruct eventType, (prop event "timestamp"); reflexivity.
    + intros H. injection H as <-. exists id. split; [reflexivity|].
      destruct eventType, (prop event "timestamp"); reflexivity.
  - intros H. injection H as <-. exists id. split; [reflexivity|].
    destruct eventType, (prop event "timestamp"); reflexivity.
Qed.

Lemma sanitizeInput_string (v : json) (s : string) :
  sanitizeInput v = JStr s -> exists s0, v = JStr s0 /\ s = substring 0 1000 (strip s0).
Proof. destruct v; simpl; try discriminate. intros H. injection H as <-. eauto. Qed.

(** The stored counterpart of a submitted event that passed validation. *)
Lemma stored_event_id (event stored : json) :
  sanitize_event (sanitize_fields event) = Ok stored ->
  exists id, prop event "anonymousId" = Some (JStr id)
             /\ prop stored "anonymousId" = Some (JStr (stored_id id)).
Proof.
  intros H. destruct (sanitize_event_id _ _ H) as (id' & Hid' & Hstored).
  rewrite sanitize_fields_anonymousId in Hid'.
  destruct (prop event "anonymousId") as [v|]; simpl in Hid'; [|discriminate].
  injection Hid' as Hv. destruct (sanitizeInput_string v id' Hv) as (id & -> & ->).
  exists id. split; [reflexivity | exact Hstored].
Qed.

Lemma server_metadata_prop (env : Env) (w : World) (req : Request)
    (fields : list (string * json)) (k : string) :
  k <> "receivedAt"%string -> k <> "serverVersion"%string -> k <> "ipHash"%string ->
  prop (server_metadata env w req (JObj fields)) k = assoc k fields.
Proof.
  intros H1 H2 H3. unfold server_metadata. simpl.
  by rewrite !assoc_set_prop_ne.
Qed.

Lemma server_metadata_ipHash (env : Env) (w : World) (req : Request)
    (fields : list (string * json)) :
  prop (server_metadata env w req (JObj fields)) "ipHash"
  = Some (JStr (hashAnonymousId (ip_hash_input env (clientIP req)))).
Proof. unfold server_metadata. simpl. apply assoc_set_prop_eq. Qed.

(** An accepted submission, taken apart: the submitted events, the stored
    ones, and the record written. *)
Lemma accepted_record (env : Env) (w : World) (req : Request) (files : gmap string json) :
  status (snd (post_telemetry env w req files)) = 200 ->
  exists fields submitted stored,
    body req = JObj fields
    /\ assoc "events" fields = Some (JArr submitted)
    /\ Forall2 (fun e s => sanitize_event (sanitize_fields e) = Ok s) submitted stored
    /\ existsb event_defect submitted = false
    /\ fst (post_telemetry env w req files)
       = <[generateFilename w :=
             server_metadata env w req
               (JObj (delete_prop "sessionId"
                        (set_prop "events" (JArr stored)
                           (set_prop "events" (JArr (map sanitize_fields submitted)) fields))))]>
           files.
Proof.
  intros Hok. destruct (accepted_inv env w req files Hok) as (data' & sanitized & Hv & Hs & Hfiles).
  destruct (validate_valid_inv _ _ Hv) as (fields & submitted & Hbody & Hev & -> & _ & Hdef).
  unfold sanitizeTelemetryData in Hs. rewrite assoc_set_prop_eq in Hs.
  destruct (map_outcome sanitize_event (map sanitize_fields submitted)) as [stored|] eqn:Hmap;
    simpl in Hs; [|discriminate].
  injection Hs as <-.
  exists fields, submitted, stored. repeat split; try assumption.
  apply map_outcome_Forall2 in Hmap. by apply Forall2_fmap_l in Hmap.
Qed.


(** X27. For every accepted submission the record written has no
    [sessionId]; its events are those submitted, in order, and the
    [anonymousId] of each is [stored_id] of the submitted one: the hash
    (sixteen hexadecimal digits of SHA-256) of the value with the characters
    less-than, greater-than, ampersand and the two quotes removed and cut to
    1000 characters.  It differs from every original that is not itself
    sixteen lower-case hexadecimal digits, and events with the same original
    identifier get the same stored identifier.  (Whether an original of
    sixteen hexadecimal digits can be its own hash is left open: it is a
    question about SHA-256.) *)
Theorem accepted_batch_is_anonymised (env : Env) (w : World) (req : Request)
    (files : gmap string json) :
  status (snd (post_telemetry env w req files)) = 200 ->
  exists submitted record stored,
    prop (body req) "events" = Some (JArr submitted)
    /\ fst (post_telemetry env w req files) = <[generateFilename w := record]> files
    /\ prop record "sessionId" = None
    /\ prop record "events" = Some (JArr stored)
    /\ Forall2 (fun e s =>
                  exists id, prop e "anonymousId" = Some (JStr id)
                             /\ prop s "anonymousId" = Some (JStr (stored_id id))
                             /\ is_hex16 (stored_id id) = true
                             /\ (is_hex16 id = false -> stored_id id <> id))
               submitted stored
    /\ (forall (i j : nat) e1 e2 s1 s2,
          submitted !! i = Some e1 -> submitted !! j = Some e2 ->
          stored !! i = Some s1 -> stored !! j = Some s2 ->
          prop e1 "anonymousId" = prop e2 "anonymousId" ->
          prop s1 "anonymousId" = prop s2 "anonymousId").
Proof.
  intros Hok.
  destruct (accepted_record env w req files Hok)
    as (fields & submitted & stored & Hbody & Hev & Hall & _ & Hfiles).
  assert (Hids : Forall2 (fun e s =>
                   exists id, prop e "anonymousId" = Some (JStr id)
                              /\ prop s "anonymousId" = Some (JStr (stored_id id)))
                 submitted stored).
  { eapply Forall2_impl; [exact Hall|]. intros e s0 H. by apply stored_event_id. }
  eexists submitted, _, stored.
  split; [by rewrite Hbody|]. split; [exact Hfiles|].
  split.
  { rewrite server_metadata_prop by discriminate. apply assoc_delete_prop_eq. }
  split.
  { rewrite server_metadata_prop, assoc_delete_prop_ne by discriminate.
    apply assoc_set_prop_eq. }
  split.
  { eapply Forall2_impl; [exact Hids|]. intros e s0 (id & He & Hs0).
    exists id. repeat split; try assumption.
    - apply hashAnonymousId_hex16.
    - apply hash_differs. }
  intros i j e1 e2 s1 s2 Hi Hj Hsi Hsj Heq.
  destruct (Forall2_lookup_lr _ _ _ _ _ _ Hids Hi Hsi) as (id1 & He1 & ->).
  destruct (Forall2_lookup_lr _ _ _ _ _ _ Hids Hj Hsj) as (id2 & He2 & ->).
  congruence.
Qed.

(** Two events of one installation, submitted and accepted. *)
Lemma accepted_batch_is_anonymised_sample :
  let id := Client.anonymousId Samples.sample_event in
  let req := Samples.request_with
               (Samples.posted_body [Samples.posted_event "thought_created" id;
                                     Samples.posted_event "graph_opened" id]) in
  exists record,
    fst (post_telemetry Samples.bare_env Samples.sample_world req ∅)
    = <[generateFilename Samples.sample_world := record]> ∅
    /\ prop record "sessionId" = None
    /\ anonymous_ids record = [Some (JStr (stored_id id)); Some (JStr (stored_id id))]
    /\ stored_id id <> id.
Proof.
  intros id req.
  destruct (accepted_batch_is_anonymised Samples.bare_env Samples.sample_world req ∅)
    as (submitted & record & stored & Hsub & Hfiles & Hsession & Hevents & Hall & _);
    [vm_compute; reflexivity|].
  exists record. split; [exact Hfiles|]. split; [exact Hsession|].
  injection Hsub as <-.
  apply Forall2_cons_inv_l in Hall as (s1 & stored1 & (id1 & Hid1 & Hs1 & _ & Hne) & Hall & ->).
  apply Forall2_cons_inv_l in Hall as (s2 & stored2 & (id2 & Hid2 & Hs2 & _) & Hall & ->).
  apply Forall2_nil_inv_l in Hall as ->.
  injection Hid1 as <-. injection Hid2 as <-.
  split.
  - unfold anonymous_ids. rewrite Hevents. simpl. by rewrite Hs1, Hs2.
  - apply Hne. vm_compute. reflexivity.
Defined.

(** The identifier is sanitised before it is hashed: an event submitted
    with the identifier [<id>] is stored with the hash of [id], which is not
    the hash of what was submitted. *)
Lemma submitted_id_is_sanitised_before_hashing :
  let req := Samples.request_with
               (Samples.posted_body [Samples.posted_event "thought_created" "<id>"]) in
  let result := post_telemetry Samples.bare_env Samples.sample_world req ∅ in
  status (snd result) = 200
  /\ anonymous_ids (body req) = [Some (JStr "<id>")]
  /\ (anonymous_ids <$> fst result !! generateFilename Samples.sample_world)
     = Some [Some (JStr (hashAnonymousId "id"))]
  /\ hashAnonymousId "id" <> hashAnonymousId "<id>".
Proof.
  vm_compute. repeat split; try reflexivity. discriminate.
Qed.





(** An event that is [null] is not answered 400: reading its [eventType]
    throws, and the endpoint answers 500.  Nothing is written. *)
Lemma null_event_is_a_server_error :
  let req := Samples.request_with (Samples.posted_body [JNull]) in
  post_telemetry Samples.bare_env Samples.sample_world req ∅
  = (∅, respond_error 500 "Internal server error").
Proof. reflexivity. Qed.

(** Nor is an event whose [eventType] is an object with a property named
    [toString]: the type is not on the whitelist, and building the error
    message throws.  The endpoint answers 500, and nothing is written. *)
Lemma unprintable_type_is_a_server_error :
  let id := Client.anonymousId Samples.sample_event in
  let event := JObj [("eventType", JObj [("toString", JNum 1)]);
                     ("timestamp", JStr "2025-10-01T10:00:00.123Z");
                     ("anonymousId", JStr id)] in
  let req := Samples.request_with (Samples.posted_body [event]) in
  malformed (body req) = true
  /\ post_telemetry Samples.bare_env Samples.sample_world req ∅
     = (∅, respond_error 500 "Internal server error").
Proof. split; reflexivity. Qed.

(** *** The address hash *)
Lemma append_cancel (a b c : string) : a +:+ b = a +:+ c -> b = c.
Proof. induction a as [|x a IH]; simpl; intros H; [exact H|]. injection H as H. auto. Qed.

Lemma or_else_nonempty (a : option string) (b : string) : b <> ""%string -> or_else a b <> ""%string.
Proof.
  intros Hb. unfold or_else. destruct a as [x|]; [|exact Hb].
  destruct (String.eqb_spec x ""); assumption.
Qed.

Lemma clientIP_nonempty (req : Request) : clientIP req <> ""%string.
Proof. unfold clientIP. apply or_else_nonempty, or_else_nonempty. discriminate. Qed.

(** The hashed string is the address followed by the salt, or by the word
    "undefined" when the variable is not set; the default is never used. *)
Lemma ip_hash_input_spec (env : Env) (req : Request) :
  ip_hash_input env (clientIP req)
  = clientIP req +:+ match IP_SALT env with Some salt => salt | None => "undefined" end.
Proof.
  unfold ip_hash_input. pose proof (clientIP_nonempty req) as Hne.
  destruct (clientIP req) as [|c rest]; [contradiction | reflexivity].
Qed.

(** C8 (where the code departs from it).  For an accepted submission under
    an environment without [IP_SALT], the stored [ipHash] is the hash of the
    address followed by the word "undefined"; the hashed string is not the
    address followed by the default salt. *)
Theorem address_hash_without_salt (env : Env) (w : World) (req : Request)
    (files : gmap string json) :
  status (snd (post_telemetry env w req files)) = 200 ->
  IP_SALT env = None ->
  exists record,
    fst (post_telemetry env w req files) = <[generateFilename w := record]> files
    /\ prop record "ipHash" = Some (JStr (hashAnonymousId (clientIP req +:+ "undefined")))
    /\ ip_hash_input env (clientIP req) <> clientIP req +:+ "default-salt".
Proof.
  intros Hok Hsalt.
  destruct (accepted_record env w req files Hok)
    as (fields & submitted & stored & _ & _ & _ & _ & Hfiles).
  pose proof (ip_hash_input_spec env req) as Hin. rewrite Hsalt in Hin.
  eexists. split; [exact Hfiles|]. split.
  - rewrite server_metadata_ipHash. by rewrite Hin.
  - rewrite Hin. intros H. apply append_cancel in H. discriminate.
Qed.

(** With no variable set, the address 203.0.113.7 is stored as the hash of
    "203.0.113.7undefined", which is not the hash under the default salt. *)
Lemma address_hash_without_salt_sample :
  let id := Client.anonymousId Samples.sample_event in
  let req := Samples.request_with
               (Samples.posted_body [Samples.posted_event "thought_created" id]) in
  exists record,
    fst (post_telemetry Samples.bare_env Samples.sample_world req ∅)
    = <[generateFilename Samples.sample_world := record]> ∅
    /\ prop record "ipHash" = Some (JStr (hashAnonymousId "203.0.113.7undefined"))
    /\ hashAnonymousId "203.0.113.7undefined" <> hashAnonymousId "203.0.113.7default-salt".
Proof.
  intros id req.
  destruct (address_hash_without_salt Samples.bare_env Samples.sample_world req ∅)
    as (record & Hfiles & Hhash & _); [vm_compute; reflexivity | reflexivity |].
  exists record. split; [exact Hfiles|]. split; [exact Hhash|].
  vm_compute. discriminate.
Defined.

(** With the variable set, the salt is used: the address is hashed with it. *)
Lemma address_hash_with_salt (env : Env) (w : World) (req : Request)
    (files : gmap string json) (salt : string) :
  status (snd (post_telemetry env w req files)) = 200 ->
  IP_SALT env = Some salt ->
  exists record,
    fst (post_telemetry env w req files) = <[generateFilename w := record]> files
    /\ prop record "ipHash" = Some (JStr (hashAnonymousId (clientIP req +:+ salt))).
Proof.
  intros Hok Hsalt.
  destruct (accepted_record env w req files Hok)
    as (fields & submitted & stored & _ & _ & _ & _ & Hfiles).
  pose proof (ip_hash_input_spec env req) as Hin. rewrite Hsalt in Hin.
  eexists. split; [exact Hfiles|].
  rewrite server_metadata_ipHash. by rewrite Hin.
Qed.

End Ingestion.

(** ** The handle invariant

    [handles_fresh] holds of a manager that has armed nothing, and every
    operation of the manager keeps it. *)
Section Handles.
Import Client.

Lemma handles_fresh_setTimeout (k : TimerKind) (delay now : Z) (m : Manager) :
  handles_fresh m -> handles_fresh (snd (setTimeout k delay now m)).
Proof.
  unfold handles_fresh, setTimeout. simpl. intros H.
  apply Forall_app. split.
  - eapply Forall_impl; [exact H|]. intros e He. simpl in *. lia.
  - repeat constructor.
Qed.

Lemma handles_fresh_clearTimeout (h : nat) (m : Manager) :
  handles_fresh m -> handles_fresh (clearTimeout h m).
Proof.
  unfold handles_fresh, clearTimeout. simpl. intros H.
  induction H as [|e ts He _ IH]; simpl; [constructor|].
  destruct (negb (fst e =? h)%nat); [constructor|]; assumption.
Qed.

Lemma handles_fresh_clearTimers (m : Manager) : handles_fresh m -> handles_fresh (clearTimers m).
Proof.
  intros H. unfold clearTimers.
  destruct (submissionTimer m) as [h|]; simpl.
  - destruct (retryTimer m) as [h'|]; simpl;
      repeat apply handles_fresh_clearTimeout; exact H.
  - destruct (retryTimer m) as [h'|]; [apply handles_fresh_clearTimeout|]; exact H.
Qed.

Lemma handles_fresh_scheduleRetry (now : Z) (m : Manager) :
  handles_fresh m -> handles_fresh (scheduleRetry now m).
Proof.
  intros H. unfold scheduleRetry.
  destruct (_ <=? _)%nat; [exact H|].
  exact (handles_fresh_setTimeout RetryTimeout _ now m H).
Qed.

Lemma handles_fresh_submit (net : Network) (now : Z) (m : Manager) :
  handles_fresh m -> handles_fresh (submitTelemetryData net now m).
Proof.
  intros H. unfold submitTelemetryData, submit.
  destruct (isEnabled m); simpl; [|exact H].
  destruct (telemetryFile m) as [d|]; simpl.
  - destruct (events d) as [|e es]; simpl; [exact H|].
    pose proof (sendToBackend_effect net now d m) as Heff.
    destruct (sendToBackend net now d m) as [m1 [[]|err]]; simpl in *; subst m1.
    + destruct (retryTimer m) as [h|] eqn:Hrt; simpl; rewrite ?Hrt;
        [apply (handles_fresh_clearTimeout h) |]; exact H.
    + destruct (_ <? _)%nat; [apply handles_fresh_scheduleRetry|]; exact H.
  - destruct (_ <? _)%nat; [apply handles_fresh_scheduleRetry|]; exact H.
Qed.

Lemma handles_fresh_attemptSubmission (net : Network) (now : Z) (m : Manager) :
  handles_fresh m -> handles_fresh (attemptSubmission net now m).
Proof.
  intros H. unfold attemptSubmission.
  destruct (negb (reachable net now));
    [apply handles_fresh_scheduleRetry | apply handles_fresh_submit]; exact H.
Qed.

Lemma handles_fresh_retry_callback (net : Network) (now : Z) (m : Manager) :
  handles_fresh m -> handles_fresh (retry_callback net now m).
Proof.
  intros H. unfold retry_callback.
  destruct (negb (reachable net now));
    [apply handles_fresh_scheduleRetry | apply handles_fresh_submit]; exact H.
Qed.

Lemma handles_fresh_setup (now : Z) (m : Manager) :
  handles_fresh m -> handles_fresh (setupSubmissionSchedule now m).
Proof.
  intros H. unfold setupSubmissionSchedule.
  apply (handles_fresh_setTimeout SubmissionTimeout).
  apply handles_fresh_clearTimers.
  destruct (firstActivation m) as [f|]; [destruct (f =? 0)|]; exact H.
Qed.

Lemma find_timer_In (h : nat) (t : Timer) (ts : list (nat * Timer)) :
  find_timer h ts = Some t -> In (h, t) ts.
Proof.
  induction ts as [|[h' t'] ts IH]; simpl; [discriminate|].
  destruct (Nat.eqb_spec h' h) as [->|_]; [intros [= ->]; auto | auto].
Qed.

Lemma handles_fresh_fire (net : Network) (h : nat) (m : Manager) :
  handles_fresh m -> handles_fresh (fire net h m).
Proof.
  intros H. unfold fire.
  destruct (find_timer h (timers m)) as [t|] eqn:Hfind; [|exact H].
  destruct (kind t).
  - apply (handles_fresh_setTimeout SubmissionInterval).
    apply handles_fresh_attemptSubmission, handles_fresh_clearTimeout, H.
  - apply handles_fresh_attemptSubmission.
    unfold handles_fresh, rearm in *. simpl.
    apply Forall_forall. intros e He.
    apply list_elem_of_In, in_map_iff in He as (e0 & <- & He0).
    destruct (Nat.eqb_spec (fst e0) h) as [Heq|_]; simpl.
    + apply find_timer_In in Hfind.
      apply (proj1 (Forall_forall _ _) H (h, t)). by apply list_elem_of_In.
    + apply (proj1 (Forall_forall _ _) H e0). by apply list_elem_of_In.
  - apply handles_fresh_retry_callback, handles_fresh_clearTimeout, H.
Qed.

End Handles.

(* ===================================================================== *)
(** * Part III. Further properties of the code                            *)
(* ===================================================================== *)

(** ** Input sanitisation *)
Section Sanitisation.
Import Json Server.

Lemma strip_length (s : string) : (String.length (strip s) <= String.length s)%nat.
Proof.
  induction s as [|c s IH]; simpl; [lia|]. destruct (is_stripped c); simpl; lia.
Qed.

Lemma strip_fixed_cons (c : ascii) (s : string) :
  strip (String c s) = String c s -> is_stripped c = false /\ strip s = s.
Proof.
  simpl. destruct (is_stripped c) eqn:Hc.
  - intros H. pose proof (strip_length s) as Hle. rewrite H in Hle. simpl in Hle. lia.
  - intros H. injection H as H. auto.
Qed.

Lemma strip_idempotent (s : string) : strip (strip s) = strip s.
Proof.
  induction s as [|c s IH]; simpl; [reflexivity|].
  destruct (is_stripped c) eqn:Hc; [exact IH|]. simpl. by rewrite Hc, IH.
Qed.

Lemma take_length (n : nat) (s : string) : (String.length (substring 0 n s) <= n)%nat.
Proof.
  revert n. induction s as [|c s IH]; intros [|n]; simpl; try lia.
  specialize (IH n). lia.
Qed.

Lemma take_all (n : nat) (s : string) : (String.length s <= n)%nat -> substring 0 n s = s.
Proof.
  revert n. induction s as [|c s IH]; intros [|n]; simpl; intros H; try reflexivity; try lia.
  f_equal. apply IH. lia.
Qed.

Lemma take_fixed (n : nat) (s : string) : strip s = s -> strip (substring 0 n s) = substring 0 n s.
Proof.
  revert n. induction s as [|c s IH]; intros [|n] H; try reflexivity.
  apply strip_fixed_cons in H as [Hc Hs].
  change (substring 0 (S n) (String c s)) with (String c (substring 0 n s)).
  simpl. rewrite Hc. f_equal. by apply IH.
Qed.

(** X1. [sanitizeInput] turns a string into one of at most 1000 characters
    in which none of the five characters occurs (stripping it again changes
    nothing); any other value comes back as it is. *)
Theorem sanitizeInput_output :
  (forall s, exists s', sanitizeInput (JStr s) = JStr s'
                        /\ (String.length s' <= 1000)%nat
                        /\ strip s' = s')
  /\ (forall v, (forall s, v <> JStr s) -> sanitizeInput v = v).
Proof.
  split.
  - intros s. exists (substring 0 1000 (strip s)). split; [reflexivity|].
    split; [apply take_length | apply take_fixed, strip_idempotent].
  - intros v Hv. destruct v; try reflexivity. by destruct (Hv s).
Qed.

(** X2. [sanitizeInput] is idempotent, and it leaves alone every string of
    at most 1000 characters that holds none of the five characters. *)
Theorem sanitizeInput_idempotent :
  (forall v, sanitizeInput (sanitizeInput v) = sanitizeInput v)
  /\ (forall s, strip s = s -> (String.length s <= 1000)%nat ->
        sanitizeInput (JStr s) = JStr s).
Proof.
  assert (Hclean : forall s, strip s = s -> (String.length s <= 1000)%nat ->
                     sanitizeInput (JStr s) = JStr s).
  { intros s Hs Hlen. simpl. rewrite Hs. f_equal. by apply take_all. }
  split; [|exact Hclean].
  intros v. destruct v; try reflexivity.
  change (sanitizeInput (JStr s)) with (JStr (substring 0 1000 (strip s))).
  apply Hclean; [apply take_fixed, strip_idempotent | apply take_length].
Qed.

(** *** Metadata *)
Lemma assoc_opt_fields (fields : list (string * json)) (names : list string) (k : string) :
  assoc k (flat_map (fun field => opt_field field (assoc field fields)) names)
  = if existsb (String.eqb k) names then assoc k fields else None.
Proof.
  induction names as [|name names IH]; simpl; [reflexivity|].
  destruct (assoc name fields) as [v|] eqn:Hv; simpl.
  - destruct (String.eqb_spec k name) as [->|Hne]; simpl; [by rewrite Hv | exact IH].
  - destruct (String.eqb_spec k name) as [->|Hne]; simpl; [|exact IH].
    rewrite IH, Hv. by destruct (existsb _ _).
Qed.

Lemma keys_opt_fields (fields : list (string * json)) (names : list string) (k : string) :
  In k (map fst (flat_map (fun field => opt_field field (assoc field fields)) names)) ->
  In k names.
Proof.
  induction names as [|name names IH]; simpl; [auto|].
  destruct (assoc name fields); simpl; intuition.
Qed.

(** X3. On an object, [sanitizeMetadata] returns an object that has exactly
    the properties of [safeFields] the input has, with the input's values,
    and nothing else; sanitising the result again gives it back.  An array
    gives the empty object. *)
Theorem sanitizeMetadata_whitelist (fields : list (string * json)) :
  exists kept,
    sanitizeMetadata (JObj fields) = Ok (JObj kept)
    /\ (forall k, In k (map fst kept) -> In k safeFields)
    /\ (forall k, In k safeFields -> assoc k kept = assoc k fields)
    /\ (forall k v, assoc k kept = Some v -> assoc k fields = Some v)
    /\ sanitizeMetadata (JObj kept) = Ok (JObj kept)
    /\ (forall items, sanitizeMetadata (JArr items) = Ok (JObj [])).
Proof.
  set (kept := flat_map (fun field => opt_field field (assoc field fields)) safeFields).
  assert (Hkept : forall k, assoc k kept
                    = if existsb (String.eqb k) safeFields then assoc k fields else None)
    by (intros k; apply assoc_opt_fields).
  exists kept. split; [reflexivity|].
  split; [intros k; apply keys_opt_fields|].
  split.
  { intros k Hk. rewrite Hkept.
    destruct (existsb (String.eqb k) safeFields) eqn:Hex; [reflexivity|].
    assert (existsb (String.eqb k) safeFields = true); [|congruence].
    apply existsb_exists. exists k. split; [exact Hk | apply String.eqb_refl]. }
  split.
  { intros k v. rewrite Hkept. destruct (existsb _ _); [auto | discriminate]. }
  split; [|reflexivity].
  simpl. do 2 f_equal. unfold kept. simpl. rewrite !app_nil_r.
  destruct (assoc "thoughtType" fields), (assoc "hasCodeSnippet" fields),
    (assoc "searchTermLength" fields), (assoc "resultCount" fields); reflexivity.
Qed.

End Sanitisation.

(** ** More on the ingestion endpoint *)
Section Endpoint.
Import Json Server.

Lemma sanitize_fields_other (event : json) (k : string) :
  k <> "eventType"%string -> k <> "anonymousId"%string ->
  prop (sanitize_fields event) k = prop event k.
Proof.
  intros H1 H2. unfold sanitize_fields.
  destruct event as [| | | |items|fields]; try reflexivity.
  simpl. destruct (assoc "eventType" fields) as [v|]; simpl.
  - rewrite assoc_set_prop_ne by discriminate.
    destruct (assoc "anonymousId" fields); simpl; by rewrite ?assoc_set_prop_ne.
  - destruct (assoc "anonymousId" fields); simpl; by rewrite ?assoc_set_prop_ne.
Qed.

Lemma sanitizeMetadata_keys (m m' : json) :
  sanitizeMetadata m = Ok m' ->
  exists kept, m' = JObj kept /\ forall k, In k (map fst kept) -> In k safeFields.
Proof.
  destruct m as [| | | |items|fields]; unfold sanitizeMetadata; try discriminate;
    intros H; injection H as <-.
  - exists []. split; [reflexivity | contradiction].
  - eexists. split; [reflexivity|]. intros k. exact (keys_opt_fields fields safeFields k).
Qed.

(** What [sanitize_event] builds, property by property. *)
Lemma sanitize_event_shape (event stored : json) :
  sanitize_event event = Ok stored ->
  exists id md,
    prop event "anonymousId" = Some (JStr id)
    /\ stored = JObj (opt_field "eventType" (prop event "eventType")
                      ++ opt_field "timestamp" (prop event "timestamp")
                      ++ [("anonymousId", JStr (hashAnonymousId id))] ++ md)
    /\ (md = [] \/ exists kept, md = [("metadata", JObj kept)]
                               /\ forall k, In k (map fst kept) -> In k safeFields).
Proof.
  unfold sanitize_event.
  destruct event as [| | | |items|fields]; try discriminate; simpl;
    try (intros H; discriminate).
  destruct (assoc "anonymousId" fields) as [[| | |id| |]|]; simpl; try discriminate.
  destruct (truthy (assoc "metadata" fields)); simpl.
  - destruct (assoc "metadata" fields) as [m|]; simpl.
    + destruct (sanitizeMetadata m) as [m'|] eqn:Hm; simpl; [|discriminate].
      destruct (sanitizeMetadata_keys m m' Hm) as (kept & -> & Hkeys).
      intros H. injection H as <-. exists id, [("metadata", JObj kept)].
      split; [reflexivity|]. split; [reflexivity|]. right. eauto.
    + intros H. injection H as <-. exists id, []. auto.
  - intros H. injection H as <-. exists id, []. auto.
Qed.

Lemma no_defect_fields (event : json) :
  event_defect event = false ->
  exists et ts, prop event "eventType" = Some et /\ prop event "timestamp" = Some ts
                /\ includes validEventTypes (Some (sanitizeInput et)) = true.
Proof.
  unfold event_defect. intros H.
  apply orb_false_iff in H as [H Hinc]. apply orb_false_iff in H as [H _].
  apply orb_false_iff in H as [Het Hts].
  destruct (prop event "eventType") as [et|]; [|discriminate].
  destruct (prop event "timestamp") as [ts|]; [|discriminate].
  exists et, ts. repeat split. simpl in Hinc. by apply negb_false_iff in Hinc.
Qed.

Lemma Forall2_with_left {A B : Type} (P : A -> B -> Prop) (q : A -> bool)
    (l : list A) (k : list B) :
  Forall2 P l k -> existsb q l = false -> Forall2 (fun a b => P a b /\ q a = false) l k.
Proof.
  induction 1 as [|a b l k Hab _ IH]; simpl; intros Hq; [constructor|].
  apply orb_false_iff in Hq as [Ha Hl]. constructor; auto.
Qed.

(** X4. In the record of an accepted submission every event is an object
    with [eventType], [timestamp], [anonymousId] and at most [metadata], in
    this order: the type is the sanitised submitted type and is on the
    whitelist, the timestamp is the submitted value untouched, the
    identifier is the stored hash, and the metadata, when there, is an
    object with properties of [safeFields] only. *)
Theorem stored_event_shape (env : Env) (w : World) (req : Request)
    (files : gmap string json) :
  status (snd (post_telemetry env w req files)) = 200 ->
  exists submitted record stored,
    prop (body req) "events" = Some (JArr submitted)
    /\ fst (post_telemetry env w req files) = <[generateFilename w := record]> files
    /\ prop record "events" = Some (JArr stored)
    /\ Forall2 (fun e s =>
         exists et ts id md,
           prop e "eventType" = Some et /\ prop e "timestamp" = Some ts
           /\ prop e "anonymousId" = Some (JStr id)
           /\ includes validEventTypes (Some (sanitizeInput et)) = true
           /\ s = JObj ([("eventType", sanitizeInput et); ("timestamp", ts);
                         ("anonymousId", JStr (stored_id id))] ++ md)
           /\ (md = [] \/ exists kept, md = [("metadata", JObj kept)]
                                       /\ forall k, In k (map fst kept) -> In k safeFields))
         submitted stored.
Proof.
  intros Hok.
  destruct (accepted_record env w req files Hok)
    as (fields & submitted & stored & Hbody & Hev & Hall & Hdef & Hfiles).
  eexists submitted, _, stored.
  split; [by rewrite Hbody|]. split; [exact Hfiles|]. split.
  { rewrite server_metadata_prop, assoc_delete_prop_ne by discriminate.
    apply assoc_set_prop_eq. }
  eapply Forall2_impl; [exact (Forall2_with_left _ _ _ _ Hall Hdef)|].
  intros e s [Hs He]. simpl in Hs, He.
  destruct (no_defect_fields e He) as (et & ts & Het & Hts & Hinc).
  destruct (sanitize_event_shape _ _ Hs) as (id' & md & Hid' & -> & Hmd).
  rewrite sanitize_fields_anonymousId in Hid'.
  destruct (prop e "anonymousId") as [v|] eqn:Hv; simpl in Hid'; [|discriminate].
  injection Hid' as Hid'. destruct (sanitizeInput_string v id' Hid') as (id & -> & ->).
  exists et, ts, id, md.
  rewrite sanitize_fields_eventType, sanitize_fields_other, Het, Hts by discriminate.
  repeat split; assumption.
Qed.

Lemma stored_event_shape_sample :
  let id := Client.anonymousId Samples.sample_event in
  let req := Samples.request_with
               (Samples.posted_body [Samples.posted_event "thought_created" id]) in
  exists record ts md,
    fst (post_telemetry Samples.bare_env Samples.sample_world req ∅)
    = <[generateFilename Samples.sample_world := record]> ∅
    /\ prop record "events"
       = Some (JArr [JObj ([("eventType", sanitizeInput (JStr "thought_created"));
                            ("timestamp", ts);
                            ("anonymousId", JStr (stored_id id))] ++ md)]).
Proof.
  intros id req.
  destruct (stored_event_shape Samples.bare_env Samples.sample_world req ∅)
    as (submitted & record & stored & Hsub & Hfiles & Hevents & Hall);
    [vm_compute; reflexivity|].
  injection Hsub as <-.
  apply Forall2_cons_inv_l in Hall
    as (s & rest & (et & ts & id' & md & Het & _ & Hid & _ & -> & _) & Hall & ->).
  apply Forall2_nil_inv_l in Hall as ->.
  injection Het as <-. injection Hid as <-.
  exists record, ts, md. split; [exact Hfiles | exact Hevents].
Defined.

(** X5. The record of an accepted submission carries every top-level
    property of the body other than [sessionId] and [events] as submitted,
    unknown ones included, except that [receivedAt], [serverVersion] and
    [ipHash] are the server's own, whatever the body said. *)
Theorem top_level_passthrough (env : Env) (w : World) (req : Request)
    (files : gmap string json) :
  status (snd (post_telemetry env w req files)) = 200 ->
  exists record,
    fst (post_telemetry env w req files) = <[generateFilename w := record]> files
    /\ (forall k, ~ In k ["sessionId"; "events"; "receivedAt"; "serverVersion"; "ipHash"]%string ->
          prop record k = prop (body req) k)
    /\ prop record "receivedAt" = Some (JStr (receivedAtISO w))
    /\ prop record "serverVersion" = Some (JStr (or_else (SERVER_VERSION env) "1.0.0"))
    /\ prop record "ipHash"
       = Some (JStr (hashAnonymousId (ip_hash_input env (clientIP req)))).
Proof.
  intros Hok.
  destruct (accepted_record env w req files Hok)
    as (fields & submitted & stored & Hbody & _ & _ & _ & Hfiles).
  eexists. split; [exact Hfiles|]. split; [|split; [|split]].
  - intros k Hk. simpl in Hk.
    rewrite server_metadata_prop by (intros ->; apply Hk; auto 10).
    rewrite assoc_delete_prop_ne, !assoc_set_prop_ne by (intros ->; apply Hk; auto 10).
    by rewrite Hbody.
  - unfold server_metadata. simpl.
    rewrite !assoc_set_prop_ne by discriminate. apply assoc_set_prop_eq.
  - unfold server_metadata. simpl.
    rewrite assoc_set_prop_ne by discriminate. apply assoc_set_prop_eq.
  - apply server_metadata_ipHash.
Qed.

(** A body with a property of its own and a forged [ipHash]. *)
Lemma top_level_passthrough_sample :
  let id := Client.anonymousId Samples.sample_event in
  let req := Samples.request_with
               (assign (assign (Samples.posted_body [Samples.posted_event "graph_opened" id])
                          "workspace" (JStr "/home/ada/thesis"))
                       "ipHash" (JStr "0000000000000000")) in
  exists record,
    fst (post_telemetry Samples.bare_env Samples.sample_world req ∅)
    = <[generateFilename Samples.sample_world := record]> ∅
    /\ prop record "workspace" = Some (JStr "/home/ada/thesis")
    /\ prop record "ipHash" = Some (JStr (hashAnonymousId "203.0.113.7undefined")).
Proof.
  intros id req.
  destruct (top_level_passthrough Samples.bare_env Samples.sample_world req ∅)
    as (record & Hfiles & Hother & _ & _ & Hhash); [vm_compute; reflexivity|].
  exists record. split; [exact Hfiles|]. split; [|exact Hhash].
  rewrite Hother; [reflexivity|]. simpl. intros [H|[H|[H|[H|[H|[]]]]]]; discriminate.
Defined.

End Endpoint.

(** ** The endpoint as a whole *)
Section EndpointOutcomes.
Import Json Server.

Lemma validate_valid_bounds (data data' : json) :
  validateTelemetryData data = Ok (Valid, data') ->
  Z.of_nat (String.length (stringify data)) <= MAX_PAYLOAD_LENGTH
  /\ lacks_field data = false
  /\ forall events, prop data "events" = Some (JArr events) ->
       Z.of_nat (List.length events) <= MAX_EVENTS.
Proof.
  unfold validateTelemetryData.
  destruct (Z.ltb_spec MAX_PAYLOAD_LENGTH (Z.of_nat (String.length (stringify data))))
    as [|Hsize]; [discriminate|].
  destruct data as [| | | |items|fields]; try discriminate.
  destruct (first_missing_container (JObj fields) requiredFields eq_refl)
    as (missing & -> & Hlack).
  simpl. destruct missing; [discriminate|].
  destruct (assoc "events" fields) as [[| | | |events|]|] eqn:Hev; try discriminate.
  destruct (Z.ltb_spec MAX_EVENTS (Z.of_nat (List.length events))) as [|Hlen];
    [discriminate|].
  intros _. split; [exact Hsize|]. split; [exact Hlack|].
  intros events' H. simpl in H. by injection H as <-.
Qed.

Lemma accepted_response (env : Env) (w : World) (req : Request) (files : gmap string json) :
  status (snd (post_telemetry env w req files)) = 200 ->
  exists record,
    post_telemetry env w req files
    = (<[generateFilename w := record]> files,
       {| status := 200;
          payload := JObj [("success", JBool true);
                           ("message", JStr "Telemetry data received successfully");
                           ("eventsProcessed", JNum (events_length record));
                           ("fileId", JStr (before "." (generateFilename w)))] |}).
Proof.
  unfold post_telemetry, process.
  destruct (isJson req); simpl; [|discriminate].
  destruct (validateTelemetryData (body req)) as [[[|error] data']|]; simpl;
    [|discriminate|discriminate].
  destruct (sanitizeTelemetryData data') as [sanitized|]; simpl; [|discriminate].
  intros _. eauto.
Qed.

(** X6. A submission is accepted only within the validator's limits: its
    serialisation has at most 500000 characters, it has the seven required
    fields and at most 1000 events.  The answer then counts the submitted
    events and names the file written. *)
Theorem accepted_batch_is_within_limits (env : Env) (w : World) (req : Request)
    (files : gmap string json) :
  status (snd (post_telemetry env w req files)) = 200 ->
  exists events,
    prop (body req) "events" = Some (JArr events)
    /\ isJson req = true
    /\ Z.of_nat (String.length (stringify (body req))) <= 500000
    /\ (List.length events <= 1000)%nat
    /\ (forall field, In field requiredFields -> prop (body req) field <> None)
    /\ payload (snd (post_telemetry env w req files))
       = JObj [("success", JBool true);
               ("message", JStr "Telemetry data received successfully");
               ("eventsProcessed", JNum (Z.of_nat (List.length events)));
               ("fileId", JStr (before "." (generateFilename w)))].
Proof.
  intros Hok.
  destruct (accepted_inv env w req files Hok) as (data' & sanitized & Hv & _ & _).
  destruct (validate_valid_bounds _ _ Hv) as (Hsize & Hlack & Hlen).
  destruct (accepted_record env w req files Hok)
    as (fields & submitted & stored & Hbody & Hev & Hall & _ & Hfiles).
  destruct (accepted_response env w req files Hok) as (record & Hpost).
  exists submitted.
  assert (Hprop : prop (body req) "events" = Some (JArr submitted)) by (by rewrite Hbody).
  split; [exact Hprop|]. split.
  { unfold post_telemetry in Hok. destruct (isJson req); [reflexivity | discriminate]. }
  split; [exact Hsize|]. split.
  { specialize (Hlen submitted Hprop). unfold MAX_EVENTS in Hlen. lia. }
  split.
  { intros field Hin Hnone. unfold lacks_field in Hlack.
    assert (existsb (fun field => match prop (body req) field with
                                  | Some _ => false | None => true end) requiredFields = true);
      [|congruence].
    apply existsb_exists. exists field. by rewrite Hnone. }
  rewrite Hpost in Hfiles |- *. simpl in Hfiles |- *.
  assert (Hrecord : Some record
                    = Some (server_metadata env w req
                              (JObj (delete_prop "sessionId"
                                 (set_prop "events" (JArr stored)
                                    (set_prop "events" (JArr (map sanitize_fields submitted))
                                       fields)))))).
  { rewrite <- (lookup_insert_eq files (generateFilename w) record), Hfiles.
    apply lookup_insert_eq. }
  injection Hrecord as ->.
  unfold events_length.
  rewrite server_metadata_prop, assoc_delete_prop_ne, assoc_set_prop_eq by discriminate.
  by rewrite (Forall2_length _ _ _ Hall).
Qed.

Lemma accepted_batch_is_within_limits_sample :
  let id := Client.anonymousId Samples.sample_event in
  let req := Samples.request_with
               (Samples.posted_body [Samples.posted_event "graph_opened" id;
                                     Samples.posted_event "thought_created" id]) in
  prop (payload (snd (post_telemetry Samples.bare_env Samples.sample_world req ∅)))
       "eventsProcessed" = Some (JNum 2).
Proof.
  intros id req.
  destruct (accepted_batch_is_within_limits Samples.bare_env Samples.sample_world req ∅)
    as (events & Hev & _ & _ & _ & _ & ->); [vm_compute; reflexivity|].
  injection Hev as <-. reflexivity.
Defined.

(** X7. The endpoint has three kinds of answer.  With 200 it writes one
    file, named by [generateFilename]; with 400 or 500 it writes nothing
    and says [success: false] with one of three fixed messages.  In every
    case the other files of the directory are as they were, and a request
    that is not JSON by its content type is answered 400 whatever its
    body. *)
Theorem endpoint_outcomes (env : Env) (w : World) (req : Request)
    (files : gmap string json) :
  let result := post_telemetry env w req files in
  ((status (snd result) = 200
    /\ exists record, fst result = <[generateFilename w := record]> files)
   \/ (fst result = files
       /\ (snd result = respond_error 400 "Content-Type must be application/json"
           \/ snd result = respond_error 400 "Invalid data format"
           \/ snd result = respond_error 500 "Internal server error")))
  /\ (forall name, name <> generateFilename w -> fst result !! name = files !! name)
  /\ (isJson req = false ->
      result = (files, respond_error 400 "Content-Type must be application/json")).
Proof.
  assert (Hcases :
    (status (snd (post_telemetry env w req files)) = 200
     /\ exists record, fst (post_telemetry env w req files)
                       = <[generateFilename w := record]> files)
    \/ (fst (post_telemetry env w req files) = files
        /\ (snd (post_telemetry env w req files)
            = respond_error 400 "Content-Type must be application/json"
            \/ snd (post_telemetry env w req files) = respond_error 400 "Invalid data format"
            \/ snd (post_telemetry env w req files)
               = respond_error 500 "Internal server error"))).
  { unfold post_telemetry, process.
    destruct (isJson req); simpl; [|right; auto].
    destruct (validateTelemetryData (body req)) as [[[|error] data']|]; simpl;
      [|right; auto|right; auto].
    destruct (sanitizeTelemetryData data') as [sanitized|]; simpl; [|right; auto].
    left. eauto. }
  intros result. split; [exact Hcases|]. split.
  - intros name Hname. destruct Hcases as [[_ (record & Hfiles)] | [Hfiles _]];
      unfold result; rewrite Hfiles; [by apply lookup_insert_ne | reflexivity].
  - intros Hjson. unfold result, post_telemetry. by rewrite Hjson.
Qed.

Lemma map_outcome_throw {A B : Type} (f : A -> outcome B) (l : list A) (a : A) :
  In a l -> (exists e, f a = Throw e) -> exists e, map_outcome f l = Throw e.
Proof.
  intros Hin Hthrow. induction l as [|x l IH]; [contradiction|].
  simpl. destruct (f x) as [b|e] eqn:Hx; simpl; [|eauto].
  destruct Hin as [->|Hin].
  - destruct Hthrow as (e & He). congruence.
  - destruct (IH Hin) as (e & ->). simpl. eauto.
Qed.

Lemma unstorable_throws (event : json) :
  event_defect event = false -> unstorable event = true ->
  exists e, sanitize_event (sanitize_fields event) = Throw e.
Proof.
  intros Hdef Hbad.
  destruct (no_defect_fields event Hdef) as (et & ts & Het & _ & _).
  unfold sanitize_event.
  assert (Hget : get_prop (sanitize_fields event) "eventType"
                 = Ok (prop (sanitize_fields event) "eventType")).
  { destruct event as [| | | |items|fields]; try discriminate.
    unfold sanitize_fields. simpl.
    destruct (assoc "eventType" fields); simpl;
      destruct (assoc "anonymousId" _); reflexivity. }
  rewrite Hget, sanitize_fields_anonymousId, (sanitize_fields_other event "metadata")
    by discriminate.
  simpl. unfold unstorable in Hbad.
  destruct (prop event "anonymousId") as [[| | |id| |]|]; simpl; eauto.
  simpl in Hbad.
  destruct (prop event "metadata") as [[|b|n|s|items|fields]|]; simpl in *;
    try discriminate.
  - destruct b; [simpl; eauto | discriminate].
  - destruct (negb (n =? 0)); [simpl; eauto | discriminate].
  - destruct (negb (String.eqb s "")); [simpl; eauto | discriminate].
Qed.

(** X8. A batch can pass validation and still not be stored: when one of
    its events has an [anonymousId] that is not a string, or a [metadata]
    that is a truthy primitive, the sanitiser throws, the answer is the
    generic 500 and no file is written. *)
Theorem unstorable_event_is_a_server_error (env : Env) (w : World) (req : Request)
    (files : gmap string json) (data' : json) (events : list json) (event : json) :
  isJson req = true ->
  validateTelemetryData (body req) = Ok (Valid, data') ->
  prop (body req) "events" = Some (JArr events) ->
  In event events ->
  unstorable event = true ->
  post_telemetry env w req files = (files, respond_error 500 "Internal server error").
Proof.
  intros Hjson Hv Hev Hin Hbad.
  destruct (validate_valid_inv _ _ Hv) as (fields & events' & Hbody & Hev' & -> & _ & Hdef).
  rewrite Hbody in Hev. simpl in Hev. rewrite Hev' in Hev. injection Hev as ->.
  assert (Hdef1 : event_defect event = false).
  { destruct (event_defect event) eqn:H; [|reflexivity].
    assert (existsb event_defect events = true); [|congruence].
    apply existsb_exists. eauto. }
  destruct (map_outcome_throw sanitize_event (map sanitize_fields events)
              (sanitize_fields event)) as (e & Hthrow).
  { by apply in_map. }
  { by apply unstorable_throws. }
  unfold post_telemetry, process. rewrite Hjson, Hv. simpl.
  rewrite assoc_set_prop_eq, Hthrow. reflexivity.
Qed.

Lemma unstorable_event_is_a_server_error_sample :
  let req := Samples.request_with (Samples.posted_body [Samples.numbered_event]) in
  post_telemetry Samples.bare_env Samples.sample_world req ∅
  = (∅, respond_error 500 "Internal server error").
Proof.
  intros req.
  eapply (unstorable_event_is_a_server_error Samples.bare_env Samples.sample_world req ∅
            _ [Samples.numbered_event] Samples.numbered_event).
  - reflexivity.
  - vm_compute. reflexivity.
  - reflexivity.
  - simpl. auto.
  - reflexivity.
Defined.

End EndpointOutcomes.

(** ** File names *)
Section FileNames.
Import Json Server.

Lemma before_fixed_cons (c a : ascii) (s : string) :
  before c (String a s) = String a s -> Ascii.eqb a c = false /\ before c s = s.
Proof.
  simpl. destruct (Ascii.eqb a c); [discriminate|]. intros H. by injection H.
Qed.

Lemma append_cons (x : ascii) (a b : string) : String x a +:+ b = String x (a +:+ b).
Proof. reflexivity. Qed.

(** A string without [c] stands in front of the first [c] of what follows. *)
Lemma before_append (c : ascii) (a b : string) :
  before c a = a -> before c (a +:+ b) = a +:+ before c b.
Proof.
  induction a as [|x a IH]; intros H; [reflexivity|].
  apply before_fixed_cons in H as [Hx Ha].
  rewrite !append_cons. simpl. rewrite Hx. f_equal. by apply IH.
Qed.

Lemma before_before (c d : ascii) (s : string) :
  before c s = s -> before c (before d s) = before d s.
Proof.
  induction s as [|x s IH]; intros H; [reflexivity|].
  apply before_fixed_cons in H as [Hx Hs]. simpl.
  destruct (Ascii.eqb x d); [reflexivity|]. simpl. rewrite Hx. f_equal. by apply IH.
Qed.

Lemma replace_colon_dot_no_dot (s : string) :
  before "." (replace_colon_dot s) = replace_colon_dot s.
Proof.
  unfold replace_colon_dot. induction s as [|x s IH]; [reflexivity|].
  simpl. destruct (Ascii.eqb x ":" || Ascii.eqb x ".") eqn:Hx.
  - simpl. f_equal. exact IH.
  - apply orb_false_iff in Hx as [_ Hx]. simpl. rewrite Hx. f_equal. exact IH.
Qed.

Lemma hex_no_dot (s : string) : all_hex s = true -> before "." s = s.
Proof.
  induction s as [|x s IH]; [reflexivity|]. simpl. intros H.
  apply andb_true_iff in H as [Hx Hs].
  destruct (Ascii.eqb_spec x ".") as [->|_]; [discriminate|]. f_equal. by apply IH.
Qed.

Lemma append_assoc' (a b c : string) : (a +:+ b) +:+ c = a +:+ (b +:+ c).
Proof. induction a as [|x a IH]; [reflexivity | by rewrite !append_cons, IH]. Qed.

Lemma append_empty (a : string) : a +:+ "" = a.
Proof. induction a as [|x a IH]; [reflexivity | by rewrite append_cons, IH]. Qed.

Lemma substring_after (a b : string) (n : nat) :
  substring (String.length a) n (a +:+ b) = substring 0 n b.
Proof. induction a as [|x a IH]; [reflexivity | rewrite append_cons; exact IH]. Qed.

Lemma prefix_append (a b : string) : String.prefix a (a +:+ b) = true.
Proof.
  induction a as [|x a IH]; [by destruct b|].
  rewrite append_cons. simpl. by destruct (ascii_dec x x).
Qed.

Lemma ends_with_append (a suffix : string) : ends_with suffix (a +:+ suffix) = true.
Proof.
  unfold ends_with. rewrite length_append.
  apply andb_true_iff. split; [apply Nat.leb_le; lia|].
  replace (String.length a + String.length suffix - String.length suffix)%nat
    with (String.length a) by lia.
  rewrite substring_after. apply String.eqb_eq.
  clear a. induction suffix as [|x s IH]; simpl; [reflexivity | by rewrite IH].
Qed.

(** X9. Every name [generateFilename] makes passes the file-name test of
    the statistics endpoint.  When the random part is hexadecimal, the
    [fileId] of the answer is the name without its extension, and has no
    dot, colon or other part of the time of day in it. *)
Theorem stored_file_is_found_by_stats (w : World) :
  is_telemetry_file (generateFilename w) = true
  /\ (all_hex (randomHex w) = true ->
      before "." (generateFilename w) +:+ ".json" = generateFilename w
      /\ before "." (generateFilename w)
         = "telemetry_" +:+ before "T" (replace_colon_dot (filenameISO w))
           +:+ "_" +:+ randomHex w).
Proof.
  unfold generateFilename.
  set (timestamp := before "T" (replace_colon_dot (filenameISO w))).
  split.
  - unfold is_telemetry_file. apply andb_true_iff. split; [apply prefix_append|].
    rewrite <- !append_assoc'. apply ends_with_append.
  - intros Hhex.
    assert (Hstem : before "." ("telemetry_" +:+ timestamp +:+ "_" +:+ randomHex w +:+ ".json")
                    = "telemetry_" +:+ timestamp +:+ "_" +:+ randomHex w).
    { rewrite (before_append "." "telemetry_") by reflexivity. f_equal.
      rewrite before_append by apply before_before, replace_colon_dot_no_dot. f_equal.
      rewrite (before_append "." "_") by reflexivity. f_equal.
      rewrite before_append by by apply hex_no_dot.
      simpl. apply append_empty. }
    rewrite Hstem. split; [|reflexivity].
    by rewrite !append_assoc'.
Qed.

End FileNames.

(** ** The limiter and the route *)
Section Route.
Import Json Server.
Implicit Types (counts : gmap string RateEntry) (req : Request).

Lemma rateLimit_in_range req now counts :
  counts_in_range counts -> counts_in_range (fst (rateLimit req now counts)).
Proof.
  intros Hrange ip e. unfold rateLimit.
  destruct (counts !! clientIP req) as [e0|] eqn:H0; simpl.
  - destruct (RATE_WINDOW <? now - windowStart e0); simpl.
    + destruct (decide (clientIP req = ip)) as [<-|Hne].
      * rewrite lookup_insert_eq. intros [= <-]. simpl. unfold RATE_LIMIT. lia.
      * rewrite lookup_insert_ne by done. apply Hrange.
    + destruct (Z.leb_spec RATE_LIMIT (count e0)); simpl; [apply Hrange|].
      destruct (decide (clientIP req = ip)) as [<-|Hne].
      * rewrite lookup_insert_eq. intros [= <-]. simpl.
        specialize (Hrange _ _ H0). lia.
      * rewrite lookup_insert_ne by done. apply Hrange.
  - destruct (decide (clientIP req = ip)) as [<-|Hne].
    + rewrite lookup_insert_eq. intros [= <-]. simpl. unfold RATE_LIMIT. lia.
    + rewrite lookup_insert_ne by done. apply Hrange.
Qed.

(** After a call the caller has an entry, and no entry appears for anybody
    else or goes away. *)
Lemma rateLimit_entries req now counts (ip : string) :
  is_Some (fst (rateLimit req now counts) !! ip)
  <-> ip = clientIP req \/ is_Some (counts !! ip).
Proof.
  destruct (decide (clientIP req = ip)) as [<-|Hne].
  - split; [auto|]. intros _. unfold rateLimit.
    destruct (counts !! clientIP req) as [e0|] eqn:H0; simpl.
    + destruct (RATE_WINDOW <? now - windowStart e0); simpl;
        [by rewrite lookup_insert_eq|].
      destruct (RATE_LIMIT <=? count e0); simpl;
        [by rewrite H0 | by rewrite lookup_insert_eq].
    + by rewrite lookup_insert_eq.
  - rewrite rateLimit_frame by done. split; [auto|]. intros [->|H]; [done|exact H].
Qed.

Lemma run_limiter_in_range (trace : list (Request * Z)) : forall counts,
  counts_in_range counts -> counts_in_range (fst (run_limiter trace counts)).
Proof.
  induction trace as [|[req now] trace IH]; intros counts Hrange; [exact Hrange|].
  simpl. apply IH. by apply rateLimit_in_range.
Qed.

Lemma run_limiter_entries (trace : list (Request * Z)) : forall counts (ip : string),
  is_Some (fst (run_limiter trace counts) !! ip)
  <-> (exists req now, In (req, now) trace /\ clientIP req = ip) \/ is_Some (counts !! ip).
Proof.
  induction trace as [|[req now] trace IH]; intros counts ip; simpl.
  - split; [auto|]. intros [(? & ? & [] & _)|H]; exact H.
  - rewrite IH, rateLimit_entries. split.
    + intros [(r & t & Hin & Hip)|[->|H]]; [left|left|right]; eauto 6.
    + intros [(r & t & [[= <- <-]|Hin] & Hip)|H]; [right; left|left|right; right]; eauto.
Qed.

(** X10. Whatever requests arrive, in the map of the limiter (empty when
    the server starts) every count stays between 1 and [RATE_LIMIT], and
    the map holds one entry for each client identity seen so far and no
    other: entries are never removed. *)
Theorem limiter_entries_stay_in_range (trace : list (Request * Z)) :
  let counts := fst (run_limiter trace ∅) in
  (forall ip e, counts !! ip = Some e -> 1 <= count e <= 100)
  /\ (forall ip, is_Some (counts !! ip)
                 <-> exists req now, In (req, now) trace /\ clientIP req = ip).
Proof.
  intros counts. split.
  - apply (run_limiter_in_range trace ∅). intros ip e H. by rewrite lookup_empty in H.
  - intros ip. unfold counts. rewrite run_limiter_entries. split; [|auto].
    intros [H|H]; [exact H|]. rewrite lookup_empty in H. by destruct H.
Qed.

(** The limiter of [serve] is [rateLimit], and its directory is that of the
    endpoint. *)
Lemma serve_requestCounts (env : Env) (w : World) (now : Z) req (st : ServerState) :
  requestCounts (fst (serve env w now req st)) = fst (rateLimit req now (requestCounts st)).
Proof. unfold serve. by destruct (rateLimit req now (requestCounts st)) as [counts [|r]]. Qed.

Lemma serve_all_requestCounts (env : Env) (arrivals : list (World * Z * Request)) :
  forall st, requestCounts (fst (serve_all env arrivals st))
             = fst (run_limiter (map arrival_of arrivals) (requestCounts st)).
Proof.
  induction arrivals as [|[[w now] req] arrivals IH]; intros st; [reflexivity|].
  simpl. by rewrite IH, serve_requestCounts.
Qed.

(** X11. Every request of a client counts against its quota, whatever the
    endpoint answers to it: once a hundred of them have arrived within the
    window of the first one, the next is answered 429, its body is not
    looked at and the server is left as it was. *)
Theorem refused_requests_use_the_quota (env : Env) (arrivals : list (World * Z * Request))
    (st : ServerState) (w : World) (now : Z) (req : Request) (t1 : Z) (ts : list Z) :
  requestCounts st !! clientIP req = None ->
  history (clientIP req) (map arrival_of arrivals) = t1 :: ts ->
  Forall (fun t => t - t1 <= RATE_WINDOW) ts ->
  (99 <= List.length ts)%nat ->
  now - t1 <= RATE_WINDOW ->
  serve env w now req (fst (serve_all env arrivals st))
  = (fst (serve_all env arrivals st), rate_limited).
Proof.
  intros Hnone Hhist Hall Hlen Hnow.
  pose proof (entry_after_first_call (map arrival_of arrivals) (requestCounts st)
                (clientIP req) t1 ts Hnone Hhist Hall) as Hentry.
  rewrite <- (serve_all_requestCounts env) in Hentry.
  destruct (fst (serve_all env arrivals st)) as [counts dir]. simpl in Hentry.
  unfold serve. simpl.
  erewrite rateLimit_exceeded; [reflexivity | exact Hentry | simpl; lia |].
  simpl. unfold RATE_LIMIT. lia.
Qed.

Lemma refused_requests_use_the_quota_sample :
  let id := Client.anonymousId Samples.sample_event in
  let req := Samples.request_with
               (Samples.posted_body [Samples.posted_event "graph_opened" id]) in
  let st := fst (serve_all Samples.bare_env Samples.burst_arrivals
                   {| requestCounts := ∅; dataDir := ∅ |}) in
  serve Samples.bare_env Samples.sample_world 3600000 req st = (st, rate_limited).
Proof.
  intros id req st.
  apply (refused_requests_use_the_quota Samples.bare_env Samples.burst_arrivals
           {| requestCounts := ∅; dataDir := ∅ |} Samples.sample_world 3600000 req
           0 Samples.burst_times).
  - apply lookup_empty.
  - vm_compute. reflexivity.
  - apply Forall_forall. intros t Ht. unfold Samples.burst_times in Ht.
    apply list_elem_of_In, in_map_iff in Ht as (i & <- & Hi). apply in_seq in Hi.
    unfold RATE_WINDOW. lia.
  - vm_compute. lia.
  - unfold RATE_WINDOW. lia.
Defined.

Lemma serve_frame (env : Env) (w : World) (now : Z) req (st : ServerState) :
  let r := serve env w now req st in
  (snd r = rate_limited /\ dataDir (fst r) = dataDir st)
  \/ (fst (post_telemetry env w req (dataDir st)) = dataDir (fst r)
      /\ snd (post_telemetry env w req (dataDir st)) = snd r).
Proof.
  unfold serve, rateLimit.
  destruct (requestCounts st !! clientIP req) as [e|]; simpl; [|right; auto].
  destruct (RATE_WINDOW <? now - windowStart e); simpl; [right; auto|].
  destruct (RATE_LIMIT <=? count e); simpl; [left; auto | right; auto].
Qed.

Lemma serve_step (env : Env) (w : World) (now : Z) req (st : ServerState) :
  let r := serve env w now req st in
  In (status (snd r)) [200; 400; 429; 500]
  /\ (forall name, is_Some (dataDir st !! name) -> is_Some (dataDir (fst r) !! name))
  /\ (forall name, dataDir (fst r) !! name = dataDir st !! name
                   \/ (name = generateFilename w /\ status (snd r) = 200)).
Proof.
  intros r.
  destruct (serve_frame env w now req st) as [[Hr Hdir] | [Hdir Hr]]; fold r in Hr, Hdir.
  - rewrite Hr, Hdir. split; [simpl; auto|]. split; auto.
  - rewrite <- Hr, <- Hdir.
    unfold post_telemetry, process.
    destruct (isJson req); simpl; [|by (split; [auto|]; split; auto)].
    destruct (validateTelemetryData (body req)) as [[[|error] data']|]; simpl;
      [|by (split; [auto|]; split; auto)|by (split; [auto 6|]; split; auto)].
    destruct (sanitizeTelemetryData data') as [sanitized|]; simpl;
      [|by (split; [auto 6|]; split; auto)].
    split; [auto|]. split.
    + intros name H. destruct (decide (generateFilename w = name)) as [<-|Hne].
      * rewrite lookup_insert_eq. eauto.
      * by rewrite lookup_insert_ne.
    + intros name.
      destruct (decide (generateFilename w = name)) as [<-|Hne]; [right; auto|].
      left. by rewrite lookup_insert_ne.
Qed.

(** X12. Over any sequence of requests the route answers with 200, 400,
    429 or 500 only; no file of the directory is ever removed; and a file
    is as it was at the start unless it bears the name made for a request
    that was answered 200. *)
Theorem route_only_adds_files (env : Env) (arrivals : list (World * Z * Request))
    (st : ServerState) :
  let result := serve_all env arrivals st in
  List.length (snd result) = List.length arrivals
  /\ Forall (fun r => In (status r) [200; 400; 429; 500]) (snd result)
  /\ (forall name, is_Some (dataDir st !! name) -> is_Some (dataDir (fst result) !! name))
  /\ (forall name, dataDir (fst result) !! name = dataDir st !! name
        \/ exists i w now req r,
             arrivals !! i = Some (w, now, req) /\ snd result !! i = Some r
             /\ name = generateFilename w /\ status r = 200).
Proof.
  revert st. induction arrivals as [|[[w now] req] arrivals IH]; intros st.
  - simpl. split; [reflexivity|]. split; [constructor|]. split; auto.
  - simpl.
    destruct (serve_step env w now req st) as (Hstatus & Hkeep & Hnew).
    destruct (IH (fst (serve env w now req st))) as (Hlen & Hall & Hkeep' & Hnew').
    split; [by rewrite Hlen|]. split; [by constructor|]. split; [auto|].
    intros name.
    destruct (Hnew' name) as [Heq | (i & w' & now' & req' & r & Hi & Hr & Hname & Hok)].
    + rewrite Heq. destruct (Hnew name) as [Heq' | [-> Hok]]; [left; exact Heq'|].
      right. exists 0%nat, w, now, req, (snd (serve env w now req st)). auto.
    + right. exists (S i), w', now', req', r. auto.
Qed.

End Route.

(** ** What the client records and posts *)
Section Tracking.
Import Json Client.
Variables (host : Host) (net : Network).

Lemma scheduleRetry_data (now : Z) (m : Manager) : data_of (scheduleRetry now m) = data_of m.
Proof. unfold scheduleRetry. destruct (_ <=? _)%nat; reflexivity. Qed.

Lemma clearTimers_data (m : Manager) : data_of (clearTimers m) = data_of m.
Proof.
  unfold clearTimers.
  destruct (submissionTimer m); simpl; destruct (retryTimer m); reflexivity.
Qed.

Lemma setup_data (now : Z) (m : Manager) :
  data_of (setupSubmissionSchedule now m) = data_of m.
Proof.
  assert (Harm : forall h k delay m', data_of (set_submissionTimer h (snd (setTimeout k delay now m')))
                                     = data_of m') by reflexivity.
  unfold setupSubmissionSchedule. cbv zeta. rewrite Harm, clearTimers_data.
  destruct (firstActivation m) as [f|]; [destruct (f =? 0)|]; reflexivity.
Qed.

Lemma attempt_effect_refl (m m' : Manager) : data_of m' = data_of m -> attempt_effect m m'.
Proof. intros H. by left. Qed.

(** Steps that leave [data_of] alone can come before and after an attempt. *)
Lemma attempt_effect_frame (m0 m m' m'' : Manager) :
  data_of m = data_of m0 -> attempt_effect m m' -> data_of m'' = data_of m' ->
  attempt_effect m0 m''.
Proof.
  intros H0 [Hsame | (d & H)] H2.
  - left. by rewrite H2, Hsame, H0.
  - right. exists d. unfold data_of in H0, H2.
    injection H0 as He Hd Hf Hp Hw. injection H2 as He' Hd' Hf' Hp' Hw'.
    rewrite <- He, <- Hd, <- Hf, <- Hp, <- Hw, He', Hd', Hf', Hp', Hw'. exact H.
Qed.

Lemma submit_effect (now : Z) (m : Manager) : attempt_effect m (submitTelemetryData net now m).
Proof.
  unfold submitTelemetryData, submit.
  destruct (isEnabled m) eqn:Hen; simpl; [|by left].
  destruct (telemetryFile m) as [d|] eqn:Hfile.
  - destruct (events d) as [|e es] eqn:Hev; [by left|].
    pose proof (sendToBackend_effect net now d m) as Heff.
    destruct (sendToBackend net now d m) as [m1 [[]|err]]; simpl in *; subst m1.
    + right. exists d. rewrite Hev.
      destruct (retryTimer m) eqn:Hrt; simpl; rewrite ?Hrt; simpl;
        repeat split; auto; discriminate.
    + right. exists d. rewrite Hev.
      pose proof (scheduleRetry_data now (set_posted (posted m ++ [outgoing d]) m)) as Hdata.
      unfold data_of in Hdata. simpl in Hdata. injection Hdata as H1 H2 H3 H4 H5.
      match goal with |- context [if ?c then _ else _] => destruct c end;
        rewrite ?H1, ?H2, ?H3, ?H4, ?H5; simpl; repeat split; auto; discriminate.
  - left. simpl. destruct (_ <? _)%nat; [apply scheduleRetry_data | reflexivity].
Qed.

Lemma attemptSubmission_effect (now : Z) (m : Manager) :
  attempt_effect m (attemptSubmission net now m).
Proof.
  unfold attemptSubmission. destruct (negb (reachable net now)).
  - left. exact (scheduleRetry_data now (set_retryCount 0 m)).
  - eapply (attempt_effect_frame m (set_retryCount 0 m));
      [reflexivity | apply submit_effect | reflexivity].
Qed.

Lemma retry_callback_effect (now : Z) (m : Manager) :
  attempt_effect m (retry_callback net now m).
Proof.
  unfold retry_callback. destruct (negb (reachable net now)).
  - left. exact (scheduleRetry_data now (set_retryCount (S (retryCount m)) m)).
  - eapply (attempt_effect_frame m (set_retryCount (S (retryCount m)) m));
      [reflexivity | apply submit_effect | reflexivity].
Qed.

Lemma manualSubmit_effect (now : Z) (m : Manager) : attempt_effect m (manualSubmit net now m).
Proof.
  unfold manualSubmit. destruct (negb (isEnabled m)); [by left | apply submit_effect].
Qed.

Lemma fire_effect (h : nat) (m : Manager) : attempt_effect m (fire net h m).
Proof.
  unfold fire. destruct (find_timer h (timers m)) as [t|]; [|by left].
  destruct (kind t).
  - eapply (attempt_effect_frame m (clearTimeout h m));
      [reflexivity | apply attemptSubmission_effect | reflexivity].
  - eapply (attempt_effect_frame m (set_timers _ _ m));
      [reflexivity | apply attemptSubmission_effect | reflexivity].
  - eapply (attempt_effect_frame m (clearTimeout h m));
      [reflexivity | apply retry_callback_effect | reflexivity].
Qed.

Lemma last_n_nonempty {A : Type} (n : nat) (xs : list A) :
  (0 < n)%nat -> xs <> [] -> last_n n xs <> [].
Proof.
  intros Hn Hxs Hnil.
  destruct (last_n_spec n xs) as (older & _ & Hlen). rewrite Hnil in Hlen.
  destruct xs; [contradiction|]. simpl in Hlen. lia.
Qed.

Lemma last_n_Forall {A : Type} (P : A -> Prop) (n : nat) (xs : list A) :
  Forall P xs -> Forall P (last_n n xs).
Proof.
  intros H. destruct (last_n_spec n xs) as (older & Hsplit & _).
  rewrite Hsplit in H. by apply Forall_app in H as [_ H].
Qed.

Lemma outgoing_batch_of (d : TelemetryData) : batch_of host d -> batch_of host (outgoing d).
Proof.
  unfold outgoing. destruct (PAYLOAD_MARGIN <? _); [|auto].
  intros (H1 & H2 & H3 & H4 & H5 & H6). unfold batch_of. simpl.
  repeat split; try assumption.
  - apply last_n_nonempty; [unfold KEPT_EVENTS; lia | exact H5].
  - by apply last_n_Forall.
Qed.

Lemma file_ok_data (m m' : Manager) : data_of m' = data_of m -> file_ok host m -> file_ok host m'.
Proof. unfold data_of, file_ok. intros [= -> -> -> _ _]. auto. Qed.

Lemma attempt_keeps_file_ok (m m' : Manager) :
  attempt_effect m m' -> file_ok host m ->
  file_ok host m'
  /\ exists new, posted m' = posted m ++ new /\ Forall (batch_of host) new.
Proof.
  intros [Hsame | (d & Hen & Hfile & Hev & Hen' & _ & Hposted & Hrest)] Hok.
  - split; [exact (file_ok_data m m' Hsame Hok)|]. exists [].
    unfold data_of in Hsame. injection Hsame as _ _ _ -> _. by rewrite app_nil_r.
  - unfold file_ok in Hok. rewrite Hfile in Hok. destruct Hok as (_ & Hbatch & Hcount).
    split.
    + unfold file_ok. destruct Hrest as [[-> ->] | [-> _]]; auto.
    + exists [outgoing d]. split; [exact Hposted|].
      constructor; [by apply outgoing_batch_of | constructor].
Qed.

Lemma occurrences_snoc (t : EventType) (evs : list TelemetryEvent) (e : TelemetryEvent) :
  occurrences t (evs ++ [e]) = occurrences t evs + (if same_type (eventType e) t then 1 else 0).
Proof.
  unfold occurrences. rewrite List.filter_app, length_app. simpl.
  destruct (same_type (eventType e) t); simpl; lia.
Qed.

Lemma counter_update (days : gset string) (e : TelemetryEvent) (a : AggregatedStats)
    (t : EventType) :
  counter t (updateAggregatedStats days e a)
  = counter t a + (if same_type (eventType e) t then 1 else 0).
Proof. destruct t, (eventType e) eqn:He; simpl; rewrite He; reflexivity. Qed.

(** What [trackEvent] leaves in the file of an enabled manager. *)
Lemma trackEvent_file (clock : Clock) (t : EventType)
    (metadata : option (list (string * json))) (m : Manager) :
  isEnabled m = true ->
  let m' := trackEvent host clock t metadata m in
  let before := match telemetryFile m with
                | Some d => d
                | None => createEmptyTelemetryData host (weekStartDate clock)
                end in
  let event := tracked_event host (clock, t, metadata) in
  exists d',
    telemetryFile m' = Some d'
    /\ events d' = events before ++ [event]
    /\ aggregatedStats d'
       = updateAggregatedStats (activeDays m') event (aggregatedStats before)
    /\ sessionId d' = sessionId before /\ extensionVersion d' = extensionVersion before
    /\ vscodeVersion d' = vscodeVersion before /\ platform d' = platform before
    /\ weekStart d' = weekStart before
    /\ activeDays m' = {[Server.before "T" (activityISO clock)]} ∪ activeDays m
    /\ isEnabled m' = true /\ posted m' = posted m /\ fileWrites m' = S (fileWrites m).
Proof.
  intros Hen. unfold trackEvent. rewrite Hen. simpl.
  eexists. split; [reflexivity|]. simpl. rewrite Hen. repeat split; reflexivity.
Qed.

Lemma trackEvent_file_ok (clock : Clock) (t : EventType)
    (metadata : option (list (string * json))) (m : Manager) :
  file_ok host m -> file_ok host (trackEvent host clock t metadata m).
Proof.
  intros Hok. destruct (isEnabled m) eqn:Hen.
  2: { unfold trackEvent. by rewrite Hen. }
  destruct (trackEvent_file clock t metadata m Hen)
    as (d' & Hfile & Hev & Hstats & Hs & Hx & Hv & Hp & _ & Hdays & Hen' & _ & _).
  unfold file_ok. rewrite Hfile. split; [exact Hen'|].
  assert (Hbefore :
    let before := match telemetryFile m with
                  | Some d => d
                  | None => createEmptyTelemetryData host (weekStartDate clock)
                  end in
    sessionId before = thisSessionId host
    /\ extensionVersion before = Server.or_else (packageVersion host) "unknown"
    /\ vscodeVersion before = hostVersion host
    /\ platform before = hostPlatform host
    /\ Forall (fun e => anonymousId e = thisAnonymousId host) (events before)
    /\ forall t', counter t' (aggregatedStats before) = occurrences t' (events before)).
  { unfold file_ok in Hok. destruct (telemetryFile m) as [d|]; simpl.
    - destruct Hok as (_ & (H1 & H2 & H3 & H4 & _ & H6) & (Hc & _)). auto 10.
    - repeat split; [constructor | by intros []]. }
  destruct Hbefore as (B1 & B2 & B3 & B4 & B5 & B6).
  split.
  - unfold batch_of. rewrite Hs, Hx, Hv, Hp, Hev. repeat split; try assumption.
    + intros Hnil. apply app_eq_nil in Hnil as [_ Hnil]. discriminate.
    + apply Forall_app. split; [exact B5|]. by constructor.
  - split.
    + intros t'. by rewrite Hstats, Hev, counter_update, occurrences_snoc, B6.
    + by rewrite Hstats.
Qed.

Lemma data_fields (m m' : Manager) :
  data_of m' = data_of m ->
  isEnabled m' = isEnabled m /\ activeDays m' = activeDays m
  /\ telemetryFile m' = telemetryFile m /\ posted m' = posted m
  /\ fileWrites m' = fileWrites m.
Proof. unfold data_of. intros [= -> -> -> -> ->]. auto. Qed.

(** Switching on arms the schedule and marks the day; switching off
    deletes the data; anything else only stores the setting. *)
Lemma updateTelemetryStatus_effect (on : bool) (now : Z) (iso : string) (m : Manager) :
  let m' := updateTelemetryStatus on now iso m in
  posted m' = posted m /\ fileWrites m' = fileWrites m /\ isEnabled m' = on
  /\ ((on = isEnabled m /\ telemetryFile m' = telemetryFile m
       /\ activeDays m' = activeDays m)
      \/ (on = true /\ isEnabled m = false /\ telemetryFile m' = telemetryFile m
          /\ activeDays m' = {[Server.before "T" iso]} ∪ activeDays m)
      \/ (on = false /\ isEnabled m = true /\ telemetryFile m' = None
          /\ activeDays m' = ∅)).
Proof.
  unfold updateTelemetryStatus.
  destruct on, (isEnabled m) eqn:Hen; cbn [andb negb].
  - repeat split. left. auto.
  - destruct (data_fields _ _ (setup_data now (set_isEnabled true m)))
      as (E1 & E2 & E3 & E4 & E5).
    unfold trackDailyActivity, set_activeDays.
    cbn [posted fileWrites isEnabled telemetryFile activeDays].
    rewrite E1, E2, E3, E4, E5. repeat split. right. left. auto.
  - destruct (data_fields _ _ (clearTimers_data (set_isEnabled false m)))
      as (E1 & E2 & E3 & E4 & E5).
    unfold clearTelemetryData.
    cbn [posted fileWrites isEnabled telemetryFile activeDays].
    rewrite E1, E4, E5. repeat split. right. right. auto.
  - repeat split. left. auto.
Qed.

Lemma act_keeps_file_ok (a : Action) (m : Manager) :
  file_ok host m ->
  file_ok host (act host net a m)
  /\ exists new, posted (act host net a m) = posted m ++ new /\ Forall (batch_of host) new.
Proof.
  intros Hok. destruct a as [h|now|on now iso|clock t metadata|]; simpl.
  - apply attempt_keeps_file_ok; [apply fire_effect | exact Hok].
  - apply attempt_keeps_file_ok; [apply manualSubmit_effect | exact Hok].
  - destruct (updateTelemetryStatus_effect on now iso m) as (Hp & _ & Hen & Hcases).
    split; [|exists []; rewrite app_nil_r; split; [exact Hp | constructor]].
    unfold file_ok in *.
    destruct Hcases as [(Hon & -> & ->) | [(_ & Hoff & -> & _) | (_ & _ & -> & _)]].
    + rewrite Hen, Hon. exact Hok.
    + destruct (telemetryFile m); [|exact I]. destruct Hok as [Hok _]. congruence.
    + exact I.
  - split; [by apply trackEvent_file_ok|]. exists []. rewrite app_nil_r.
    split; [|constructor]. unfold trackEvent. destruct (isEnabled m); reflexivity.
  - destruct (data_fields _ _ (clearTimers_data m)) as (_ & _ & _ & Hp & _).
    split; [exact (file_ok_data m _ (clearTimers_data m) Hok)|]. exists [].
    rewrite app_nil_r. split; [exact Hp | constructor].
Qed.

Lemma run_keeps_file_ok (actions : list Action) : forall m,
  file_ok host m ->
  file_ok host (run host net actions m)
  /\ exists new, posted (run host net actions m) = posted m ++ new
                 /\ Forall (batch_of host) new.
Proof.
  induction actions as [|a actions IH]; intros m Hok; simpl.
  - split; [exact Hok|]. exists []. by rewrite app_nil_r.
  - destruct (act_keeps_file_ok a m Hok) as (Hok1 & new1 & Hp1 & Hall1).
    destruct (IH _ Hok1) as (Hok2 & new2 & Hp2 & Hall2).
    split; [exact Hok2|]. exists (new1 ++ new2).
    split; [by rewrite Hp2, Hp1, app_assoc | by apply Forall_app].
Qed.

End Tracking.

Section TrackingProperties.
Import Json Client.




(** X14. Starting without a batch file, every body the manager posts is a
    batch of this session: it carries the session's identifier and the
    host's versions and platform, it has at least one event, and every one
    of its events bears the installation's [anonymousId].  Bodies posted
    earlier stay in front, in order. *)
Theorem posted_batches_are_of_this_session (host : Host) (net : Network)
    (actions : list Action) (m : Manager) :
  telemetryFile m = None ->
  exists new,
    posted (run host net actions m) = posted m ++ new
    /\ Forall (fun d =>
         sessionId d = thisSessionId host
         /\ vscodeVersion d = hostVersion host
         /\ platform d = hostPlatform host
         /\ events d <> []
         /\ forall e, In e (events d) -> anonymousId e = thisAnonymousId host) new.
Proof.
  intros Hnone.
  assert (Hstart : file_ok host m) by (unfold file_ok; by rewrite Hnone).
  destruct (run_keeps_file_ok host net actions m Hstart) as (_ & new & Hposted & Hall).
  exists new. split; [exact Hposted|].
  eapply Forall_impl; [exact Hall|].
  intros d (H1 & _ & H3 & H4 & H5 & H6). repeat split; try assumption.
  intros e He. rewrite Forall_forall in H6. apply H6. by apply list_elem_of_In.
Qed.

Lemma posted_batches_are_of_this_session_sample :
  let actions := [TrackEvent Samples.sample_clock graph_opened None;
                  ManualSubmit (Samples.T0 + Samples.hour)] in
  exists new,
    posted (run Samples.sample_host (Samples.answering 200) actions
              (Samples.sample_manager None)) = [] ++ new
    /\ Forall (fun d => sessionId d = "1759312800123-k3j9x0q2a"%string
                        /\ vscodeVersion d = "1.94.0"%string
                        /\ platform d = "linux"%string
                        /\ events d <> []
                        /\ forall e, In e (events d) ->
                             anonymousId e = "0b0f6a1c-58c5-4a8e-9d0e-5f2a3c1d7e42"%string)
              new.
Proof.
  intros actions.
  exact (posted_batches_are_of_this_session Samples.sample_host (Samples.answering 200)
           actions (Samples.sample_manager None) eq_refl).
Defined.

End TrackingProperties.

(** ** Switching telemetry off *)
Section OptOut.
Import Json Client.






End OptOut.

(** ** From [trackEvent] to the backend *)
Section Delivery.
Import Json Client.

Lemma track_more (host : Host) (net : Network)
    (calls : list (Clock * EventType * option (list (string * json)))) :
  forall (m : Manager) (d : TelemetryData),
    isEnabled m = true -> telemetryFile m = Some d ->
    let m' := run host net (map tracking calls) m in
    exists d',
      telemetryFile m' = Some d'
      /\ events d' = events d ++ map (tracked_event host) calls
      /\ sessionId d' = sessionId d /\ weekStart d' = weekStart d
      /\ isEnabled m' = true /\ posted m' = posted m
      /\ fileWrites m' = (fileWrites m + List.length calls)%nat.
Proof.
  induction calls as [|[[clock t] metadata] calls IH]; intros m d Hen Hfile; simpl.
  - exists d. rewrite app_nil_r. repeat split; auto.
  - destruct (trackEvent_file host clock t metadata m Hen)
      as (d1 & Hfile1 & Hev1 & _ & Hs1 & _ & _ & _ & Hw1 & _ & Hen1 & Hp1 & Hwr1).
    rewrite Hfile in Hev1, Hs1, Hw1.
    destruct (IH _ d1 Hen1 Hfile1) as (d' & Hfile' & Hev' & Hs' & Hw' & Hen' & Hp' & Hwr').
    exists d'. split; [exact Hfile'|].
    rewrite Hev', Hev1, <- app_assoc, Hs', Hs1, Hw', Hw1, Hp', Hp1, Hwr', Hwr1.
    repeat split; auto; simpl; lia.
Qed.



(** X17. With no batch file to read, a submission attempt counts as a
    failure: nothing is posted, and unless the three retries are used up a
    retry is armed, for the delay of the current retry count.  (With a file
    that holds no event, the attempt returns without arming anything.) *)
Theorem missing_file_counts_as_failure (net : Network) (now : Z) (m : Manager) :
  isEnabled m = true ->
  telemetryFile m = None ->
  let m' := submitTelemetryData net now m in
  snd (submit net now m) = Failed
  /\ posted m' = posted m /\ telemetryFile m' = None
  /\ retryCount m' = retryCount m
  /\ match nth_error RETRY_DELAYS (retryCount m) with
     | Some delay =>
         timers m' = timers m ++ [(nextHandle m, {| kind := RetryTimeout;
                                                    fireAt := now + delay |})]
         /\ retryTimer m' = Some (nextHandle m)
     | None => timers m' = timers m /\ retryTimer m' = retryTimer m
     end.
Proof.
  intros Hen Hnone m'. unfold m', submitTelemetryData, submit. rewrite Hen, Hnone.
  cbn [negb fst snd]. split; [reflexivity|].
  unfold scheduleRetry, RETRY_DELAYS.
  destruct (retryCount m) as [|[|[|n]]] eqn:Hc; simpl; rewrite ?Hc; simpl;
    repeat split; auto.
  by destruct n.
Qed.

Lemma missing_file_counts_as_failure_sample :
  timers (submitTelemetryData (Samples.answering 200) Samples.T0 (Samples.sample_manager None))
  = [(0%nat, {| kind := RetryTimeout; fireAt := Samples.T0 + 30 * 60 * 1000 |})].
Proof.
  destruct (missing_file_counts_as_failure (Samples.answering 200) Samples.T0
              (Samples.sample_manager None) eq_refl eq_refl) as (_ & _ & _ & _ & Ht).
  simpl in Ht. destruct Ht as [Ht _]. exact Ht.
Defined.

End Delivery.

(** ** The client's batches at the server *)
Section EndToEnd.
Import Json Server.

Lemma event_to_json_props (e : Client.TelemetryEvent) :
  prop (Client.event_to_json e) "eventType"
  = Some (JStr (Client.event_type_name (Client.eventType e)))
  /\ prop (Client.event_to_json e) "timestamp" = Some (JStr (Client.timestamp e))
  /\ prop (Client.event_to_json e) "anonymousId" = Some (JStr (Client.anonymousId e))
  /\ prop (Client.event_to_json e) "metadata" = option_map JObj (Client.metadata e).
Proof.
  unfold Client.event_to_json. repeat split; try reflexivity.
  destruct (Client.metadata e); reflexivity.
Qed.

Lemma nonempty_truthy (s : string) : s <> ""%string -> truthy (Some (JStr s)) = true.
Proof. intros Hs. simpl. by destruct (String.eqb_spec s ""). Qed.

Lemma client_event_no_defect (e : Client.TelemetryEvent) :
  Client.timestamp e <> ""%string -> Client.anonymousId e <> ""%string ->
  event_defect (Client.event_to_json e) = false.
Proof.
  intros Hts Hid. unfold event_defect.
  destruct (event_to_json_props e) as (-> & -> & -> & _).
  rewrite (nonempty_truthy _ Hts), (nonempty_truthy _ Hid).
  by destruct (Client.eventType e).
Qed.

Lemma validate_client_events (evs : list Client.TelemetryEvent) :
  Forall (fun e => Client.timestamp e <> ""%string /\ Client.anonymousId e <> ""%string) evs ->
  validate_events (map Client.event_to_json evs)
  = Ok (Valid, map sanitize_fields (map Client.event_to_json evs)).
Proof.
  induction 1 as [|e evs [Hts Hid] _ IH]; [reflexivity|].
  cbn [map]. rewrite validate_events_cons by reflexivity.
  by rewrite (client_event_no_defect e Hts Hid), IH.
Qed.

Lemma sanitize_fields_object (fields : list (string * json)) :
  exists fields', sanitize_fields (JObj fields) = JObj fields'.
Proof.
  unfold sanitize_fields. simpl.
  destruct (assoc "eventType" fields); simpl; destruct (assoc "anonymousId" _); simpl; eauto.
Qed.

Lemma sanitize_client_event (e : Client.TelemetryEvent) :
  exists s, sanitize_event (sanitize_fields (Client.event_to_json e)) = Ok s.
Proof.
  assert (Hget : get_prop (sanitize_fields (Client.event_to_json e)) "eventType"
                 = Ok (prop (sanitize_fields (Client.event_to_json e)) "eventType")).
  { unfold Client.event_to_json.
    destruct (sanitize_fields_object
                ([("eventType", JStr (Client.event_type_name (Client.eventType e)));
                  ("timestamp", JStr (Client.timestamp e));
                  ("anonymousId", JStr (Client.anonymousId e))]
                 ++ opt_field "metadata" (option_map JObj (Client.metadata e))))
      as (fields' & ->).
    reflexivity. }
  unfold sanitize_event.
  rewrite Hget, sanitize_fields_anonymousId,
    (sanitize_fields_other _ "metadata"), (sanitize_fields_other _ "timestamp")
    by discriminate.
  destruct (event_to_json_props e) as (_ & _ & -> & ->).
  destruct (Client.metadata e); simpl; eauto.
Qed.

Lemma map_outcome_ok {A B : Type} (f : A -> outcome B) (l : list A) :
  (forall a, In a l -> exists b, f a = Ok b) -> exists bs, map_outcome f l = Ok bs.
Proof.
  induction l as [|a l IH]; intros Hall; simpl; [eauto|].
  destruct (Hall a) as (b & ->); [by left|].
  destruct IH as (bs & ->); [intros x Hx; apply Hall; by right|].
  simpl. eauto.
Qed.

(** X18. The endpoint accepts what the client makes: a request that
    carries a batch of the client as JSON is answered 200 and stored,
    provided the batch is within the validator's limits (at most 500000
    characters serialised, at most 1000 events) and no event has an empty
    time stamp or identifier. *)
Theorem client_batch_is_accepted (env : Env) (w : World) (req : Request)
    (files : gmap string json) (d : Client.TelemetryData) :
  isJson req = true ->
  body req = Client.to_json d ->
  Z.of_nat (String.length (stringify (Client.to_json d))) <= 500000 ->
  (List.length (Client.events d) <= 1000)%nat ->
  Forall (fun e => Client.timestamp e <> ""%string /\ Client.anonymousId e <> ""%string)
         (Client.events d) ->
  status (snd (post_telemetry env w req files)) = 200
  /\ exists record, fst (post_telemetry env w req files)
                    = <[generateFilename w := record]> files.
Proof.
  intros Hjson Hbody Hsize Hlen Hall.
  assert (Hv : validateTelemetryData (Client.to_json d)
               = Ok (Valid, assign (Client.to_json d) "events"
                       (JArr (map sanitize_fields
                                (map Client.event_to_json (Client.events d)))))).
  { unfold validateTelemetryData.
    destruct (Z.ltb_spec MAX_PAYLOAD_LENGTH
                (Z.of_nat (String.length (stringify (Client.to_json d)))))
      as [Hbig|_]; [unfold MAX_PAYLOAD_LENGTH in Hbig; lia|].
    assert (Hmissing : first_missing requiredFields (Client.to_json d) = Ok None)
      by reflexivity.
    assert (Hevents : prop (Client.to_json d) "events"
                      = Some (JArr (map Client.event_to_json (Client.events d))))
      by reflexivity.
    rewrite Hmissing. cbn [mbind outcome_bind]. rewrite Hevents.
    destruct (Z.ltb_spec MAX_EVENTS
                (Z.of_nat (List.length (map Client.event_to_json (Client.events d)))))
      as [Hmany|_]; [rewrite length_map in Hmany; unfold MAX_EVENTS in Hmany; lia|].
    by rewrite (validate_client_events _ Hall). }
  destruct (map_outcome_ok sanitize_event
              (map sanitize_fields (map Client.event_to_json (Client.events d))))
    as (stored & Hstored).
  { intros a Ha. apply in_map_iff in Ha as (j & <- & Hj).
    apply in_map_iff in Hj as (e & <- & _). apply sanitize_client_event. }
  unfold post_telemetry, process. rewrite Hjson, Hbody, Hv.
  cbn [negb mbind outcome_bind fst snd].
  assert (Hs : exists sanitized,
            sanitizeTelemetryData
              (assign (Client.to_json d) "events"
                 (JArr (map sanitize_fields (map Client.event_to_json (Client.events d)))))
            = Ok sanitized).
  { unfold Client.to_json, assign, sanitizeTelemetryData.
    rewrite assoc_set_prop_eq, Hstored. simpl. eauto. }
  destruct Hs as (sanitized & ->). simpl. eauto.
Qed.

Lemma client_batch_is_accepted_sample :
  let d := Samples.sample_batch [Samples.sample_event] in
  status (snd (post_telemetry Samples.bare_env Samples.sample_world
                 (Samples.request_with (Client.to_json d)) ∅)) = 200.
Proof.
  intros d.
  apply (client_batch_is_accepted Samples.bare_env Samples.sample_world
           (Samples.request_with (Client.to_json d)) ∅ d).
  - reflexivity.
  - reflexivity.
  - vm_compute. discriminate.
  - simpl. lia.
  - repeat constructor; discriminate.
Defined.

End EndToEnd.

(** ** The daily schedule *)
Section DailySchedule.
Import Json Client.

Lemma retry_only_refl (m : Manager) : retry_only m m.
Proof. unfold retry_only. auto. Qed.

Lemma retry_only_same (m m' : Manager) :
  submissionTimer m' = submissionTimer m -> firstActivation m' = firstActivation m ->
  timers m' = timers m -> retry_only m m'.
Proof. intros Hs Hf Ht. unfold retry_only. rewrite Ht. auto. Qed.

Lemma retry_only_trans (m1 m2 m3 : Manager) :
  retry_only m1 m2 -> retry_only m2 m3 -> retry_only m1 m3.
Proof.
  intros (S1 & F1 & T1) (S2 & F2 & T2). unfold retry_only.
  split; [congruence|]. split; [congruence|]. auto.
Qed.

Lemma retry_only_clearTimeout (h : nat) (m : Manager) : retry_only m (clearTimeout h m).
Proof.
  unfold retry_only, clearTimeout. simpl. split; [reflexivity|]. split; [reflexivity|].
  intros h' t Hin _. by apply filter_In in Hin as [Hin _].
Qed.

Lemma retry_only_scheduleRetry (now : Z) (m : Manager) : retry_only m (scheduleRetry now m).
Proof.
  unfold scheduleRetry. destruct (_ <=? _)%nat; [apply retry_only_refl|].
  unfold retry_only. simpl. split; [reflexivity|]. split; [reflexivity|].
  intros h t Hin Hdaily. apply in_app_or in Hin as [Hin | [[= <- <-] | []]];
    [exact Hin | discriminate].
Qed.

Lemma retry_only_submit (net : Network) (now : Z) (m : Manager) :
  retry_only m (submitTelemetryData net now m).
Proof.
  unfold submitTelemetryData, submit.
  destruct (isEnabled m); simpl; [|apply retry_only_refl].
  assert (Herr : forall m', retry_only m m' ->
            retry_only m (if (retryCount m' <? List.length RETRY_DELAYS)%nat
                          then scheduleRetry now m' else m')).
  { intros m' H. destruct (_ <? _)%nat; [|exact H].
    eapply retry_only_trans; [exact H | apply retry_only_scheduleRetry]. }
  destruct (telemetryFile m) as [d|]; [|apply Herr, retry_only_refl].
  destruct (events d) as [|e es]; [apply retry_only_refl|].
  pose proof (sendToBackend_effect net now d m) as Heff.
  destruct (sendToBackend net now d m) as [m1 [[]|err]]; simpl in Heff; subst m1; simpl.
  - destruct (retryTimer m) as [h|] eqn:Hrt; simpl; rewrite ?Hrt.
    + unfold retry_only. simpl. split; [reflexivity|]. split; [reflexivity|].
      intros h' t Hin _. by apply filter_In in Hin as [Hin _].
    + by apply retry_only_same.
  - apply (Herr (set_posted (posted m ++ [outgoing d]) m)). by apply retry_only_same.
Qed.

Lemma retry_only_attemptSubmission (net : Network) (now : Z) (m : Manager) :
  retry_only m (attemptSubmission net now m).
Proof.
  unfold attemptSubmission. destruct (negb (reachable net now)).
  - exact (retry_only_scheduleRetry now (set_retryCount 0 m)).
  - exact (retry_only_submit net now (set_retryCount 0 m)).
Qed.

Lemma retry_only_retry_callback (net : Network) (now : Z) (m : Manager) :
  retry_only m (retry_callback net now m).
Proof.
  unfold retry_callback. destruct (negb (reachable net now)).
  - exact (retry_only_scheduleRetry now (set_retryCount (S (retryCount m)) m)).
  - exact (retry_only_submit net now (set_retryCount (S (retryCount m)) m)).
Qed.

Lemma retry_only_manualSubmit (net : Network) (now : Z) (m : Manager) :
  retry_only m (manualSubmit net now m).
Proof.
  unfold manualSubmit. destruct (negb (isEnabled m));
    [apply retry_only_refl | apply retry_only_submit].
Qed.

Lemma timeout_is_daily (t : Timer) : kind t = SubmissionTimeout -> is_daily t = true.
Proof. unfold is_daily. by intros ->. Qed.

Lemma retry_only_keeps (m m' : Manager) :
  retry_only m m' ->
  daily_held m /\ timeout_on_grid m -> daily_held m' /\ timeout_on_grid m'.
Proof.
  intros (Hs & Hf & Ht) [Hheld Hgrid]. split.
  - intros h t Hin Hd. rewrite Hs. eauto.
  - intros h t Hin Hk. rewrite Hf. eauto using timeout_is_daily.
Qed.

(** After [clearTimers] no daily timer is pending, and the manager holds
    no handle. *)
Lemma clearTimers_no_daily (m : Manager) :
  daily_held m ->
  (forall h t, In (h, t) (timers (clearTimers m)) -> is_daily t = false)
  /\ submissionTimer (clearTimers m) = None /\ retryTimer (clearTimers m) = None.
Proof.
  intros Hheld. unfold clearTimers.
  destruct (submissionTimer m) as [h0|] eqn:Hs.
  - assert (Hnone : forall h t,
              In (h, t) (List.filter (fun e => negb (Nat.eqb (fst e) h0))
                           (List.filter (fun e => negb (Nat.eqb (fst e) h0)) (timers m))) ->
              is_daily t = false).
    { intros h t Hin. apply filter_In in Hin as [Hin Hne]. apply filter_In in Hin as [Hin _].
      destruct (is_daily t) eqn:Hd; [|reflexivity].
      specialize (Hheld h t Hin Hd). rewrite Hs in Hheld. injection Hheld as ->.
      simpl in Hne. by rewrite Nat.eqb_refl in Hne. }
    simpl. destruct (retryTimer m) as [h1|] eqn:Hr; simpl; rewrite ?Hr; [|auto].
    split; [|auto]. intros h t Hin. apply filter_In in Hin as [Hin _]. eauto.
  - assert (Hnone : forall h t, In (h, t) (timers m) -> is_daily t = false).
    { intros h t Hin. destruct (is_daily t) eqn:Hd; [|reflexivity].
      specialize (Hheld h t Hin Hd). rewrite Hs in Hheld. discriminate. }
    destruct (retryTimer m) as [h1|] eqn:Hr; simpl; rewrite ?Hs, ?Hr; [|auto].
    split; [|auto]. intros h t Hin. apply filter_In in Hin as [Hin _]. eauto.
Qed.

Lemma setup_schedule (now : Z) (m : Manager) :
  daily_held m ->
  daily_held (setupSubmissionSchedule now m)
  /\ timeout_on_grid (setupSubmissionSchedule now m).
Proof.
  intros Hheld. unfold setupSubmissionSchedule.
  set (stored := match firstActivation m with
                 | Some f => if f =? 0 then None else Some f
                 | None => None
                 end).
  set (first := match stored with Some f => f | None => now end).
  set (m1 := match stored with Some _ => m | None => set_firstActivation (Some now) m end).
  assert (Hfirst : firstActivation m1 = Some first).
  { unfold m1, first, stored. destruct (firstActivation m) as [f|] eqn:Hf; [|reflexivity].
    destruct (f =? 0); [reflexivity | exact Hf]. }
  assert (Hheld1 : daily_held m1) by (unfold m1; destruct stored; exact Hheld).
  destruct (clearTimers_no_daily m1 Hheld1) as (Hnone & _ & _).
  pose proof (clearTimers_firstActivation m1) as Hf2.
  cbv zeta. unfold setTimeout. simpl. split.
  - intros h t Hin Hd. simpl in Hin.
    apply in_app_or in Hin as [Hin | [[= <- <-] | []]]; [|reflexivity].
    rewrite (Hnone h t Hin) in Hd. discriminate.
  - intros h t Hin Hk. simpl in Hin |- *.
    apply in_app_or in Hin as [Hin | [[= <- <-] | []]].
    + apply timeout_is_daily in Hk. rewrite (Hnone h t Hin) in Hk. discriminate.
    + rewrite Hf2, Hfirst. exists first, ((now - first) / SUBMISSION_INTERVAL + 1).
      split; [reflexivity|]. simpl. unfold nextSubmissionTime. lia.
Qed.

Lemma fire_schedule (net : Network) (h : nat) (m : Manager) :
  daily_held m /\ timeout_on_grid m ->
  daily_held (fire net h m) /\ timeout_on_grid (fire net h m).
Proof.
  intros [Hheld Hgrid]. unfold fire.
  destruct (find_timer h (timers m)) as [t|] eqn:Hfind; [|auto].
  apply find_timer_In in Hfind.
  destruct (kind t) eqn:Hkind.
  - (* the timeout of the schedule *)
    assert (Hd : is_daily t = true) by (unfold is_daily; by rewrite Hkind).
    pose proof (Hheld h t Hfind Hd) as Hh.
    set (m1 := clearTimeout h m).
    set (m2 := attemptSubmission net (fireAt t) m1).
    assert (Hnone : forall h' t', In (h', t') (timers m2) -> is_daily t' = false).
    { intros h' t' Hin. destruct (is_daily t') eqn:Hd'; [|reflexivity].
      destruct (retry_only_attemptSubmission net (fireAt t) m1) as (_ & _ & Hsub).
      specialize (Hsub h' t' Hin Hd'). unfold m1, clearTimeout in Hsub. simpl in Hsub.
      apply filter_In in Hsub as [Hin' Hne].
      specialize (Hheld h' t' Hin' Hd'). rewrite Hh in Hheld. injection Hheld as ->.
      simpl in Hne. by rewrite Nat.eqb_refl in Hne. }
    unfold setInterval, setTimeout. simpl. split.
    + intros h' t' Hin Hd'. simpl in Hin.
      apply in_app_or in Hin as [Hin | [[= <- <-] | []]]; [|reflexivity].
      rewrite (Hnone h' t' Hin) in Hd'. discriminate.
    + intros h' t' Hin Hk. simpl in Hin.
      apply in_app_or in Hin as [Hin | [[= <- <-] | []]]; [|discriminate].
      apply timeout_is_daily in Hk. rewrite (Hnone h' t' Hin) in Hk. discriminate.
  - (* the interval *)
    assert (Hd : is_daily t = true) by (unfold is_daily; by rewrite Hkind).
    pose proof (Hheld h t Hfind Hd) as Hh.
    apply (retry_only_keeps _ _ (retry_only_attemptSubmission net (fireAt t) _)).
    unfold daily_held, timeout_on_grid, rearm. simpl. split.
    + intros h' t' Hin Hd'. apply in_map_iff in Hin as ([x u] & Heq & Hin). simpl in Heq.
      destruct (Nat.eqb x h); injection Heq as <- <-; [exact Hh | eauto].
    + intros h' t' Hin Hk. apply in_map_iff in Hin as ([x u] & Heq & Hin). simpl in Heq.
      destruct (Nat.eqb x h); injection Heq as <- <-; [discriminate | eauto].
  - (* a retry *)
    apply (retry_only_keeps m); [|auto].
    eapply retry_only_trans; [apply retry_only_clearTimeout|].
    apply retry_only_retry_callback.
Qed.

Lemma no_daily_schedule (m : Manager) :
  (forall h t, In (h, t) (timers m) -> is_daily t = false) ->
  daily_held m /\ timeout_on_grid m.
Proof.
  intros Hnone. split; intros h t Hin Hd; [|apply timeout_is_daily in Hd];
    rewrite (Hnone h t Hin) in Hd; discriminate.
Qed.

Lemma act_schedule (host : Host) (net : Network) (a : Action) (m : Manager) :
  daily_held m /\ timeout_on_grid m ->
  daily_held (act host net a m) /\ timeout_on_grid (act host net a m).
Proof.
  intros Hok. destruct a as [h|now|on now iso|clock t metadata|]; simpl.
  - by apply fire_schedule.
  - exact (retry_only_keeps _ _ (retry_only_manualSubmit net now m) Hok).
  - unfold updateTelemetryStatus.
    destruct on, (isEnabled m); cbn [andb negb]; try exact Hok.
    + exact (setup_schedule now (set_isEnabled true m) (proj1 Hok)).
    + apply no_daily_schedule.
      exact (proj1 (clearTimers_no_daily (set_isEnabled false m) (proj1 Hok))).
  - unfold trackEvent. destruct (isEnabled m); exact Hok.
  - apply no_daily_schedule. exact (proj1 (clearTimers_no_daily m (proj1 Hok))).
Qed.

Lemma run_schedule (host : Host) (net : Network) (actions : list Action) : forall m,
  daily_held m /\ timeout_on_grid m ->
  daily_held (run host net actions m) /\ timeout_on_grid (run host net actions m).
Proof.
  induction actions as [|a actions IH]; intros m Hok; [exact Hok|].
  simpl. apply IH. by apply act_schedule.
Qed.

End DailySchedule.

Section TimerHandles.
Import Json Client.

Lemma distinct_filter (f : nat * Timer -> bool) (ts : list (nat * Timer)) :
  NoDup (map fst ts) -> NoDup (map fst (List.filter f ts)).
Proof.
  induction ts as [|e ts IH]; simpl; intros H; [constructor|].
  apply NoDup_cons in H as [Hnot Hrest].
  destruct (f e); simpl; [|auto].
  apply NoDup_cons. split; [|auto].
  intros Hin. apply Hnot. apply list_elem_of_In. apply list_elem_of_In in Hin.
  apply in_map_iff in Hin as (x & Hx & Hin). apply filter_In in Hin as [Hin _].
  apply in_map_iff. eauto.
Qed.

Lemma rearm_handles (h : nat) (t : Timer) (ts : list (nat * Timer)) :
  map fst (rearm h t ts) = map fst ts.
Proof.
  unfold rearm. induction ts as [|[x u] ts IH]; simpl; [reflexivity|].
  rewrite IH. by destruct (Nat.eqb_spec x h) as [->|_].
Qed.

Lemma well_formed_setTimeout (k : TimerKind) (delay now : Z) (m : Manager) :
  well_formed m -> well_formed (snd (setTimeout k delay now m)).
Proof.
  intros [Hfresh Hdistinct]. split; [by apply handles_fresh_setTimeout|].
  unfold handles_distinct, setTimeout. simpl. rewrite map_app. simpl.
  apply NoDup_app. split; [exact Hdistinct|]. split; [|apply NoDup_singleton].
  intros x Hx Hin. apply list_elem_of_In in Hx. apply in_map_iff in Hx as (e & <- & He).
  apply list_elem_of_In in Hin. destruct Hin as [Heq|[]].
  unfold handles_fresh in Hfresh. rewrite Forall_forall in Hfresh.
  apply list_elem_of_In, Hfresh in He. lia.
Qed.

Lemma well_formed_clearTimeout (h : nat) (m : Manager) :
  well_formed m -> well_formed (clearTimeout h m).
Proof.
  intros [Hfresh Hdistinct]. split; [by apply handles_fresh_clearTimeout|].
  exact (distinct_filter _ _ Hdistinct).
Qed.

Lemma well_formed_clearTimers (m : Manager) : well_formed m -> well_formed (clearTimers m).
Proof.
  intros H. unfold clearTimers.
  destruct (submissionTimer m) as [h|]; simpl.
  - destruct (retryTimer m) as [h'|]; simpl;
      repeat apply well_formed_clearTimeout; exact H.
  - destruct (retryTimer m) as [h'|]; [apply well_formed_clearTimeout|]; exact H.
Qed.

Lemma well_formed_scheduleRetry (now : Z) (m : Manager) :
  well_formed m -> well_formed (scheduleRetry now m).
Proof.
  intros H. unfold scheduleRetry.
  destruct (_ <=? _)%nat; [exact H|].
  exact (well_formed_setTimeout RetryTimeout _ now m H).
Qed.

Lemma well_formed_submit (net : Network) (now : Z) (m : Manager) :
  well_formed m -> well_formed (submitTelemetryData net now m).
Proof.
  intros H. unfold submitTelemetryData, submit.
  destruct (isEnabled m); simpl; [|exact H].
  destruct (telemetryFile m) as [d|]; simpl.
  - destruct (events d) as [|e es]; simpl; [exact H|].
    pose proof (sendToBackend_effect net now d m) as Heff.
    destruct (sendToBackend net now d m) as [m1 [[]|err]]; simpl in *; subst m1.
    + destruct (retryTimer m) as [h|] eqn:Hrt; simpl; rewrite ?Hrt;
        [apply (well_formed_clearTimeout h) |]; exact H.
    + destruct (_ <? _)%nat; [apply well_formed_scheduleRetry|]; exact H.
  - destruct (_ <? _)%nat; [apply well_formed_scheduleRetry|]; exact H.
Qed.

Lemma well_formed_attemptSubmission (net : Network) (now : Z) (m : Manager) :
  well_formed m -> well_formed (attemptSubmission net now m).
Proof.
  intros H. unfold attemptSubmission.
  destruct (negb (reachable net now));
    [apply well_formed_scheduleRetry | apply well_formed_submit]; exact H.
Qed.

Lemma well_formed_retry_callback (net : Network) (now : Z) (m : Manager) :
  well_formed m -> well_formed (retry_callback net now m).
Proof.
  intros H. unfold retry_callback.
  destruct (negb (reachable net now));
    [apply well_formed_scheduleRetry | apply well_formed_submit]; exact H.
Qed.

Lemma well_formed_setup (now : Z) (m : Manager) :
  well_formed m -> well_formed (setupSubmissionSchedule now m).
Proof.
  intros H. unfold setupSubmissionSchedule.
  apply (well_formed_setTimeout SubmissionTimeout).
  apply well_formed_clearTimers.
  destruct (firstActivation m) as [f|]; [destruct (f =? 0)|]; exact H.
Qed.

Lemma well_formed_fire (net : Network) (h : nat) (m : Manager) :
  well_formed m -> well_formed (fire net h m).
Proof.
  intros H. pose proof (handles_fresh_fire net h m (proj1 H)) as Hfresh.
  split; [exact Hfresh|]. clear Hfresh. unfold fire.
  destruct (find_timer h (timers m)) as [t|] eqn:Hfind; [|exact (proj2 H)].
  destruct (kind t).
  - apply (well_formed_setTimeout SubmissionInterval).
    apply well_formed_attemptSubmission, well_formed_clearTimeout, H.
  - apply well_formed_attemptSubmission. split.
    + unfold handles_fresh, rearm. simpl.
      apply Forall_forall. intros e He.
      apply list_elem_of_In, in_map_iff in He as (e0 & <- & He0).
      destruct H as [Hf _]. unfold handles_fresh in Hf. rewrite Forall_forall in Hf.
      destruct (Nat.eqb_spec (fst e0) h) as [Heq|_]; simpl.
      * apply find_timer_In in Hfind. apply (Hf (h, t)). by apply list_elem_of_In.
      * apply (Hf e0). by apply list_elem_of_In.
    + unfold handles_distinct. simpl. rewrite rearm_handles. exact (proj2 H).
  - apply well_formed_retry_callback, well_formed_clearTimeout, H.
Qed.

Lemma well_formed_act (host : Host) (net : Network) (a : Action) (m : Manager) :
  well_formed m -> well_formed (act host net a m).
Proof.
  intros H. destruct a as [h|now|on now iso|clock t metadata|]; simpl.
  - by apply well_formed_fire.
  - unfold manualSubmit. destruct (negb (isEnabled m)); [exact H | by apply well_formed_submit].
  - unfold updateTelemetryStatus.
    destruct on, (isEnabled m); cbn [andb negb]; try exact H.
    + exact (well_formed_setup now (set_isEnabled true m) H).
    + exact (well_formed_clearTimers (set_isEnabled false m) H).
  - unfold trackEvent. destruct (isEnabled m); exact H.
  - by apply well_formed_clearTimers.
Qed.

Lemma well_formed_run (host : Host) (net : Network) (actions : list Action) : forall m,
  well_formed m -> well_formed (run host net actions m).
Proof.
  induction actions as [|a actions IH]; intros m H; [exact H|].
  simpl. apply IH. by apply well_formed_act.
Qed.

Lemma filter_none {A : Type} (f : A -> bool) (l : list A) :
  (forall x, In x l -> f x = false) -> List.filter f l = [].
Proof.
  induction l as [|a l IH]; intros H; [reflexivity|].
  simpl. rewrite (H a) by (by left). apply IH. intros x Hx. apply H. by right.
Qed.

(** With distinct handles, the timers that share one handle are one. *)
Lemma one_per_handle (f : Timer -> bool) (h0 : nat) (ts : list (nat * Timer)) :
  NoDup (map fst ts) ->
  (forall h t, In (h, t) ts -> f t = true -> h = h0) ->
  (List.length (List.filter (fun e => f (snd e)) ts) <= 1)%nat.
Proof.
  induction ts as [|[x u] ts IH]; simpl; intros Hnd Hall; [lia|].
  apply NoDup_cons in Hnd as [Hnot Hrest].
  destruct (f u) eqn:Hu; simpl.
  - rewrite filter_none; [simpl; lia|].
    intros [y v] Hin. simpl. destruct (f v) eqn:Hv; [|reflexivity].
    exfalso. apply Hnot. apply list_elem_of_In, in_map_iff.
    exists (y, v). split; [|exact Hin]. simpl.
    rewrite (Hall y v) by auto. symmetry. apply (Hall x u); auto.
  - apply IH; [exact Hrest|]. intros h t Hin. apply Hall. by right.
Qed.

Lemma no_timers_start (m : Manager) :
  timers m = [] -> well_formed m /\ daily_held m /\ timeout_on_grid m.
Proof.
  intros H. unfold well_formed, handles_fresh, handles_distinct, daily_held, timeout_on_grid.
  rewrite H. repeat split; try constructor; intros h t [].
Qed.

(** X19. In a session that starts with no timer pending, at most one timer
    of the daily schedule (the first timeout or the interval) is pending at
    any time, whatever happens, each callback running to its end before the
    next thing happens; it is the one held in [submissionTimer].  While it
    is the first timeout, it is due at the first activation plus a whole
    number of 24-hour intervals. *)
Theorem one_daily_timer (host : Host) (net : Network) (actions : list Action)
    (m : Manager) :
  timers m = [] ->
  let m' := run host net actions m in
  (List.length (List.filter (fun e => is_daily (snd e)) (timers m')) <= 1)%nat
  /\ forall h t, In (h, t) (timers m') -> is_daily t = true ->
       submissionTimer m' = Some h
       /\ (kind t = SubmissionTimeout ->
           exists f k, firstActivation m' = Some f
                       /\ fireAt t = f + k * (24 * 60 * 60 * 1000)).
Proof.
  intros Hstart m'.
  destruct (no_timers_start m Hstart) as (Hwf & Hsched).
  destruct (well_formed_run host net actions m Hwf) as [_ Hdistinct].
  destruct (run_schedule host net actions m Hsched) as [Hheld Hgrid].
  fold m' in Hdistinct, Hheld, Hgrid. split.
  - destruct (submissionTimer m') as [h0|] eqn:Hs.
    + apply (one_per_handle is_daily h0); [exact Hdistinct|].
      intros h t Hin Hd. specialize (Hheld h t Hin Hd). congruence.
    + rewrite filter_none; [simpl; lia|].
      intros [h t] Hin. simpl. destruct (is_daily t) eqn:Hd; [|reflexivity].
      specialize (Hheld h t Hin Hd). congruence.
  - intros h t Hin Hd. split; [exact (Hheld h t Hin Hd)|].
    intros Hk. exact (Hgrid h t Hin Hk).
Qed.

(** Switched on at [T0], off, and on again thirty hours after [T0]: the
    first timeout of the second schedule is the one daily timer, due at
    [T0 + 48 h].  Once it has fired, the interval is. *)
Lemma one_daily_timer_sample :
  let actions := [UpdateStatus true Samples.T0 "2025-09-27T19:06:40.000Z";
                  UpdateStatus false (Samples.T0 + Samples.hour) "2025-09-27T20:06:40.000Z";
                  UpdateStatus true (Samples.T0 + 30 * Samples.hour)
                    "2025-09-29T01:06:40.000Z"] in
  let m' := run Samples.sample_host Samples.offline actions (initial None None) in
  let m2 := run Samples.sample_host Samples.offline (actions ++ [TimerFires 1])
                (initial None None) in
  List.filter (fun e => is_daily (snd e)) (timers m')
  = [(1%nat, {| kind := SubmissionTimeout; fireAt := Samples.T0 + 48 * Samples.hour |})]
  /\ submissionTimer m' = Some 1%nat
  /\ firstActivation m' = Some Samples.T0
  /\ map (fun e => (fst e, kind (snd e)))
         (List.filter (fun e => is_daily (snd e)) (timers m2))
     = [(3%nat, SubmissionInterval)]
  /\ submissionTimer m2 = Some 3%nat.
Proof.
  intros actions m' m2.
  destruct (one_daily_timer Samples.sample_host Samples.offline actions (initial None None)
              eq_refl) as [_ Hheld].
  destruct (one_daily_timer Samples.sample_host Samples.offline (actions ++ [TimerFires 1])
              (initial None None) eq_refl) as [_ Hheld2].
  fold m' in Hheld. fold m2 in Hheld2.
  assert (Ht : List.filter (fun e => is_daily (snd e)) (timers m')
               = [(1%nat, {| kind := SubmissionTimeout;
                             fireAt := Samples.T0 + 48 * Samples.hour |})])
    by (vm_compute; reflexivity).
  assert (Hin : In (1%nat, {| kind := SubmissionTimeout;
                              fireAt := Samples.T0 + 48 * Samples.hour |}) (timers m')).
  { assert (H : In (1%nat, {| kind := SubmissionTimeout;
                              fireAt := Samples.T0 + 48 * Samples.hour |})
                   (List.filter (fun e => is_daily (snd e)) (timers m')))
      by (rewrite Ht; by left).
    by apply filter_In in H as [H _]. }
  destruct (Hheld _ _ Hin eq_refl) as [Hs Hgrid].
  destruct (Hgrid eq_refl) as (f & k & Hf & _).
  split; [exact Ht|]. split; [exact Hs|].
  split; [vm_compute; reflexivity|].
  assert (Ht2 : exists at2,
             List.filter (fun e => is_daily (snd e)) (timers m2)
             = [(3%nat, {| kind := SubmissionInterval; fireAt := at2 |})])
    by (eexists; vm_compute; reflexivity).
  destruct Ht2 as (at2 & Ht2).
  split; [by rewrite Ht2|].
  apply (Hheld2 3%nat {| kind := SubmissionInterval; fireAt := at2 |}); [|reflexivity].
  assert (H : In (3%nat, {| kind := SubmissionInterval; fireAt := at2 |})
                 (List.filter (fun e => is_daily (snd e)) (timers m2)))
    by (rewrite Ht2; by left).
  by apply filter_In in H as [H _].
Defined.



End TimerHandles.

(** ** Start-up *)
Section StartUp.
Import Json Client.
Variable getTime : string -> option Z.

Lemma filter_keeps_order {A : Type} (f : A -> bool) (l : list A) :
  sublist (List.filter f l) l.
Proof.
  induction l as [|a l IH]; simpl; [constructor|].
  destruct (f a); [by apply sublist_skip | by apply sublist_cons].
Qed.

(** X21. The pruning pass touches the event list of the batch file and
    nothing else: the counters of [aggregatedStats] and the header of the
    batch stay as they are (so the counters can exceed the events left),
    the events kept are in their order, an event whose time stamp does not
    parse is removed, a second pass at the same instant changes nothing,
    and timers, posted bodies and settings of the manager are untouched. *)
Theorem pruning_leaves_the_counters (now : Z) (m : Manager) (d : TelemetryData) :
  telemetryFile m = Some d ->
  let m' := cleanOldData getTime now m in
  exists d',
    telemetryFile m' = Some d'
    /\ aggregatedStats d' = aggregatedStats d
    /\ (sessionId d', extensionVersion d', vscodeVersion d', platform d', weekStart d')
       = (sessionId d, extensionVersion d, vscodeVersion d, platform d, weekStart d)
    /\ sublist (events d') (events d)
    /\ (forall e, In e (events d) -> getTime (timestamp e) = None -> ~ In e (events d'))
    /\ cleanOldData getTime now m' = m'
    /\ (isEnabled m', activeDays m', posted m', timers m', retryCount m', firstActivation m')
       = (isEnabled m, activeDays m, posted m, timers m, retryCount m, firstActivation m).
Proof.
  intros Hfile m'.
  set (keep := is_recent getTime (now - MAX_DATA_AGE)).
  assert (Hbad : forall e, getTime (timestamp e) = None -> keep e = false).
  { intros e He. unfold keep, is_recent. by rewrite He. }
  destruct (cleanOldData_spec getTime now m d Hfile) as [[Hall Hsame] | [_ Hwrite]];
    fold keep in Hall || fold keep in Hwrite.
  - exists d. unfold m'. rewrite Hsame. split; [exact Hfile|].
    split; [reflexivity|]. split; [reflexivity|]. split; [reflexivity|].
    split; [|split; [exact Hsame | reflexivity]].
    intros e Hin He _. rewrite <- Hall in Hin. apply filter_In in Hin as [_ Hin].
    rewrite (Hbad e He) in Hin. discriminate.
  - exists (with_events (List.filter keep (events d)) d). unfold m'. rewrite Hwrite.
    split; [reflexivity|]. split; [reflexivity|]. split; [reflexivity|].
    split; [apply filter_keeps_order|]. split.
    { intros e _ He Hin. simpl in Hin. apply filter_In in Hin as [_ Hin].
      rewrite (Hbad e He) in Hin. discriminate. }
    split; [|reflexivity].
    unfold cleanOldData. simpl. fold keep.
    rewrite (filter_all keep (List.filter keep (events d)))
      by (intros x Hx; by apply filter_In in Hx as [_ Hx]).
    by rewrite Nat.ltb_irrefl.
Qed.

Lemma next_within_a_day (first now : Z) :
  now < nextSubmissionTime first now <= now + SUBMISSION_INTERVAL.
Proof.
  unfold nextSubmissionTime.
  assert (Hpos : 0 < SUBMISSION_INTERVAL) by (unfold SUBMISSION_INTERVAL; lia).
  pose proof (Z.div_mod (now - first) SUBMISSION_INTERVAL ltac:(lia)) as Hdm.
  pose proof (Z.mod_pos_bound (now - first) SUBMISSION_INTERVAL Hpos) as Hr.
  nia.
Qed.

(** X22. Start-up.  With the stored setting off the manager arms nothing,
    writes nothing and posts nothing.  With the setting on it prunes the
    batch file, marks the day and arms one timer; nothing is submitted at
    start-up, however long the editor was closed: the timer is due after
    the start and at most 24 hours later, on the grid of the stored first
    activation, or of the start itself when none is stored. *)
Theorem session_start (enabled : bool) (cleanNow scheduleNow : Z) (iso : string)
    (stored : option Z) (file : option TelemetryData) :
  let m := initializeTelemetry getTime enabled cleanNow scheduleNow iso (initial stored file) in
  posted m = []
  /\ (enabled = false -> m = initial stored file)
  /\ (enabled = true ->
      exists first k,
        firstActivation m = Some first
        /\ (forall f, stored = Some f -> f <> 0 -> first = f)
        /\ (stored = None \/ stored = Some 0 -> first = scheduleNow)
        /\ timers m = [(0%nat, {| kind := SubmissionTimeout;
                                  fireAt := first + k * SUBMISSION_INTERVAL |})]
        /\ submissionTimer m = Some 0%nat
        /\ scheduleNow < first + k * SUBMISSION_INTERVAL <= scheduleNow + SUBMISSION_INTERVAL
        /\ activeDays m = {[Server.before "T" iso]}
        /\ telemetryFile m
           = telemetryFile (cleanOldData getTime cleanNow (initial stored file))).
Proof.
  intros m. unfold m, initializeTelemetry.
  destruct enabled; [|repeat split; discriminate].
  set (m0 := cleanOldData getTime cleanNow (set_isEnabled true (initial stored file))).
  assert (Hm0 : timers m0 = [] /\ submissionTimer m0 = None /\ retryTimer m0 = None
                /\ nextHandle m0 = 0%nat /\ firstActivation m0 = stored
                /\ posted m0 = [] /\ activeDays m0 = ∅
                /\ telemetryFile m0
                   = telemetryFile (cleanOldData getTime cleanNow (initial stored file))).
  { unfold m0, cleanOldData. simpl. destruct file as [d|]; simpl; [|by repeat split].
    destruct (_ <? _)%nat; simpl; by repeat split. }
  destruct Hm0 as (Ht & Hs & Hr & Hn & Hf & Hp & Hd & Hfile).
  pose proof (setup_data scheduleNow m0) as Hdata.
  apply data_fields in Hdata as (_ & Hd' & Hfile' & Hp' & _).
  unfold trackDailyActivity, set_activeDays.
  cbn [posted firstActivation timers submissionTimer activeDays telemetryFile].
  split; [by rewrite Hp', Hp|]. split; [discriminate|]. intros _.
  set (first := match stored with
                | Some f => if f =? 0 then scheduleNow else f
                | None => scheduleNow
                end).
  exists first, ((scheduleNow - first) / SUBMISSION_INTERVAL + 1).
  pose proof (next_within_a_day first scheduleNow) as Hnext.
  unfold nextSubmissionTime in Hnext.
  rewrite Hd', Hd, Hfile', Hfile.
  unfold setupSubmissionSchedule, clearTimers, setTimeout, nextSubmissionTime.
  rewrite Hf. subst first.
  destruct stored as [f|]; [destruct (Z.eqb_spec f 0) as [->|Hf0]|];
    repeat (simpl; rewrite ?Hs, ?Hr, ?Ht, ?Hn, ?Hf);
    (split; [reflexivity|]);
    (split; [intros f' Hst Hne; congruence|]);
    (split; [intros [Hst|Hst]; congruence|]);
    (split; [match goal with
             | |- [(_, {| kind := _; fireAt := ?a |})] = [(_, {| kind := _; fireAt := ?b |})] =>
                 replace a with b by lia; reflexivity
             end|]);
    (split; [reflexivity|]);
    (split; [simpl in Hnext; lia|]);
    (split; [apply (right_id_L ∅ (∪)) | reflexivity]).
Qed.

End StartUp.

(** An event stamped with a word instead of a date goes with the first
    pass; the counters stay. *)
Lemma pruning_leaves_the_counters_sample :
  let odd := {| Client.eventType := Client.graph_opened; Client.timestamp := "yesterday";
                Client.anonymousId := Client.anonymousId Samples.sample_event;
                Client.metadata := None |} in
  let m := Samples.sample_manager (Some (Samples.sample_batch [odd; Samples.sample_event])) in
  let m' := Client.cleanOldData IsoDate.getTime 1759363200000 m in
  exists d', Client.telemetryFile m' = Some d'
             /\ Client.aggregatedStats d' = Samples.sample_stats
             /\ ~ In odd (Client.events d').
Proof.
  intros odd m m'.
  destruct (pruning_leaves_the_counters IsoDate.getTime 1759363200000 m
              (Samples.sample_batch [odd; Samples.sample_event]) eq_refl)
    as (d' & Hfile & Hstats & _ & _ & Hbad & _).
  exists d'. split; [exact Hfile|]. split; [exact Hstats|].
  apply (Hbad odd); [simpl; auto | vm_compute; reflexivity].
Defined.

(** ** Dates *)
Section Dates.
Import Json IsoDate Clocks.

Lemma yoe_bounds (doe : Z) : 0 <= doe <= 146096 -> 0 <= year_of_era doe <= 399.
Proof. intros H. unfold year_of_era. Z.div_mod_to_equations. lia. Qed.

Lemma doy_bounds (doe : Z) : 0 <= doe <= 146096 -> 0 <= day_of_year doe <= 365.
Proof. intros H. unfold day_of_year, year_of_era. Z.div_mod_to_equations. lia. Qed.

(** [civil_from_days] inverts [days_from_civil], with the month and the
    day in their ranges and the year within four digits for the days
    between 0000-01-01 and 9999-12-31. *)
Lemma civil_spec (z y m d : Z) :
  civil_from_days z = (y, m, d) ->
  days_from_civil y m d = z /\ 1 <= m <= 12 /\ 1 <= d <= 31
  /\ (-719528 <= z <= 2932896 -> 0 <= y <= 9999).
Proof.
  unfold civil_from_days.
  set (z' := z + 719468). set (era := z' / 146097). set (doe := z' - era * 146097).
  assert (Hdoe : 0 <= doe <= 146096) by (unfold doe, era; Z.div_mod_to_equations; lia).
  pose proof (yoe_bounds doe Hdoe) as Hyoe. pose proof (doy_bounds doe Hdoe) as Hdoy.
  assert (Hdef : day_of_year doe
                 = doe - (365 * year_of_era doe + year_of_era doe / 4 - year_of_era doe / 100))
    by reflexivity.
  assert (Hy : year_of_era doe = (doe - doe / 1460 + doe / 36524 - doe / 146096) / 365)
    by reflexivity.
  set (yoe := year_of_era doe) in *. set (doy := day_of_year doe) in *.
  set (mp := (5 * doy + 2) / 153).
  assert (Hmpdef : mp = (5 * doy + 2) / 153) by reflexivity.
  assert (Hmp : 0 <= mp <= 11) by (unfold mp; Z.div_mod_to_equations; lia).
  intros [= <- <- <-]. unfold days_from_civil.
  destruct (Z.ltb_spec mp 10) as [Hlt|Hge].
  - destruct (Z.leb_spec (mp + 3) 2) as [?|_]; [lia|].
    replace ((mp + 3 + 9) mod 12) with mp by (Z.div_mod_to_equations; lia).
    replace ((yoe + era * 400) / 400) with era by (Z.div_mod_to_equations; lia).
    split; [unfold doe in Hdef; unfold z' in *; Z.div_mod_to_equations; lia|].
    split; [lia|]. split; [Z.div_mod_to_equations; lia|].
    intros Hz. assert (Hera : -1 <= era <= 24) by (unfold era, z'; Z.div_mod_to_equations; lia).
    assert (Hz' : z' = era * 146097 + doe) by (unfold doe; lia).
    unfold z' in *. Z.div_mod_to_equations. lia.
  - destruct (Z.leb_spec (mp - 9) 2) as [_|?]; [|lia].
    replace ((mp - 9 + 9) mod 12) with mp by (Z.div_mod_to_equations; lia).
    replace ((yoe + era * 400 + 1 - 1) / 400) with era by (Z.div_mod_to_equations; lia).
    split; [unfold doe in Hdef; unfold z' in *; Z.div_mod_to_equations; lia|].
    split; [lia|]. split; [Z.div_mod_to_equations; lia|].
    intros Hz. assert (Hera : -1 <= era <= 24) by (unfold era, z'; Z.div_mod_to_equations; lia).
    assert (Hz' : z' = era * 146097 + doe) by (unfold doe; lia).
    unfold z' in *. Z.div_mod_to_equations. lia.
Qed.

Lemma days_from_civil_day (y m d d' : Z) :
  days_from_civil y m d' = days_from_civil y m d + (d' - d).
Proof. unfold days_from_civil. lia. Qed.

Lemma digit_value_digit (n : Z) : digit_value (digit n) = Some (n mod 10).
Proof.
  pose proof (Z.mod_pos_bound n 10 ltac:(lia)) as Hb. unfold digit.
  assert (Hc : n mod 10 = 0 \/ n mod 10 = 1 \/ n mod 10 = 2 \/ n mod 10 = 3 \/ n mod 10 = 4
               \/ n mod 10 = 5 \/ n mod 10 = 6 \/ n mod 10 = 7 \/ n mod 10 = 8 \/ n mod 10 = 9)
    by lia.
  destruct Hc as [->|[->|[->|[->|[->|[->|[->|[->|[->| ->]]]]]]]]]; reflexivity.
Qed.

(** A digit is no other character. *)
Lemma digit_not (c : ascii) (n : Z) : digit_value c = None -> Ascii.eqb (digit n) c = false.
Proof.
  intros Hc. destruct (Ascii.eqb_spec (digit n) c) as [<-|]; [|reflexivity].
  rewrite digit_value_digit in Hc. discriminate.
Qed.

Lemma before_digits (c : ascii) (w : nat) : forall n tail,
  digit_value c = None ->
  Server.before c (digits w n tail) = digits w n (Server.before c tail).
Proof.
  induction w as [|w IH]; intros n tail Hc; [reflexivity|].
  cbn [digits]. rewrite IH by exact Hc. cbn [Server.before].
  by rewrite (digit_not c n Hc).
Qed.

Lemma two_digits (n : Z) : 0 <= n <= 99 -> 10 * (10 * 0 + (n / 10) mod 10) + n mod 10 = n.
Proof. intros H. Z.div_mod_to_equations. lia. Qed.

Lemma three_digits (n : Z) :
  0 <= n <= 999 ->
  10 * (10 * (10 * 0 + (n / 10 / 10) mod 10) + (n / 10) mod 10) + n mod 10 = n.
Proof. intros H. Z.div_mod_to_equations. lia. Qed.

Lemma four_digits (n : Z) :
  0 <= n <= 9999 ->
  10 * (10 * (10 * (10 * 0 + (n / 10 / 10 / 10) mod 10) + (n / 10 / 10) mod 10)
        + (n / 10) mod 10) + n mod 10 = n.
Proof. intros H. Z.div_mod_to_equations. lia. Qed.

(** A date and a time of day, printed and read back. *)
Lemma print_and_read (y m d hour minute sec ms : Z) :
  0 <= y <= 9999 -> 0 <= m <= 99 -> 0 <= d <= 99 -> 0 <= hour <= 99 ->
  0 <= minute <= 99 -> 0 <= sec <= 99 -> 0 <= ms <= 999 ->
  let printed :=
    digits 4 y (String "-" (digits 2 m (String "-" (digits 2 d
      (String "T" (digits 2 hour (String ":" (digits 2 minute (String ":" (digits 2 sec
         (String "." (digits 3 ms "Z")))))))))))) in
  String.length printed = 24%nat
  /\ getTime printed
     = Some ((((days_from_civil y m d * 24 + hour) * 60 + minute) * 60 + sec) * 1000 + ms).
Proof.
  intros Hy Hm Hd Hh Hmi Hs Hms printed. unfold printed.
  cbn [digits]. split; [reflexivity|].
  unfold getTime.
  cbn [String.length Nat.eqb negb substring String.eqb Ascii.eqb Bool.eqb andb].
  unfold field. cbn [substring number_from].
  repeat (rewrite digit_value_digit; cbn [number_from]).
  by rewrite (four_digits y Hy), (two_digits m Hm), (two_digits d Hd), (two_digits hour Hh),
    (two_digits minute Hmi), (two_digits sec Hs), (three_digits ms Hms).
Qed.

(** Within the four-digit years, the parser reads back what
    [toISOString] prints, and the part before the [T] is the date. *)
Lemma iso_round_trip (t : Z) :
  in_four_digit_years t ->
  getTime (toISOString t) = Some t
  /\ String.length (toISOString t) = 24%nat
  /\ Server.before "T" (toISOString t) = date_digits (t / msPerDay) "".
Proof.
  unfold in_four_digit_years. intros Ht. unfold toISOString, date_digits.
  set (day := t / msPerDay). set (ms := t mod msPerDay).
  assert (Hday : -719528 <= day <= 2932896)
    by (unfold day, msPerDay; Z.div_mod_to_equations; lia).
  assert (Hms : 0 <= ms < 86400000) by (unfold ms, msPerDay; Z.div_mod_to_equations; lia).
  assert (Ht' : t = day * 86400000 + ms)
    by (unfold day, ms, msPerDay; Z.div_mod_to_equations; lia).
  destruct (civil_from_days day) as [[y m] d] eqn:Hc.
  destruct (civil_spec day y m d Hc) as (Hback & Hm & Hd & Hy). specialize (Hy Hday).
  unfold year_digits.
  destruct (Z.leb_spec 0 y); [|lia]. destruct (Z.leb_spec y 9999); [|lia]. cbn [andb].
  destruct (print_and_read y m d (ms / 3600000) (ms / 60000 mod 60) (ms / 1000 mod 60)
              (ms mod 1000)) as [Hlen Hread];
    try (Z.div_mod_to_equations; lia).
  split; [|split; [exact Hlen|]].
  - rewrite Hread, Hback. f_equal. Z.div_mod_to_equations. lia.
  - rewrite !before_digits by reflexivity. cbn [Server.before Ascii.eqb Bool.eqb].
    rewrite !before_digits by reflexivity. cbn [Server.before Ascii.eqb Bool.eqb].
    rewrite !before_digits by reflexivity. reflexivity.
Qed.

Lemma date_digits_tail (day : Z) (tail : string) :
  date_digits day tail = date_digits day "" +:+ tail.
Proof.
  unfold date_digits, year_digits. destruct (civil_from_days day) as [[y m] d].
  destruct ((0 <=? y) && (y <=? 9999)); reflexivity.
Qed.

(** Midnight, printed and read back. *)
Lemma midnight_round_trip (day : Z) :
  -719528 <= day <= 2932896 ->
  toISOString (day * msPerDay) = date_digits day "" +:+ "T00:00:00.000Z"
  /\ getTime (date_digits day "" +:+ "T00:00:00.000Z") = Some (day * msPerDay)
  /\ String.length (date_digits day "") = 10%nat.
Proof.
  intros Hday.
  assert (Hin : in_four_digit_years (day * msPerDay))
    by (unfold in_four_digit_years, msPerDay; lia).
  assert (Hprint : toISOString (day * msPerDay) = date_digits day "" +:+ "T00:00:00.000Z").
  { unfold toISOString.
    replace (day * msPerDay / msPerDay) with day
      by (unfold msPerDay; Z.div_mod_to_equations; lia).
    replace (day * msPerDay mod msPerDay) with 0
      by (unfold msPerDay; Z.div_mod_to_equations; lia).
    by rewrite date_digits_tail. }
  destruct (iso_round_trip _ Hin) as (Hread & Hlen & _).
  split; [exact Hprint|]. split; [by rewrite <- Hprint|].
  rewrite Hprint, length_append in Hlen. simpl in Hlen. lia.
Qed.

(** The dates of two days between 0000-01-01 and 9999-12-31 differ. *)
Lemma date_digits_injective (d1 d2 : Z) :
  -719528 <= d1 <= 2932896 -> -719528 <= d2 <= 2932896 ->
  date_digits d1 "" = date_digits d2 "" -> d1 = d2.
Proof.
  intros H1 H2 Heq.
  destruct (midnight_round_trip d1 H1) as (_ & R1 & _).
  destruct (midnight_round_trip d2 H2) as (_ & R2 & _).
  rewrite Heq, R2 in R1. injection R1. unfold msPerDay. lia.
Qed.

(** X23. [getWeekStart] returns the date of the Monday of the ISO week of
    [now] in UTC, except on a Sunday, when it returns the date of the next
    day: a Monday in the future.  The result is a ten-character date that
    reads back as the midnight of that Monday. *)
Theorem week_start_is_a_monday (now : Z) :
  in_four_digit_years (now - 5 * msPerDay) ->
  in_four_digit_years (now + msPerDay) ->
  let day := now / msPerDay in
  let start := day - weekday day + 1 in
  getWeekStart now = date_digits start ""
  /\ weekday start = 1
  /\ day - 5 <= start <= day + 1
  /\ (start = day + 1 <-> weekday day = 0)
  /\ String.length (getWeekStart now) = 10%nat
  /\ getTime (getWeekStart now +:+ "T00:00:00.000Z") = Some (start * msPerDay).
Proof.
  intros Hlo Hhi day start. unfold in_four_digit_years in Hlo, Hhi.
  assert (Hwd : 0 <= weekday day <= 6) by (unfold weekday; Z.div_mod_to_equations; lia).
  assert (Hstart : -719528 <= start <= 2932896)
    by (unfold start, day, msPerDay in *; Z.div_mod_to_equations; lia).
  assert (Hweek : getWeekStart now = date_digits start "").
  { unfold getWeekStart. fold day.
    destruct (civil_from_days day) as [[y m] d] eqn:Hc.
    destruct (civil_spec day y m d Hc) as (Hback & _).
    rewrite (days_from_civil_day y m d 1), Hback.
    replace (((day + (1 - d) + (d - weekday day + 1) - 1) * msPerDay + now mod msPerDay)
             / msPerDay * msPerDay)
      with (start * msPerDay)
      by (unfold start, msPerDay; Z.div_mod_to_equations; lia).
    destruct (iso_round_trip (start * msPerDay)) as (_ & _ & ->);
      [unfold in_four_digit_years, msPerDay; lia|].
    f_equal. unfold msPerDay. Z.div_mod_to_equations. lia. }
  destruct (midnight_round_trip start Hstart) as (_ & Hread & Hlen).
  rewrite Hweek. split; [reflexivity|].
  split; [unfold start, weekday; Z.div_mod_to_equations; lia|].
  split; [lia|]. split; [lia|]. split; [exact Hlen | exact Hread].
Qed.

(** Wednesday 2025-10-01 belongs to the week of Monday 2025-09-29; Sunday
    2025-10-05 is given the Monday after it. *)
Lemma week_start_is_a_monday_sample :
  getWeekStart 1759312800123 = "2025-09-29"%string
  /\ weekday (1759312800123 / msPerDay) = 3
  /\ getWeekStart 1759665600000 = "2025-10-06"%string
  /\ weekday (1759665600000 / msPerDay) = 0.
Proof.
  destruct (week_start_is_a_monday 1759312800123) as (H1 & _);
    [unfold in_four_digit_years, msPerDay; lia ..|].
  destruct (week_start_is_a_monday 1759665600000) as (H2 & _);
    [unfold in_four_digit_years, msPerDay; lia ..|].
  rewrite H1, H2. vm_compute. auto.
Defined.

End Dates.

Section ClockProperties.
Import Json IsoDate Clocks.

Lemma replace_colon_dot_cons (a : ascii) (s : string) :
  Server.replace_colon_dot (String a s)
  = String (if Ascii.eqb a ":" || Ascii.eqb a "." then "-"%char else a)
           (Server.replace_colon_dot s).
Proof. reflexivity. Qed.

Lemma before_replace (s : string) :
  Server.before "T" (Server.replace_colon_dot s)
  = Server.replace_colon_dot (Server.before "T" s).
Proof.
  induction s as [|a s IH]; [reflexivity|].
  rewrite replace_colon_dot_cons. cbn [Server.before].
  destruct (Ascii.eqb_spec a "T") as [->|Hne]; [reflexivity|].
  rewrite replace_colon_dot_cons, <- IH.
  destruct (Ascii.eqb a ":" || Ascii.eqb a "."); [reflexivity|].
  by destruct (Ascii.eqb_spec a "T").
Qed.

Lemma replace_digits (w : nat) : forall n tail,
  Server.replace_colon_dot (digits w n tail) = digits w n (Server.replace_colon_dot tail).
Proof.
  induction w as [|w IH]; intros n tail; [reflexivity|].
  cbn [digits]. rewrite IH, replace_colon_dot_cons.
  by rewrite (digit_not ":" n), (digit_not "." n).
Qed.

Lemma replace_date (day : Z) :
  -719528 <= day <= 2932896 ->
  Server.replace_colon_dot (date_digits day "") = date_digits day "".
Proof.
  intros Hday. unfold date_digits.
  destruct (civil_from_days day) as [[y m] d] eqn:Hc.
  destruct (civil_spec day y m d Hc) as (_ & _ & _ & Hy). specialize (Hy Hday).
  unfold year_digits.
  destruct (Z.leb_spec 0 y); [|lia]. destruct (Z.leb_spec y 9999); [|lia]. cbn [andb].
  rewrite replace_digits, replace_colon_dot_cons. cbn [Ascii.eqb Bool.eqb orb].
  rewrite replace_digits, replace_colon_dot_cons. cbn [Ascii.eqb Bool.eqb orb].
  by rewrite replace_digits.
Qed.

Lemma generateFilename_world (received iso random : string) :
  Server.generateFilename
    {| Server.receivedAtISO := received; Server.filenameISO := iso;
       Server.randomHex := random |}
  = "telemetry_" +:+ Server.before "T" (Server.replace_colon_dot iso)
    +:+ "_" +:+ random +:+ ".json".
Proof. reflexivity. Qed.

(** X24. The name of a stored file carries the UTC date of the instant at
    which it was made, as [YYYY-MM-DD], and nothing of the time of day:
    the name is [telemetry_], the date, an underscore, the random part and
    [.json].  Two files made on the same day differ in the random part
    only. *)
Theorem file_name_carries_the_date (receivedAt filenameAt : Z) (random : string) :
  in_four_digit_years filenameAt ->
  let date := date_digits (filenameAt / msPerDay) "" in
  Server.generateFilename (world_at receivedAt filenameAt random)
  = "telemetry_" +:+ date +:+ "_" +:+ random +:+ ".json"
  /\ String.length date = 10%nat
  /\ getTime (date +:+ "T00:00:00.000Z") = Some (filenameAt / msPerDay * msPerDay)
  /\ forall later, in_four_digit_years later ->
       later / msPerDay = filenameAt / msPerDay ->
       Server.generateFilename (world_at receivedAt later random)
       = Server.generateFilename (world_at receivedAt filenameAt random).
Proof.
  intros Hin date.
  assert (Hname : forall t, in_four_digit_years t ->
            Server.generateFilename (world_at receivedAt t random)
            = "telemetry_" +:+ date_digits (t / msPerDay) "" +:+ "_" +:+ random +:+ ".json").
  { intros t Ht. unfold world_at. rewrite generateFilename_world.
    destruct (iso_round_trip t Ht) as (_ & _ & Hdate).
    rewrite before_replace, Hdate, replace_date; [reflexivity|].
    unfold in_four_digit_years, msPerDay in *. Z.div_mod_to_equations. lia. }
  assert (Hday : -719528 <= filenameAt / msPerDay <= 2932896)
    by (unfold in_four_digit_years, msPerDay in *; Z.div_mod_to_equations; lia).
  destruct (midnight_round_trip _ Hday) as (_ & Hread & Hlen).
  split; [by apply Hname|]. split; [exact Hlen|]. split; [exact Hread|].
  intros later Hlater Hsame. by rewrite (Hname later Hlater), (Hname filenameAt Hin), Hsame.
Qed.

Lemma file_name_carries_the_date_sample :
  Server.generateFilename (world_at 1759392000000 1759392000001 "9f3c21ab")
  = "telemetry_2025-10-02_9f3c21ab.json"%string.
Proof.
  destruct (file_name_carries_the_date 1759392000000 1759392000001 "9f3c21ab") as (-> & _);
    [unfold in_four_digit_years; lia|].
  vm_compute. reflexivity.
Defined.

Lemma filter_map_swap {A B : Type} (f : B -> bool) (g : A -> B) (l : list A) :
  List.filter f (map g l) = map g (List.filter (fun a => f (g a)) l).
Proof.
  induction l as [|a l IH]; [reflexivity|].
  simpl. rewrite IH. by destruct (f (g a)).
Qed.

Lemma tracked_timestamp (host : Client.Host) (activity event week : string)
    (t : Client.EventType) (metadata : option (list (string * json))) :
  Client.timestamp
    (Client.tracked_event host
       ({| Client.activityISO := activity; Client.eventISO := event;
           Client.weekStartDate := week |}, t, metadata))
  = event.
Proof. reflexivity. Qed.

Lemma clock_week (activity event week : string) :
  Client.weekStartDate
    {| Client.activityISO := activity; Client.eventISO := event;
       Client.weekStartDate := week |}
  = week.
Proof. reflexivity. Qed.

Lemma activeDays_mark (iso : string) (m : Client.Manager) :
  Client.activeDays (Client.trackDailyActivity iso m)
  = {[Server.before "T" iso]} ∪ Client.activeDays m.
Proof. reflexivity. Qed.

Lemma track_all (host : Client.Host) (net : Client.Network)
    (call : Client.Clock * Client.EventType * option (list (string * json)))
    (calls : list (Client.Clock * Client.EventType * option (list (string * json))))
    (m : Client.Manager) :
  Client.isEnabled m = true -> Client.telemetryFile m = None ->
  let m1 := Client.run host net (map Client.tracking (call :: calls)) m in
  exists d,
    Client.telemetryFile m1 = Some d
    /\ Client.events d = map (Client.tracked_event host) (call :: calls)
    /\ Client.weekStart d = Client.weekStartDate (fst (fst call))
    /\ Client.posted m1 = Client.posted m.
Proof.
  intros Hen Hnone m1. destruct call as [[clock t] metadata].
  destruct (trackEvent_file host clock t metadata m Hen)
    as (d1 & Hfile1 & Hev1 & _ & _ & _ & _ & _ & Hw1 & _ & Hen1 & Hp1 & _).
  rewrite Hnone in Hev1, Hw1. simpl in Hev1, Hw1.
  destruct (track_more host net calls _ d1 Hen1 Hfile1)
    as (d & Hfile & Hev & _ & Hw & _ & Hp & _).
  exists d. split; [exact Hfile|]. split; [by rewrite Hev, Hev1|].
  split; [by rewrite Hw|]. unfold m1. simpl. by rewrite Hp.
Qed.

(** X25. Events expire by the time stamp [trackEvent] gave them: when the
    pruning pass runs over a file of tracked events, the events left are
    exactly those tracked less than seven days before, in the order of the
    calls; an event tracked seven days before, to the millisecond, is
    removed.  The week of the batch is that of the first call. *)
Theorem tracked_events_expire_after_seven_days (host : Client.Host) (net : Client.Network)
    (c : TimedCall) (cs : list TimedCall) (now : Z) (m : Client.Manager) :
  Client.isEnabled m = true ->
  Client.telemetryFile m = None ->
  Forall (fun c => in_four_digit_years (eventTime c)) (c :: cs) ->
  let m1 := Client.run host net (map Client.tracking (map call_at (c :: cs))) m in
  let m2 := Client.cleanOldData getTime now m1 in
  let kept := List.filter (fun c => now - eventTime c <? 7 * 24 * 60 * 60 * 1000) (c :: cs) in
  exists d,
    Client.telemetryFile m2 = Some d
    /\ Client.events d = map (fun c => Client.tracked_event host (call_at c)) kept
    /\ Client.weekStart d = getWeekStart (weekTime c)
    /\ Client.posted m2 = Client.posted m.
Proof.
  intros Hen Hnone Hall m1 m2 kept.
  destruct (track_all host net (call_at c) (map call_at cs) m Hen Hnone)
    as (d & Hfile & Hev & Hweek & Hposted).
  change (Client.run host net (map Client.tracking (call_at c :: map call_at cs)) m)
    with m1 in Hfile, Hposted.
  unfold call_at in Hweek. cbn [fst] in Hweek. unfold clock_at in Hweek.
  rewrite clock_week in Hweek.
  set (keep := Client.is_recent getTime (now - Client.MAX_DATA_AGE)).
  assert (Hkeep : List.filter keep (Client.events d)
                  = map (fun c => Client.tracked_event host (call_at c)) kept).
  { rewrite Hev. change (call_at c :: map call_at cs) with (map call_at (c :: cs)).
    rewrite map_map, filter_map_swap. f_equal. unfold kept.
    apply filter_ext_in. intros x Hx.
    rewrite Forall_forall in Hall. apply list_elem_of_In, Hall in Hx.
    destruct (iso_round_trip _ Hx) as (Hread & _).
    unfold keep, Client.is_recent, call_at, clock_at.
    rewrite tracked_timestamp, Hread. unfold Client.MAX_DATA_AGE.
    destruct (Z.ltb_spec (now - 7 * 24 * 60 * 60 * 1000) (eventTime x)),
      (Z.ltb_spec (now - eventTime x) (7 * 24 * 60 * 60 * 1000)); (reflexivity || lia). }
  destruct (cleanOldData_spec getTime now m1 d Hfile) as [[Hsame Hm] | [_ Hwrite]];
    fold keep in Hsame || fold keep in Hwrite.
  - exists d. unfold m2. rewrite Hm. split; [exact Hfile|].
    split; [rewrite <- Hsame; exact Hkeep|]. split; [exact Hweek | exact Hposted].
  - exists (Client.with_events (List.filter keep (Client.events d)) d).
    unfold m2. rewrite Hwrite. split; [reflexivity|]. split; [exact Hkeep|].
    split; [exact Hweek | exact Hposted].
Qed.

(** Two events, nine days and one day old at the pruning pass. *)
Lemma tracked_events_expire_after_seven_days_sample :
  let old := {| activityTime := 1758585600000; eventTime := 1758585600001;
                weekTime := 1758585600002; callType := Client.graph_opened;
                callMetadata := None |} in
  let new := {| activityTime := 1759276800000; eventTime := 1759276800001;
                weekTime := 1759276800002; callType := Client.thought_created;
                callMetadata := None |} in
  let m1 := Client.run Samples.sample_host Samples.offline
              (map Client.tracking (map call_at [old; new])) (Samples.sample_manager None) in
  exists d, Client.telemetryFile (Client.cleanOldData getTime 1759363200000 m1) = Some d
            /\ map Client.timestamp (Client.events d) = ["2025-10-01T00:00:00.001Z"%string]
            /\ Client.weekStart d = "2025-09-22"%string.
Proof.
  intros old new m1.
  destruct (tracked_events_expire_after_seven_days Samples.sample_host Samples.offline
              old [new] 1759363200000 (Samples.sample_manager None))
    as (d & Hfile & Hev & Hweek & _).
  - reflexivity.
  - reflexivity.
  - repeat constructor; unfold in_four_digit_years; simpl; lia.
  - exists d. split; [exact Hfile|]. rewrite Hev, Hweek. vm_compute. auto.
Defined.

Lemma mark_days (times : list Z) : forall (m : Client.Manager) (days : gset Z),
  (forall s, s ∈ Client.activeDays m <-> exists d, d ∈ days /\ s = date_digits d "") ->
  (forall d, d ∈ days -> -719528 <= d <= 2932896) ->
  size (Client.activeDays m) = size days ->
  Forall in_four_digit_years times ->
  size (Client.activeDays
          (fold_left (fun s t => Client.trackDailyActivity (toISOString t) s) times m))
  = size (days ∪ list_to_set (map (fun t => t / msPerDay) times)).
Proof.
  induction times as [|t times IH]; intros m days Hmem Hrange Hsize Hall.
  - simpl. by rewrite (right_id_L ∅ (∪)).
  - apply Forall_cons in Hall as [Ht Hall]. simpl.
    assert (Hday : -719528 <= t / msPerDay <= 2932896)
      by (unfold in_four_digit_years, msPerDay in *; Z.div_mod_to_equations; lia).
    destruct (iso_round_trip t Ht) as (_ & _ & Hdate).
    rewrite (assoc_L (∪)).
    rewrite (IH (Client.trackDailyActivity (toISOString t) m) (days ∪ {[t / msPerDay]}));
      [reflexivity| | | |exact Hall].
    + intros s. rewrite activeDays_mark, Hdate.
      rewrite elem_of_union, elem_of_singleton, Hmem. split.
      * intros [->|(d & Hd & ->)].
        -- exists (t / msPerDay). split; [|reflexivity].
           apply elem_of_union. right. by apply elem_of_singleton.
        -- exists d. split; [|reflexivity]. apply elem_of_union. by left.
      * intros (d & Hd & ->). apply elem_of_union in Hd as [Hd|Hd]; [right; eauto|].
        apply elem_of_singleton in Hd as ->. by left.
    + intros d Hd. apply elem_of_union in Hd as [Hd|Hd]; [by apply Hrange|].
      apply elem_of_singleton in Hd as ->. exact Hday.
    + rewrite activeDays_mark, Hdate.
      destruct (decide (t / msPerDay ∈ days)) as [Hin|Hout].
      * assert (Hs : date_digits (t / msPerDay) "" ∈ Client.activeDays m)
          by (apply Hmem; eauto).
        rewrite (subseteq_union_1_L {[date_digits (t / msPerDay) ""]})
          by (by apply singleton_subseteq_l).
        rewrite (comm_L (∪) days), (subseteq_union_1_L {[t / msPerDay]})
          by (by apply singleton_subseteq_l).
        exact Hsize.
      * assert (Hs : date_digits (t / msPerDay) "" ∉ Client.activeDays m).
        { intros Hs. apply Hmem in Hs as (d & Hd & Heq).
          apply date_digits_injective in Heq; [congruence | exact Hday | by apply Hrange]. }
        rewrite (size_union {[date_digits (t / msPerDay) ""]})
          by (by apply disjoint_singleton_l).
        rewrite (size_union days) by (by apply disjoint_singleton_r).
        rewrite !size_singleton, Hsize. lia.
Qed.

(** X26. The days the manager marks as active are UTC calendar days:
    marking the instants of a list, from no active day, leaves as many
    active days as there are distinct UTC days among the instants. *)
Theorem active_days_are_utc_days (times : list Z) (m : Client.Manager) :
  Client.activeDays m = ∅ ->
  Forall in_four_digit_years times ->
  let m' := fold_left (fun s t => Client.trackDailyActivity (toISOString t) s) times m in
  size (Client.activeDays m')
  = size (list_to_set (map (fun t => t / msPerDay) times) : gset Z).
Proof.
  intros Hnone Hall m'. unfold m'.
  rewrite (mark_days times m ∅); [by rewrite (left_id_L ∅ (∪))| | | |exact Hall].
  - intros s. rewrite Hnone. split.
    + intros Hs. by apply elem_of_empty in Hs.
    + intros (d & Hd & _). by apply elem_of_empty in Hd.
  - intros d Hd. by apply elem_of_empty in Hd.
  - by rewrite Hnone.
Qed.

(** Two marks on 2025-10-01 and one on 2025-10-02. *)
Lemma active_days_are_utc_days_sample :
  size (Client.activeDays
          (fold_left (fun s t => Client.trackDailyActivity (toISOString t) s)
             [1759276800000; 1759363199999; 1759363200000] (Client.initial None None)))
  = 2%nat.
Proof.
  rewrite (active_days_are_utc_days [1759276800000; 1759363199999; 1759363200000]
             (Client.initial None None)).
  - vm_compute. reflexivity.
  - reflexivity.
  - repeat constructor; unfold in_four_digit_years; lia.
Defined.

End ClockProperties.
